(** * The Airtable gateway of mcp-airtable/airtable-mcp-server.js

    A shallow embedding of the Express application: the models
    (BillingPlanModel, RateLimitModel, TokenScopeModel), the middleware
    (authentication, feature check, scope check, destructive-operation
    confirmation, the two rate limiters), the AirtableProvider with its
    response interceptor, the controllers and handleErrorResponse; followed
    by the properties of the admission pipeline that hold of it. *)

From Stdlib Require Import String Ascii List ZArith Lia Bool.
From stdpp Require Import base option gmap strings list.
Import ListNotations.

Set Warnings "-register-all".

Local Open Scope string_scope.
Local Open Scope Z_scope.

(* ===================================================================== *)
(** ** JavaScript values and string operations used by the server *)
(* ===================================================================== *)

Module Js.

(** Strings are sequences of 8-bit characters.  Header values reach the
    handlers decoded as Latin-1, so this is exact for them. *)

(** [s.startsWith(p)] *)
Definition startsWith (p s : string) : bool := String.prefix p s.

(** [s.split(sep)] for a one-character separator: always at least one
    piece, empty pieces are kept. *)
Fixpoint split (sep : ascii) (s : string) : list string :=
  match s with
  | EmptyString => [EmptyString]
  | String c rest =>
      if Ascii.eqb c sep then EmptyString :: split sep rest
      else match split sep rest with
           | piece :: pieces => String c piece :: pieces
           | [] => [String c EmptyString]
           end
  end.

(** [xs.join(sep)] on an array of strings. *)
Fixpoint join (sep : string) (xs : list string) : string :=
  match xs with
  | [] => ""
  | [x] => x
  | x :: rest => x +:+ sep +:+ join sep rest
  end.

(** [xs.includes(x)] on an array of strings. *)
Definition includes (xs : list string) (x : string) : bool :=
  existsb (String.eqb x) xs.

(** [xs.every(p)] *)
Definition every {A} (p : A -> bool) (xs : list A) : bool := forallb p xs.

(** The lower-case mapping of [String.prototype.toLowerCase] on the
    Latin-1 range: A-Z, and U+00C0-U+00DE without the multiplication
    sign U+00D7, move up by 32; every other character is fixed. *)
Definition lowerChar (c : ascii) : ascii :=
  let n := nat_of_ascii c in
  if ((65 <=? n)%nat && (n <=? 90)%nat)
     || ((192 <=? n)%nat && (n <=? 222)%nat && negb (n =? 215)%nat)
  then ascii_of_nat (n + 32) else c.

Fixpoint toLowerCase (s : string) : string :=
  match s with
  | EmptyString => EmptyString
  | String c rest => String (lowerChar c) (toLowerCase rest)
  end.

(** White space removed by [String.prototype.trim], within the 8-bit
    range: TAB, LF, VT, FF, CR, SPACE and NBSP. *)
Definition isWhiteSpace (c : ascii) : bool :=
  let n := nat_of_ascii c in
  ((9 <=? n)%nat && (n <=? 13)%nat) || (n =? 32)%nat || (n =? 160)%nat.

Fixpoint trimStart (s : string) : string :=
  match s with
  | EmptyString => EmptyString
  | String c rest => if isWhiteSpace c then trimStart rest else s
  end.

Fixpoint trimEnd (s : string) : string :=
  match s with
  | EmptyString => EmptyString
  | String c rest =>
      match trimEnd rest with
      | EmptyString => if isWhiteSpace c then EmptyString else String c EmptyString
      | kept => String c kept
      end
  end.

Definition trim (s : string) : string := trimEnd (trimStart s).

(** A string between double quotes, for messages that contain them. *)
Definition quoted (s : string) : string :=
  String (ascii_of_nat 34) s +:+ String (ascii_of_nat 34) EmptyString.

(** Truthiness of a value that is a string or [undefined]. *)
Definition truthyStr (o : option string) : bool :=
  match o with
  | Some s => negb (String.eqb s "")
  | None => false
  end.

(** JSON values, as [bodyParser.json()] and axios produce them.  Numbers
    are kept as integers: only their truthiness is ever inspected. *)
Inductive Value : Type :=
| Undefined
| Null
| Boolean (b : bool)
| Number (z : Z)
| Str (s : string)
| Array (items : list Value)
| Object (fields : list (string * Value)).

Definition truthy (v : Value) : bool :=
  match v with
  | Undefined | Null => false
  | Boolean b => b
  | Number z => negb (z =? 0)
  | Str s => negb (String.eqb s "")
  | Array _ | Object _ => true
  end.

(** [a || b] *)
Definition or (a b : Value) : Value := if truthy a then a else b.

Definition isArray (v : Value) : bool :=
  match v with Array _ => true | _ => false end.

(** [v.length], read only where [v] is known to be an array. *)
Definition arrayLength (v : Value) : nat :=
  match v with Array items => length items | _ => O end.

(** [Object.keys(v).length] *)
Definition keyCount (v : Value) : nat :=
  match v with
  | Object fields => length fields
  | Array items => length items
  | Str s => String.length s
  | _ => O
  end.

Fixpoint assoc {A} (k : string) (kvs : list (string * A)) : option A :=
  match kvs with
  | [] => None
  | (k', v) :: rest => if String.eqb k k' then Some v else assoc k rest
  end.

(** [body.k], and [const { k } = body] once the destructuring is known not
    to throw: the member [k] of a parsed body, [undefined] when the body
    has none. *)
Definition member (k : string) (body : Value) : Value :=
  match body with
  | Object fields => default Undefined (assoc k fields)
  | _ => Undefined
  end.

(** Names every plain object inherits from [Object.prototype]: looking
    one of them up in a table that does not define it yields the
    inherited member instead of [undefined]. *)
Definition objectPrototypeKeys : list string :=
  [ "constructor"; "__proto__"; "hasOwnProperty"; "isPrototypeOf";
    "propertyIsEnumerable"; "toLocaleString"; "toString"; "valueOf";
    "__defineGetter__"; "__defineSetter__"; "__lookupGetter__";
    "__lookupSetter__" ].

(** [table[key]] on an object literal used as a table. *)
Inductive Lookup (A : Type) : Type :=
| Own (a : A)
| Inherited
| Missing.
Arguments Own {A} a.
Arguments Inherited {A}.
Arguments Missing {A}.

Definition lookup {A} (table : list (string * A)) (key : string) : Lookup A :=
  match assoc key table with
  | Some a => Own a
  | None => if includes objectPrototypeKeys key then Inherited else Missing
  end.

(** A thrown [Error] object with the properties the server reads. *)
Record Error (D : Type) : Type := mkError {
  message : string;
  status : option nat;
  type : option string;
  details : option D
}.
Arguments mkError {D} message status type details.
Arguments message {D} e.
Arguments status {D} e.
Arguments type {D} e.
Arguments details {D} e.

(** [new Error(msg)] / a [TypeError]: no status, type or details. *)
Definition plainError {D} (msg : string) : Error D := mkError msg None None None.

End Js.


(* ===================================================================== *)
(** ** Requests, responses and the state shared between requests *)
(* ===================================================================== *)

(** The truthy [error] member of an Airtable error body ([errorData] in
    [_handleError]): the empty object the code substitutes when there is
    none, a bare string, or an object with optional string members [type]
    and [message]. *)
Inductive ErrorData : Type :=
| EmptyObject
| ErrorString (s : string)
| ErrorObject (type message : option string).

(** Exceptions thrown inside the server. *)
Abbreviation Thrown := (Js.Error ErrorData).

(** A computation that returns or throws. *)
Abbreviation Result A := (sum Thrown A).

(** [req.query.records] as the query-string parser delivers it. *)
Inductive QueryValue : Type :=
| QueryAbsent
| QueryString (s : string)
| QueryArray (items : list string)
| QueryObject.

Record Params : Type := mkParams {
  baseId : option string;
  tableIdOrName : option string;
  recordId : option string;
  tableId : option string;
  fieldId : option string;
  webhookId : option string
}.

(** An Express request: the headers the middleware reads, route
    parameters, query and parsed body, the client address and arrival time
    the rate limiter uses, and the three properties [authMiddleware]
    attaches. *)
Record Request : Type := mkRequest {
  ip : string;
  now : Z;
  authorization : option string;
  x_billing_plan : option string;
  x_token_scopes : option string;
  x_confirm_destructive_operation : option string;
  params : Params;
  query : Js.Value;
  query_records : QueryValue;
  body : Js.Value;
  token : option string;
  billingPlan : option string;
  tokenScopes : option (list string)
}.

(** JSON bodies the server sends. *)
Inductive Body : Type :=
| JsonData (data : Js.Value)
    (* res.json(data) *)
| JsonError (type message : string) (details : option ErrorData)
    (* { error: { type, message, details } } *)
| JsonLimit (error message : string).
    (* the limiter's message object { error, message } *)

(** A response: status code, the [Retry-After] header (milliseconds until
    the limiter's window ends) when the limiter sets it, and the body. *)
Record Response : Type := mkResponse {
  statusCode : nat;
  retryAfter : option Z;
  json : Body
}.

(** [res.status(code).json({ error: { type, message } })] *)
Definition errorResponse (code : nat) (type message : string) : Response :=
  mkResponse code None (JsonError type message None).

(** [res.json(data)] *)
Definition dataResponse (data : Js.Value) : Response :=
  mkResponse 200 None (JsonData data).

(** What axios hands to the provider for one HTTP exchange. *)
Inductive ResponseData : Type :=
| NullData
    (* the body parsed to null *)
| DataWith (error : option ErrorData).
    (* any other body, with its truthy [error] member if it has one *)

Inductive AxiosError : Type :=
| WithResponse (status : nat) (data : ResponseData)
    (* error.response is set: the upstream answered outside 2xx *)
| NoResponse
    (* error.request is set, no response arrived *)
| SetupError (message : string).
    (* the request could not be set up *)

Inductive AxiosResult : Type :=
| Fulfilled (data : Js.Value)
| Rejected (error : AxiosError).

Inductive Method : Type := GET | POST | PATCH | PUT | DELETE.

(** One request issued to the Airtable API: the axios config. *)
Record UpstreamCall : Type := mkCall {
  method : Method;
  url : string;
  bearer : string;
  urlParams : Js.Value;
  data : Js.Value
}.

(** The upstream, as a test double would script it: the answer to the
    n-th request the process issues (counting from 0). *)
Definition Upstream : Type := nat -> UpstreamCall -> AxiosResult.

(** A window of one rate-limit key. *)
Record RateLimitBucket : Type := mkBucket {
  key : string;
  windowStart : Z;
  count : nat;
  limit : nat;
  windowDuration : Z
}.

(** State that outlives a request, and the effects a request has on the
    outside: the two limiter stores, the requests sent upstream so far, and
    the time spent waiting in [setTimeout]. *)
Record World : Type := mkWorld {
  baseLimiter : gmap string RateLimitBucket;
  userLimiter : gmap string RateLimitBucket;
  upstreamCalls : list UpstreamCall;
  slept : Z
}.

(** What an Express layer does with a request: send a response, or call
    [next()] with the (possibly extended) request. *)
Inductive Step : Type :=
| Respond (res : Response) (w : World)
| Next (req : Request) (w : World).

(* ===================================================================== *)
(** ** Models *)
(* ===================================================================== *)

Module BillingPlanModel.

Module PLANS.
Definition FREE := "free".
Definition TEAMS := "teams".
Definition BUSINESS := "business".
Definition ENTERPRISE_SCALE := "enterprise_scale".
End PLANS.

Module FEATURES.
Definition BASE_DATA := "base_data".
Definition VIEWS := "views".
Definition SCHEMA_MODIFICATION := "schema_modification".
Definition WEBHOOKS := "webhooks".
Definition SCIM_USER_MANAGEMENT := "scim_user_management".
Definition ENTERPRISE_API := "enterprise_api".
Definition CHANGE_EVENTS := "change_events".
End FEATURES.

(** A plan table: the entries of the object in the order [Object.entries]
    visits them.  For names that are not integer-like, as the server's four
    are, that is the order of the object literal; integer-like names would
    come first, in ascending order. *)
Abbreviation PlanTable := (list (string * list string)).

(** Features available by plan *)
Definition PLAN_FEATURES : PlanTable :=
  [ (PLANS.FREE, [FEATURES.BASE_DATA]);
    (PLANS.TEAMS, [FEATURES.BASE_DATA]);
    (PLANS.BUSINESS, [FEATURES.BASE_DATA; FEATURES.SCIM_USER_MANAGEMENT]);
    (PLANS.ENTERPRISE_SCALE,
      [FEATURES.BASE_DATA; FEATURES.VIEWS; FEATURES.SCHEMA_MODIFICATION;
       FEATURES.WEBHOOKS; FEATURES.SCIM_USER_MANAGEMENT;
       FEATURES.ENTERPRISE_API; FEATURES.CHANGE_EVENTS]) ].

Section OverTable.
Variable table : PlanTable.

(** Check if a feature is available for a given plan.  A plan the table
    lacks throws; a plan name that hits an inherited member gets past the
    guard and throws a TypeError at [.includes]. *)
Definition hasFeatureIn (plan feature : string) : Result bool :=
  match Js.lookup table plan with
  | Js.Missing => inl (Js.plainError ("Unknown billing plan: " +:+ plan))
  | Js.Inherited =>
      inl (Js.plainError "this.PLAN_FEATURES[plan].includes is not a function")
  | Js.Own features => inr (Js.includes features feature)
  end.

(** Get the minimum plan required for a feature: the first entry, in table
    order, whose feature list has it. *)
Fixpoint firstPlanWith (entries : PlanTable) (feature : string) : option string :=
  match entries with
  | [] => None
  | (plan, features) :: rest =>
      if Js.includes features feature then Some plan
      else firstPlanWith rest feature
  end.

Definition getMinimumPlanForFeatureIn (feature : string) : Result string :=
  match firstPlanWith table feature with
  | Some plan => inr plan
  | None => inl (Js.plainError ("Unknown feature: " +:+ feature))
  end.

End OverTable.

Definition hasFeature := hasFeatureIn PLAN_FEATURES.
Definition getMinimumPlanForFeature := getMinimumPlanForFeatureIn PLAN_FEATURES.

End BillingPlanModel.

Module TokenScopeModel.

Module SCOPES.
(* Basic scopes *)
Definition RECORDS_READ := "data.records:read".
Definition RECORDS_WRITE := "data.records:write".
Definition RECORD_COMMENTS_READ := "data.recordComments:read".
Definition RECORD_COMMENTS_WRITE := "data.recordComments:write".
Definition SCHEMA_BASES_READ := "schema.bases:read".
Definition SCHEMA_BASES_WRITE := "schema.bases:write".
Definition WEBHOOK_MANAGE := "webhook:manage".
Definition BLOCK_MANAGE := "block:manage".
Definition USER_EMAIL_READ := "user.email:read".
(* Enterprise member scopes *)
Definition ENTERPRISE_GROUPS_READ := "enterprise.groups:read".
Definition WORKSPACES_AND_BASES_READ := "workspacesAndBases:read".
Definition WORKSPACES_AND_BASES_WRITE := "workspacesAndBases:write".
Definition WORKSPACES_AND_BASES_SHARES_MANAGE := "workspacesAndBases.shares:manage".
(* Enterprise admin scopes *)
Definition ENTERPRISE_SCIM_USERS_AND_GROUPS_MANAGE :=
  "enterprise.scim.usersAndGroups:manage".
Definition ENTERPRISE_AUDIT_LOGS_READ := "enterprise.auditLogs:read".
Definition ENTERPRISE_CHANGE_EVENTS_READ := "enterprise.changeEvents:read".
Definition ENTERPRISE_EXPORTS_MANAGE := "enterprise.exports:manage".
Definition ENTERPRISE_ACCOUNT_READ := "enterprise.account:read".
Definition ENTERPRISE_ACCOUNT_WRITE := "enterprise.account:write".
Definition ENTERPRISE_USER_READ := "enterprise.user:read".
Definition ENTERPRISE_USER_WRITE := "enterprise.user:write".
Definition ENTERPRISE_GROUPS_MANAGE := "enterprise.groups:manage".
Definition WORKSPACES_AND_BASES_MANAGE := "workspacesAndBases:manage".
End SCOPES.

(** Maps endpoints to required scopes *)
Definition ENDPOINT_SCOPES : list (string * list string) :=
  [ ("getTableRecords", [SCOPES.RECORDS_READ]);
    ("getRecord", [SCOPES.RECORDS_READ]);
    ("createRecords", [SCOPES.RECORDS_WRITE]);
    ("updateRecords", [SCOPES.RECORDS_WRITE]);
    ("deleteRecords", [SCOPES.RECORDS_WRITE]);
    ("getComments", [SCOPES.RECORD_COMMENTS_READ]);
    ("createComment", [SCOPES.RECORD_COMMENTS_WRITE]);
    ("deleteComment", [SCOPES.RECORD_COMMENTS_WRITE]);
    ("updateComment", [SCOPES.RECORD_COMMENTS_WRITE]);
    ("getBases", [SCOPES.SCHEMA_BASES_READ]);
    ("getBaseSchema", [SCOPES.SCHEMA_BASES_READ]);
    ("createField", [SCOPES.SCHEMA_BASES_WRITE]);
    ("updateField", [SCOPES.SCHEMA_BASES_WRITE]);
    ("listWebhooks", [SCOPES.WEBHOOK_MANAGE]);
    ("createWebhook", [SCOPES.WEBHOOK_MANAGE]);
    ("deleteWebhook", [SCOPES.WEBHOOK_MANAGE]);
    ("getAuditLogs", [SCOPES.ENTERPRISE_AUDIT_LOGS_READ]);
    ("getEnterpriseUsers", [SCOPES.ENTERPRISE_USER_READ]) ].

(** Check if token has required scope.  [tokenScopes] is [undefined]
    until [authMiddleware] has run: [.includes] on it throws. *)
Definition hasRequiredScope (tokenScopes : option (list string))
    (requiredScope : string) : Result bool :=
  match tokenScopes with
  | Some scopes => inr (Js.includes scopes requiredScope)
  | None =>
      inl (Js.plainError
             "Cannot read properties of undefined (reading 'includes')")
  end.

(** [requiredScopes.every(scope => hasRequiredScope(tokenScopes, scope))]:
    stops at the first scope that is lacking, or at the first throw. *)
Fixpoint everyScope (tokenScopes : option (list string))
    (requiredScopes : list string) : Result bool :=
  match requiredScopes with
  | [] => inr true
  | scope :: rest =>
      match hasRequiredScope tokenScopes scope with
      | inl e => inl e
      | inr false => inr false
      | inr true => everyScope tokenScopes rest
      end
  end.

(** [ENDPOINT_SCOPES[endpoint] || []] *)
Definition requiredScopesFor (endpoint : string) : Result (list string) :=
  match Js.lookup ENDPOINT_SCOPES endpoint with
  | Js.Own scopes => inr scopes
  | Js.Missing => inr []
  | Js.Inherited => inl (Js.plainError "requiredScopes.every is not a function")
  end.

(** Check if token has all required scopes for an endpoint *)
Definition hasRequiredScopesForEndpoint (tokenScopes : option (list string))
    (endpoint : string) : Result bool :=
  match requiredScopesFor endpoint with
  | inl e => inl e
  | inr requiredScopes => everyScope tokenScopes requiredScopes
  end.

End TokenScopeModel.

Module RateLimitModel.

Record Options : Type := mkOptions {
  windowMs : Z;
  max : nat;
  standardHeaders : bool;
  messageError : string;
  messageText : string
}.

Inductive Decision : Type :=
| Allowed
| Denied (retryAfter : Z).

(** Modelled from the spec: the [rateLimit] factory of the express-rate-limit
    package, which is not part of the sources; section 4.2 gives its
    contract as [tryAcquire(key, limit, windowDuration)]: fixed-window
    counting per key, a window that starts at the first observed request
    and lasts [windowDuration], a count incremented on each [Allowed]
    decision, [Denied] once [count >= limit] until the window rolls over,
    reporting the time until the window boundary. *)
Definition currentBucket (k : string) (lim : nat) (duration now : Z)
    (stored : option RateLimitBucket) : RateLimitBucket :=
  match stored with
  | Some b =>
      if now <? windowStart b + windowDuration b then b
      else mkBucket k now 0 lim duration
  | None => mkBucket k now 0 lim duration
  end.

(** Modelled from the spec: [tryAcquire(key, limit, windowDuration)] of
    section 4.2, at time [now] and over the store of buckets: [Allowed]
    counts the request, [Denied] reports the time until the window ends and
    counts nothing. *)
Definition tryAcquire (k : string) (lim : nat) (duration now : Z)
    (store : gmap string RateLimitBucket)
    : Decision * gmap string RateLimitBucket :=
  let b := currentBucket k lim duration now (store !! k) in
  if (limit b <=? count b)%nat
  then (Denied (windowStart b + windowDuration b - now), store)
  else (Allowed,
        <[k := mkBucket k (windowStart b) (S (count b)) (limit b) (windowDuration b)]>
          store).

(** Modelled from the spec: the middleware [rateLimit(options)] of the
    express-rate-limit package returns, over the store it owns; admission
    as in section 4.3, step 5.  No [keyGenerator] is configured, so the key
    is the package's default, the client address.  A denied request gets
    status 429 with the configured [message] object as body; with
    [standardHeaders] the time to wait goes into the response headers. *)
Definition rateLimit (options : Options)
    (get : World -> gmap string RateLimitBucket)
    (set : gmap string RateLimitBucket -> World -> World)
    (req : Request) (w : World) : Step :=
  match tryAcquire (ip req) (max options) (windowMs options) (now req) (get w) with
  | (Allowed, store) => Next req (set store w)
  | (Denied after, store) =>
      Respond (mkResponse 429 (if standardHeaders options then Some after else None)
                 (JsonLimit (messageError options) (messageText options)))
              (set store w)
  end.

(** 5 requests per second per base *)
Definition configureRateLimiter : Options :=
  mkOptions 1000 5 true
    "RATE_LIMIT_REACHED" "Rate limit exceeded. Please try again later.".

(** User-level rate limiter (50 requests per second) *)
Definition configureUserRateLimiter : Options :=
  mkOptions 1000 50 true
    "USER_RATE_LIMIT_REACHED" "User rate limit exceeded. Please try again later.".

End RateLimitModel.

Definition setBaseLimiter (store : gmap string RateLimitBucket) (w : World) : World :=
  mkWorld store (userLimiter w) (upstreamCalls w) (slept w).

Definition setUserLimiter (store : gmap string RateLimitBucket) (w : World) : World :=
  mkWorld (baseLimiter w) store (upstreamCalls w) (slept w).

(* ===================================================================== *)
(** ** Middleware *)
(* ===================================================================== *)

Definition authenticationRequired : Response :=
  errorResponse 401 "INVALID_REQUEST"
    "Authentication required. Please provide a valid token.".

(** Authentication middleware *)
Definition authMiddleware (req : Request) (w : World) : Step :=
  match authorization req with
  | None => Respond authenticationRequired w
  | Some authHeader =>
      if negb (Js.truthyStr (Some authHeader))
         || negb (Js.startsWith "Bearer " authHeader)
      then Respond authenticationRequired w
      else
        let token := nth_error (Js.split " " authHeader) 1 in
        if negb (Js.truthyStr token)
        then Respond authenticationRequired w
        else
          Next (mkRequest (ip req) (now req)
                  (authorization req) (x_billing_plan req)
                  (x_token_scopes req) (x_confirm_destructive_operation req)
                  (params req) (query req) (query_records req) (body req)
                  token
                  (if Js.truthyStr (x_billing_plan req)
                   then x_billing_plan req
                   else Some BillingPlanModel.PLANS.FREE)
                  (match x_token_scopes req with
                   | Some scopes =>
                       if Js.truthyStr (Some scopes)
                       then Some (Js.split "," scopes)
                       else Some [TokenScopeModel.SCOPES.RECORDS_READ]
                   | None => Some [TokenScopeModel.SCOPES.RECORDS_READ]
                   end))
               w
  end.

(** A property key made from a value that may be [undefined]. *)
Definition propertyKey (o : option string) : string := default "undefined" o.

(** Feature availability middleware - checks if a feature is available on
    the user's plan.  Anything thrown by the model is caught and answered
    with 500. *)
Definition featureCheckMiddleware (feature : string) (req : Request) (w : World) : Step :=
  let failed :=
    Respond (errorResponse 500 "SERVER_ERROR" "Failed to check feature availability.") w in
  match BillingPlanModel.hasFeature (propertyKey (billingPlan req)) feature with
  | inl _ => failed
  | inr true => Next req w
  | inr false =>
      match BillingPlanModel.getMinimumPlanForFeature feature with
      | inl _ => failed
      | inr minimumPlan =>
          Respond (errorResponse 403 "FEATURE_UNAVAILABLE"
                     ("This feature requires the " +:+ minimumPlan +:+ " plan or higher."))
                  w
      end
  end.

(** Scope check middleware - checks if the token has required scopes *)
Definition scopeCheckMiddleware (endpoint : string) (req : Request) (w : World) : Step :=
  let failed :=
    Respond (errorResponse 500 "SERVER_ERROR" "Failed to check token scopes.") w in
  match TokenScopeModel.hasRequiredScopesForEndpoint (tokenScopes req) endpoint with
  | inl _ => failed
  | inr true => Next req w
  | inr false =>
      match TokenScopeModel.requiredScopesFor endpoint with
      | inl _ => failed
      | inr requiredScopes =>
          Respond (errorResponse 403 "INSUFFICIENT_PERMISSIONS"
                     ("This operation requires the following scopes: "
                      +:+ Js.join ", " requiredScopes))
                  w
      end
  end.

(** [!confirmation || confirmation.toLowerCase() !== 'true'] *)
Definition notConfirmed (confirmation : option string) : bool :=
  match confirmation with
  | None => true
  | Some c =>
      negb (Js.truthyStr (Some c)) || negb (String.eqb (Js.toLowerCase c) "true")
  end.

Definition confirmationRequired : Response :=
  errorResponse 400 "CONFIRMATION_REQUIRED"
    ("This is a destructive operation. Please confirm by setting the X-Confirm-Destructive-Operation header to "
     +:+ Js.quoted "true" +:+ ".").

(** Destructive operation confirmation middleware *)
Definition confirmDestructiveOperationMiddleware (req : Request) (w : World) : Step :=
  if notConfirmed (x_confirm_destructive_operation req)
  then Respond confirmationRequired w
  else Next req w.

(** Rate limiting middleware (applied to specific routes) *)
Definition baseRateLimitMiddleware : Request -> World -> Step :=
  RateLimitModel.rateLimit RateLimitModel.configureRateLimiter baseLimiter setBaseLimiter.

Definition userRateLimitMiddleware : Request -> World -> Step :=
  RateLimitModel.rateLimit RateLimitModel.configureUserRateLimiter userLimiter setUserLimiter.

(* ===================================================================== *)
(** ** AirtableProvider - core API interaction logic *)
(* ===================================================================== *)

Module AirtableProvider.

Definition record (config : UpstreamCall) (w : World) : World :=
  mkWorld (baseLimiter w) (userLimiter w) (upstreamCalls w ++ [config]) (slept w).

(** [await new Promise(resolve => setTimeout(resolve, ms))] *)
Definition sleep (ms : Z) (w : World) : World :=
  mkWorld (baseLimiter w) (userLimiter w) (upstreamCalls w) (slept w + ms).

(** [this.api(config)]: the axios instance with the response interceptor
    installed by the constructor.  A 429 answer makes the interceptor wait
    30 seconds and return [this.api(config)], a request through the same
    instance and so through the same interceptor; any other rejection is
    passed on.  [attempts] bounds the number of requests the model follows;
    [None] means the promise is still pending after that many. *)
Fixpoint api (attempts : nat) (upstream : Upstream) (config : UpstreamCall)
    (w : World) : option AxiosResult * World :=
  match attempts with
  | O => (None, w)
  | S attempts' =>
      let answer := upstream (length (upstreamCalls w)) config in
      let w1 := record config w in
      match answer with
      | Rejected (WithResponse status _) =>
          if (status =? 429)%nat
          then api attempts' upstream config (sleep 30000 w1)
          else (Some answer, w1)
      | _ => (Some answer, w1)
      end
  end.

(** Error handling: what [_handleError] throws. *)
Definition _handleError (error : AxiosError) : Thrown :=
  match error with
  | WithResponse statusCode NullData =>
      Js.plainError "Cannot read properties of null (reading 'error')"
  | WithResponse statusCode (DataWith member) =>
      let errorData :=
        match member with
        | None | Some (ErrorString EmptyString) => EmptyObject
        | Some e => e
        end in
      let message :=
        match errorData with
        | ErrorObject _ (Some m) => if String.eqb m "" then "Airtable API error" else m
        | _ => "Airtable API error"
        end in
      let type :=
        match errorData with
        | ErrorObject t _ => t
        | _ => None
        end in
      Js.mkError message (Some statusCode) type (Some errorData)
  | NoResponse => Js.plainError "No response received from Airtable API"
  | SetupError message => Js.plainError message
  end.

(** The body shared by the provider's methods:
    [try { return (await this.api...).data } catch (e) { this._handleError(e) }] *)
Definition send (attempts : nat) (upstream : Upstream) (config : UpstreamCall)
    (w : World) : option (Result Js.Value) * World :=
  match api attempts upstream config w with
  | (None, w') => (None, w')
  | (Some (Fulfilled data), w') => (Some (inr data), w')
  | (Some (Rejected error), w') => (Some (inl (_handleError error)), w')
  end.

Section Instance.
(** [new AirtableProvider(token)] *)
Variable token : string.

Definition request (m : Method) (path : string) (urlParams body : Js.Value)
    : UpstreamCall :=
  mkCall m path token urlParams body.

(* Read operations - available on all plans *)

Definition getBases : UpstreamCall :=
  request GET "/meta/bases" Js.Undefined Js.Undefined.

Definition getTableRecords (baseId tableIdOrName : string) (params : Js.Value)
    : UpstreamCall :=
  request GET ("/" +:+ baseId +:+ "/" +:+ tableIdOrName) params Js.Undefined.

Definition getRecord (baseId tableIdOrName recordId : string) : UpstreamCall :=
  request GET ("/" +:+ baseId +:+ "/" +:+ tableIdOrName +:+ "/" +:+ recordId)
    Js.Undefined Js.Undefined.

(* Write operations - requires proper scopes *)

Definition createRecords (baseId tableIdOrName : string) (records : Js.Value)
    (typecast returnFieldsByFieldId : Js.Value) : UpstreamCall :=
  request POST ("/" +:+ baseId +:+ "/" +:+ tableIdOrName) Js.Undefined
    (Js.Object
       [ ("records", records);
         ("typecast", Js.or typecast (Js.Boolean false));
         ("returnFieldsByFieldId", Js.or returnFieldsByFieldId (Js.Boolean false)) ]).

(** PATCH for partial updates, PUT when [options.destructive] is truthy. *)
Definition updateRecords (baseId tableIdOrName : string) (records : Js.Value)
    (typecast returnFieldsByFieldId performUpsert destructive : Js.Value)
    : UpstreamCall :=
  request (if Js.truthy destructive then PUT else PATCH)
    ("/" +:+ baseId +:+ "/" +:+ tableIdOrName) Js.Undefined
    (Js.Object
       [ ("records", records);
         ("typecast", Js.or typecast (Js.Boolean false));
         ("returnFieldsByFieldId", Js.or returnFieldsByFieldId (Js.Boolean false));
         ("performUpsert", Js.or performUpsert Js.Undefined) ]).

(** The controller always passes an array of ids. *)
Definition deleteRecords (baseId tableIdOrName : string) (recordIds : list string)
    : UpstreamCall :=
  let queryParams := Js.join "&" (map (fun id => "records[]=" +:+ id) recordIds) in
  request DELETE ("/" +:+ baseId +:+ "/" +:+ tableIdOrName +:+ "?" +:+ queryParams)
    Js.Undefined Js.Undefined.

(* Webhook operations *)

Definition listWebhooks (baseId : string) : UpstreamCall :=
  request GET ("/bases/" +:+ baseId +:+ "/webhooks") Js.Undefined Js.Undefined.

Definition createWebhook (baseId : string) (options : Js.Value) : UpstreamCall :=
  request POST ("/bases/" +:+ baseId +:+ "/webhooks") Js.Undefined options.

Definition deleteWebhook (baseId webhookId : string) : UpstreamCall :=
  request DELETE ("/bases/" +:+ baseId +:+ "/webhooks/" +:+ webhookId)
    Js.Undefined Js.Undefined.

(* Enterprise-specific operations *)

Definition getAuditLogs (options : Js.Value) : UpstreamCall :=
  request GET "/auditLogs" options Js.Undefined.

Definition getEnterpriseUsers : UpstreamCall :=
  request GET "/enterprise/users" Js.Undefined Js.Undefined.

(* Schema operations *)

Definition getBaseSchema (baseId : string) : UpstreamCall :=
  request GET ("/meta/bases/" +:+ baseId +:+ "/tables") Js.Undefined Js.Undefined.

Definition createField (baseId tableId : string) (field : Js.Value) : UpstreamCall :=
  request POST ("/meta/bases/" +:+ baseId +:+ "/tables/" +:+ tableId +:+ "/fields")
    Js.Undefined field.

Definition updateField (baseId tableId fieldId : string) (updates : Js.Value)
    : UpstreamCall :=
  request PATCH
    ("/meta/bases/" +:+ baseId +:+ "/tables/" +:+ tableId +:+ "/fields/" +:+ fieldId)
    Js.Undefined updates.

End Instance.

End AirtableProvider.

(* ===================================================================== *)
(** ** Controllers *)
(* ===================================================================== *)

(** Utility function to handle error responses *)
Definition handleErrorResponse (error : Thrown) : Response :=
  let fallback :=
    errorResponse 500 "SERVER_ERROR"
      (if String.eqb (Js.message error) "" then "An unexpected error occurred"
       else Js.message error) in
  match Js.status error, Js.type error with
  | Some status, Some type =>
      if negb (status =? 0)%nat && negb (String.eqb type "")
      then mkResponse status None (JsonError type (Js.message error) (Js.details error))
      else fallback
  | _, _ => fallback
  end.

(** The final handler of a route: [attempts] bounds the upstream requests
    followed; the response is [None] while the handler is still awaiting. *)
Definition Handler : Type :=
  nat -> Upstream -> Request -> World -> option Response * World.

(** The tail shared by the handlers:
    [try { const data = await provider.method(...); res.json(data) }
     catch (error) { handleErrorResponse(res, error) }] *)
Definition dispatch (attempts : nat) (upstream : Upstream) (config : UpstreamCall)
    (w : World) : option Response * World :=
  match AirtableProvider.send attempts upstream config w with
  | (None, w') => (None, w')
  | (Some (inr data), w') => (Some (dataResponse data), w')
  | (Some (inl error), w') => (Some (handleErrorResponse error), w')
  end.

Definition invalidRequest (message : string) : Response :=
  errorResponse 400 "INVALID_REQUEST" message.

(** [const { k, ... } = req.body]: destructuring an [undefined] or [null]
    body throws a TypeError naming the first property; any other body
    destructures. *)
Definition destructuring (k : string) (body : Js.Value) : option Thrown :=
  match body with
  | Js.Undefined =>
      Some (Js.plainError
              ("Cannot destructure property '" +:+ k
               +:+ "' of 'req.body' as it is undefined."))
  | Js.Null =>
      Some (Js.plainError
              ("Cannot destructure property '" +:+ k
               +:+ "' of 'req.body' as it is null."))
  | _ => None
  end.

(** [!x] for a route parameter. *)
Definition absent (x : option string) : bool := negb (Js.truthyStr x).

(** The token [authMiddleware] attached, as the provider interpolates it. *)
Definition bearerOf (req : Request) : string := propertyKey (token req).

(** The stages of the admission pipeline, as names for the layers of a
    route. *)
Inductive Stage : Type :=
| Authenticate
| Entitlement
| Scope
| Confirmation
| Admission
| Handle.

Record Layer : Type := mkLayer {
  stage : Stage;
  run : Request -> World -> Step
}.

(** A route: the middleware array handed to [app.METHOD], split into its
    middleware and the final async handler. *)
Record Route : Type := mkRoute {
  layers : list Layer;
  handler : Handler
}.

Definition auth : Layer := mkLayer Authenticate authMiddleware.
Definition featureCheck (feature : string) : Layer :=
  mkLayer Entitlement (featureCheckMiddleware feature).
Definition scopeCheck (endpoint : string) : Layer :=
  mkLayer Scope (scopeCheckMiddleware endpoint).
Definition confirmDestructive : Layer :=
  mkLayer Confirmation confirmDestructiveOperationMiddleware.
Definition baseRateLimit : Layer := mkLayer Admission baseRateLimitMiddleware.
Definition userRateLimit : Layer := mkLayer Admission userRateLimitMiddleware.

Module basesController.

Definition getBasesHandler : Handler := fun attempts upstream req w =>
  dispatch attempts upstream (AirtableProvider.getBases (bearerOf req)) w.

(** Get all bases (available to all plans) *)
Definition getBases : Route :=
  mkRoute
    [ auth;
      featureCheck BillingPlanModel.FEATURES.BASE_DATA;
      scopeCheck "getBases";
      userRateLimit ]
    getBasesHandler.

Definition getBaseSchemaHandler : Handler := fun attempts upstream req w =>
  let baseId := baseId (params req) in
  if absent baseId then (Some (invalidRequest "Base ID is required"), w)
  else
    dispatch attempts upstream
      (AirtableProvider.getBaseSchema (bearerOf req) (propertyKey baseId)) w.

(** Get base schema (available to all plans) *)
Definition getBaseSchema : Route :=
  mkRoute
    [ auth;
      featureCheck BillingPlanModel.FEATURES.BASE_DATA;
      scopeCheck "getBaseSchema";
      baseRateLimit ]
    getBaseSchemaHandler.

End basesController.

Module recordsController.

Definition getTableRecordsHandler : Handler := fun attempts upstream req w =>
  let baseId := baseId (params req) in
  let tableIdOrName := tableIdOrName (params req) in
  let queryParams := query req in
  if absent baseId || absent tableIdOrName
  then (Some (invalidRequest "Base ID and Table ID/Name are required"), w)
  else
    dispatch attempts upstream
      (AirtableProvider.getTableRecords (bearerOf req)
         (propertyKey baseId) (propertyKey tableIdOrName) queryParams) w.

(** Get table records (available to all plans) *)
Definition getTableRecords : Route :=
  mkRoute
    [ auth;
      featureCheck BillingPlanModel.FEATURES.BASE_DATA;
      scopeCheck "getTableRecords";
      baseRateLimit ]
    getTableRecordsHandler.

Definition getRecordHandler : Handler := fun attempts upstream req w =>
  let baseId := baseId (params req) in
  let tableIdOrName := tableIdOrName (params req) in
  let recordId := recordId (params req) in
  if absent baseId || absent tableIdOrName || absent recordId
  then (Some (invalidRequest "Base ID, Table ID/Name, and Record ID are required"), w)
  else
    dispatch attempts upstream
      (AirtableProvider.getRecord (bearerOf req)
         (propertyKey baseId) (propertyKey tableIdOrName) (propertyKey recordId)) w.

(** Get a single record (available to all plans) *)
Definition getRecord : Route :=
  mkRoute
    [ auth;
      featureCheck BillingPlanModel.FEATURES.BASE_DATA;
      scopeCheck "getRecord";
      baseRateLimit ]
    getRecordHandler.

Definition createRecordsHandler : Handler := fun attempts upstream req w =>
  match destructuring "records" (body req) with
  | Some error => (Some (handleErrorResponse error), w)
  | None =>
    let baseId := baseId (params req) in
    let tableIdOrName := tableIdOrName (params req) in
    let records := Js.member "records" (body req) in
    let typecast := Js.member "typecast" (body req) in
    let returnFieldsByFieldId := Js.member "returnFieldsByFieldId" (body req) in
    if absent baseId || absent tableIdOrName
    then (Some (invalidRequest "Base ID and Table ID/Name are required"), w)
    else if negb (Js.truthy records)
            || (Js.isArray records && (Js.arrayLength records =? 0)%nat)
    then (Some (invalidRequest "Records are required"), w)
    (* Check if we're exceeding the maximum records per request (10) *)
    else if Js.isArray records && (10 <? Js.arrayLength records)%nat
    then (Some (invalidRequest
                  "Maximum of 10 records can be created in a single request"), w)
    else
      dispatch attempts upstream
        (AirtableProvider.createRecords (bearerOf req)
           (propertyKey baseId) (propertyKey tableIdOrName) records
           typecast returnFieldsByFieldId) w
  end.

(** Create records (available to all plans) *)
Definition createRecords : Route :=
  mkRoute
    [ auth;
      featureCheck BillingPlanModel.FEATURES.BASE_DATA;
      scopeCheck "createRecords";
      baseRateLimit ]
    createRecordsHandler.

Definition confirmationRequiredForPut : Response :=
  errorResponse 400 "CONFIRMATION_REQUIRED"
    ("This is a destructive update (PUT) that will clear all unincluded cell values. Please confirm by setting the X-Confirm-Destructive-Operation header to "
     +:+ Js.quoted "true" +:+ ".").

Definition updateRecordsHandler : Handler := fun attempts upstream req w =>
  match destructuring "records" (body req) with
  | Some error => (Some (handleErrorResponse error), w)
  | None =>
    let baseId := baseId (params req) in
    let tableIdOrName := tableIdOrName (params req) in
    let records := Js.member "records" (body req) in
    let typecast := Js.member "typecast" (body req) in
    let returnFieldsByFieldId := Js.member "returnFieldsByFieldId" (body req) in
    let performUpsert := Js.member "performUpsert" (body req) in
    let destructive := Js.member "destructive" (body req) in
    if absent baseId || absent tableIdOrName
    then (Some (invalidRequest "Base ID and Table ID/Name are required"), w)
    else if negb (Js.truthy records) || negb (Js.isArray records)
            || (Js.arrayLength records =? 0)%nat
    then (Some (invalidRequest "Records array is required"), w)
    (* Check if we're exceeding the maximum records per request (10) *)
    else if (10 <? Js.arrayLength records)%nat
    then (Some (invalidRequest
                  "Maximum of 10 records can be updated in a single request"), w)
    (* Additional validation for destructive updates (PUT) *)
    else if Js.truthy destructive
            && notConfirmed (x_confirm_destructive_operation req)
    then (Some confirmationRequiredForPut, w)
    else
      dispatch attempts upstream
        (AirtableProvider.updateRecords (bearerOf req)
           (propertyKey baseId) (propertyKey tableIdOrName) records
           typecast returnFieldsByFieldId performUpsert destructive) w
  end.

(** Update records (available to all plans) *)
Definition updateRecords : Route :=
  mkRoute
    [ auth;
      featureCheck BillingPlanModel.FEATURES.BASE_DATA;
      scopeCheck "updateRecords";
      baseRateLimit ]
    updateRecordsHandler.

(** Parse the records query parameter: [None] when it is neither an array
    nor a string. *)
Definition parseRecordIds (records : QueryValue) : option (list string) :=
  match records with
  | QueryArray ids => Some ids
  | QueryString s => Some (map Js.trim (Js.split "," s))
  | _ => None
  end.

(** [!records] for the query parameter. *)
Definition noRecords (records : QueryValue) : bool :=
  match records with
  | QueryAbsent => true
  | QueryString s => String.eqb s ""
  | _ => false
  end.

Definition deleteRecordsHandler : Handler := fun attempts upstream req w =>
  let baseId := baseId (params req) in
  let tableIdOrName := tableIdOrName (params req) in
  let records := query_records req in
  if absent baseId || absent tableIdOrName
  then (Some (invalidRequest "Base ID and Table ID/Name are required"), w)
  else if noRecords records
  then (Some (invalidRequest "Record IDs are required"), w)
  else
    match parseRecordIds records with
    | None => (Some (invalidRequest "Invalid record IDs format"), w)
    | Some recordIds =>
        (* Check if we're exceeding the maximum records per request (10) *)
        if (10 <? length recordIds)%nat
        then (Some (invalidRequest
                      "Maximum of 10 records can be deleted in a single request"), w)
        else
          dispatch attempts upstream
            (AirtableProvider.deleteRecords (bearerOf req)
               (propertyKey baseId) (propertyKey tableIdOrName) recordIds) w
    end.

(** Delete records (available to all plans) *)
Definition deleteRecords : Route :=
  mkRoute
    [ auth;
      featureCheck BillingPlanModel.FEATURES.BASE_DATA;
      scopeCheck "deleteRecords";
      confirmDestructive; (* Extra confirmation for deletion *)
      baseRateLimit ]
    deleteRecordsHandler.

End recordsController.

Module schemaController.

Definition createFieldHandler : Handler := fun attempts upstream req w =>
  let baseId := baseId (params req) in
  let tableId := tableId (params req) in
  let fieldData := body req in
  if absent baseId || absent tableId
  then (Some (invalidRequest "Base ID and Table ID are required"), w)
  else if negb (Js.truthy fieldData)
          || negb (Js.truthy (Js.member "name" fieldData))
          || negb (Js.truthy (Js.member "type" fieldData))
  then (Some (invalidRequest "Field data with name and type is required"), w)
  else
    dispatch attempts upstream
      (AirtableProvider.createField (bearerOf req)
         (propertyKey baseId) (propertyKey tableId) fieldData) w.

(** Create field (requires appropriate plan and scope) *)
Definition createField : Route :=
  mkRoute
    [ auth;
      featureCheck BillingPlanModel.FEATURES.SCHEMA_MODIFICATION;
      scopeCheck "createField";
      baseRateLimit ]
    createFieldHandler.

Definition updateFieldHandler : Handler := fun attempts upstream req w =>
  let baseId := baseId (params req) in
  let tableId := tableId (params req) in
  let fieldId := fieldId (params req) in
  let updates := body req in
  if absent baseId || absent tableId || absent fieldId
  then (Some (invalidRequest "Base ID, Table ID, and Field ID are required"), w)
  else if negb (Js.truthy updates) || (Js.keyCount updates =? 0)%nat
  then (Some (invalidRequest "Field updates are required"), w)
  else
    dispatch attempts upstream
      (AirtableProvider.updateField (bearerOf req)
         (propertyKey baseId) (propertyKey tableId) (propertyKey fieldId) updates) w.

(** Update field (requires appropriate plan and scope) *)
Definition updateField : Route :=
  mkRoute
    [ auth;
      featureCheck BillingPlanModel.FEATURES.SCHEMA_MODIFICATION;
      scopeCheck "updateField";
      baseRateLimit ]
    updateFieldHandler.

End schemaController.

Module webhookController.

Definition listWebhooksHandler : Handler := fun attempts upstream req w =>
  let baseId := baseId (params req) in
  if absent baseId then (Some (invalidRequest "Base ID is required"), w)
  else
    dispatch attempts upstream
      (AirtableProvider.listWebhooks (bearerOf req) (propertyKey baseId)) w.

(** List webhooks *)
Definition listWebhooks : Route :=
  mkRoute
    [ auth;
      featureCheck BillingPlanModel.FEATURES.WEBHOOKS;
      scopeCheck "listWebhooks";
      baseRateLimit ]
    listWebhooksHandler.

Definition createWebhookHandler : Handler := fun attempts upstream req w =>
  let baseId := baseId (params req) in
  let webhookData := body req in
  if absent baseId then (Some (invalidRequest "Base ID is required"), w)
  else if negb (Js.truthy webhookData)
          || negb (Js.truthy (Js.member "notificationUrl" webhookData))
  then (Some (invalidRequest "Webhook notification URL is required"), w)
  else
    dispatch attempts upstream
      (AirtableProvider.createWebhook (bearerOf req) (propertyKey baseId) webhookData) w.

(** Create webhook *)
Definition createWebhook : Route :=
  mkRoute
    [ auth;
      featureCheck BillingPlanModel.FEATURES.WEBHOOKS;
      scopeCheck "createWebhook";
      baseRateLimit ]
    createWebhookHandler.

Definition deleteWebhookHandler : Handler := fun attempts upstream req w =>
  let baseId := baseId (params req) in
  let webhookId := webhookId (params req) in
  if absent baseId || absent webhookId
  then (Some (invalidRequest "Base ID and Webhook ID are required"), w)
  else
    dispatch attempts upstream
      (AirtableProvider.deleteWebhook (bearerOf req)
         (propertyKey baseId) (propertyKey webhookId)) w.

(** Delete webhook *)
Definition deleteWebhook : Route :=
  mkRoute
    [ auth;
      featureCheck BillingPlanModel.FEATURES.WEBHOOKS;
      scopeCheck "deleteWebhook";
      confirmDestructive; (* Extra confirmation for deletion *)
      baseRateLimit ]
    deleteWebhookHandler.

End webhookController.

Module enterpriseController.

Definition getAuditLogsHandler : Handler := fun attempts upstream req w =>
  let options := query req in
  dispatch attempts upstream (AirtableProvider.getAuditLogs (bearerOf req) options) w.

(** Get audit logs *)
Definition getAuditLogs : Route :=
  mkRoute
    [ auth;
      featureCheck BillingPlanModel.FEATURES.ENTERPRISE_API;
      scopeCheck "getAuditLogs";
      userRateLimit ]
    getAuditLogsHandler.

Definition getEnterpriseUsersHandler : Handler := fun attempts upstream req w =>
  dispatch attempts upstream (AirtableProvider.getEnterpriseUsers (bearerOf req)) w.

(** Get enterprise users *)
Definition getEnterpriseUsers : Route :=
  mkRoute
    [ auth;
      featureCheck BillingPlanModel.FEATURES.ENTERPRISE_API;
      scopeCheck "getEnterpriseUsers";
      userRateLimit ]
    getEnterpriseUsersHandler.

End enterpriseController.

(* ===================================================================== *)
(** ** Routes *)
(* ===================================================================== *)

(** The routes registered on [app], in registration order. *)
Definition routes : list Route :=
  [ basesController.getBases;
    basesController.getBaseSchema;
    recordsController.getTableRecords;
    recordsController.getRecord;
    recordsController.createRecords;
    recordsController.updateRecords;
    recordsController.deleteRecords;
    schemaController.createField;
    schemaController.updateField;
    webhookController.listWebhooks;
    webhookController.createWebhook;
    webhookController.deleteWebhook;
    enterpriseController.getAuditLogs;
    enterpriseController.getEnterpriseUsers ].

(** The result of serving one request: the stages that ran, in order, the
    response sent (none while the handler still awaits the upstream), and
    the state left behind. *)
Record Outcome : Type := mkOutcome {
  ran : list Stage;
  response : option Response;
  world : World
}.

Definition logged (s : Stage) (o : Outcome) : Outcome :=
  mkOutcome (s :: ran o) (response o) (world o).

(** Express runs the layers of a route in order; a layer that responds
    ends the request, a layer that calls [next()] hands over to the
    following one. *)
Fixpoint runLayers (ls : list Layer) (h : Handler) (attempts : nat)
    (upstream : Upstream) (req : Request) (w : World) : Outcome :=
  match ls with
  | [] =>
      let '(res, w') := h attempts upstream req w in
      mkOutcome [Handle] res w'
  | l :: rest =>
      match run l req w with
      | Respond res w' => mkOutcome [stage l] (Some res) w'
      | Next req' w' => logged (stage l) (runLayers rest h attempts upstream req' w')
      end
  end.

Definition serve (r : Route) : nat -> Upstream -> Request -> World -> Outcome :=
  runLayers (layers r) (handler r).


(* ===================================================================== *)
(** ** Vocabulary for the properties *)
(* ===================================================================== *)

(** The request as [authMiddleware] hands it on: token, billing plan and
    token scopes read from the headers. *)
Definition attached (req : Request) : Request :=
  mkRequest (ip req) (now req)
    (authorization req) (x_billing_plan req)
    (x_token_scopes req) (x_confirm_destructive_operation req)
    (params req) (query req) (query_records req) (body req)
    (match authorization req with
     | Some authHeader => nth_error (Js.split " " authHeader) 1
     | None => None
     end)
    (if Js.truthyStr (x_billing_plan req)
     then x_billing_plan req
     else Some BillingPlanModel.PLANS.FREE)
    (match x_token_scopes req with
     | Some scopes =>
         if Js.truthyStr (Some scopes)
         then Some (Js.split "," scopes)
         else Some [TokenScopeModel.SCOPES.RECORDS_READ]
     | None => Some [TokenScopeModel.SCOPES.RECORDS_READ]
     end).

(** The response a layer rejects a request with, if it does. *)
Definition rejection (l : Layer) (req : Request) (w : World) : option Response :=
  match run l req w with
  | Respond res _ => Some res
  | Next _ _ => None
  end.

Definition judged (req : Request) (w : World) (l : Layer) : Stage * option Response :=
  (stage l, rejection l req w).

(** Each stage of a route judged on its own: the first layer on the request
    as received, the others on the request with its principal attached,
    all against the same state. *)
Definition verdicts (r : Route) (req : Request) (w : World)
    : list (Stage * option Response) :=
  match layers r with
  | [] => []
  | first :: rest =>
      (stage first, rejection first req w)
      :: map (judged (attached req) w) rest
  end.

(** The earliest rejecting stage of a list of verdicts: the stages up to
    and including it, and its response. *)
Fixpoint earliest (vs : list (Stage * option Response))
    : option (list Stage * Response) :=
  match vs with
  | [] => None
  | (s, Some res) :: _ => Some ([s], res)
  | (s, None) :: rest =>
      match earliest rest with
      | Some (stages, res) => Some (s :: stages, res)
      | None => None
      end
  end.

(** A layer that only inspects: it rejects without touching the state, or
    hands the request on unchanged. *)
Definition inspects (l : Layer) : Prop :=
  forall req w,
    run l req w = Next req w \/ exists res, run l req w = Respond res w.

(** A gate: it rejects without touching the state, or hands the request
    on unchanged, possibly after updating the state. *)
Definition gates (l : Layer) : Prop :=
  forall req w,
    (exists w', run l req w = Next req w') \/ exists res, run l req w = Respond res w.

(** A chain of inspecting layers that may end in one gate. *)
Inductive checked : list Layer -> Prop :=
| checked_nil : checked []
| checked_gate g : gates g -> checked [g]
| checked_cons c ls : inspects c -> checked ls -> checked (c :: ls).

(** The state a chain hands to the handler when every layer lets the
    request through. *)
Fixpoint worldAfter (ls : list Layer) (req : Request) (w : World) : World :=
  match ls with
  | [] => w
  | l :: rest =>
      match run l req w with
      | Next _ w' => worldAfter rest req w'
      | Respond _ w' => w'
      end
  end.

(** The layer of a limiter built from [options] over a store of its own. *)
Definition limiterLayer (options : RateLimitModel.Options)
    (get : World -> gmap string RateLimitBucket)
    (set : gmap string RateLimitBucket -> World -> World) : Layer :=
  mkLayer Admission (RateLimitModel.rateLimit options get set).

(** A handler that leaves the limiter stores alone. *)
Definition sparesLimiters (h : Handler) : Prop :=
  forall attempts upstream req w,
    baseLimiter (snd (h attempts upstream req w)) = baseLimiter w
    /\ userLimiter (snd (h attempts upstream req w)) = userLimiter w.

(** What a request that reaches a limiter meets there: either it is let
    through to the handler and counted in that limiter's store, or it is
    answered 429 with the limiter's own message, and nothing changes. *)
Definition admittedOrDenied (options : RateLimitModel.Options)
    (get : World -> gmap string RateLimitBucket)
    (req : Request) (w : World) (o : Outcome) : Prop :=
  match RateLimitModel.tryAcquire (ip req) (RateLimitModel.max options)
          (RateLimitModel.windowMs options) (now req) (get w) with
  | (RateLimitModel.Allowed, store) =>
      In Handle (ran o) /\ get (world o) = store
  | (RateLimitModel.Denied after, _) =>
      response o
      = Some (mkResponse 429
                (if RateLimitModel.standardHeaders options then Some after else None)
                (JsonLimit (RateLimitModel.messageError options)
                   (RateLimitModel.messageText options)))
      /\ world o = w /\ ~ In Handle (ran o)
  end.

(** The routes by the limiter their array carries. *)
Definition userLimitedRoutes : list Route :=
  [ basesController.getBases;
    enterpriseController.getAuditLogs;
    enterpriseController.getEnterpriseUsers ].

Definition baseLimitedRoutes : list Route :=
  [ basesController.getBaseSchema;
    recordsController.getTableRecords;
    recordsController.getRecord;
    recordsController.createRecords;
    recordsController.updateRecords;
    recordsController.deleteRecords;
    schemaController.createField;
    schemaController.updateField;
    webhookController.listWebhooks;
    webhookController.createWebhook;
    webhookController.deleteWebhook ].

Definition isAdmission (l : Layer) : bool :=
  match stage l with Admission => true | _ => false end.

(** The stage that sent the response is the last one that ran. *)
Definition respondedAt (o : Outcome) : option Stage := last (ran o).

Definition beforeAdmission (s : Stage) : bool :=
  match s with
  | Authenticate | Entitlement | Scope | Confirmation => true
  | Admission | Handle => false
  end.

(** The request carries a bearer token: an authorization header that
    starts with "Bearer " and has a non-empty second space-separated
    piece. *)
Definition hasBearerToken (req : Request) : bool :=
  match authorization req with
  | Some authHeader =>
      Js.startsWith "Bearer " authHeader
      && Js.truthyStr (nth_error (Js.split " " authHeader) 1)
  | None => false
  end.

(** The header values whose lower-case form is "true". *)
Definition trueSpellings : list string :=
  [ "true"; "truE"; "trUe"; "trUE"; "tRue"; "tRuE"; "tRUe"; "tRUE";
    "True"; "TruE"; "TrUe"; "TrUE"; "TRue"; "TRuE"; "TRUe"; "TRUE" ].

(** The confirmation header reads "true" in some spelling. *)
Definition confirms (confirmation : option string) : bool :=
  match confirmation with
  | Some value => String.eqb (Js.toLowerCase value) "true"
  | None => false
  end.

(** [error.type] of a response body, when it has an error object. *)
Definition errorType (res : Response) : option string :=
  match json res with
  | JsonError type _ _ => Some type
  | _ => None
  end.

(** The overload signal: a response with status 429. *)
Definition isOverload (answer : AxiosResult) : bool :=
  match answer with
  | Rejected (WithResponse status _) => (status =? 429)%nat
  | _ => false
  end.

(** The state after a request was issued [n] times in a row with a
    30-second wait between consecutive attempts. *)
Definition afterAttempts (n : nat) (config : UpstreamCall) (w : World) : World :=
  mkWorld (baseLimiter w) (userLimiter w)
    (upstreamCalls w ++ repeat config n)
    (slept w + 30000 * Z.of_nat (Nat.pred n)).

(** What a provider method makes of the final answer: the data, or the
    error [_handleError] throws. *)
Definition settled (answer : AxiosResult) : Result Js.Value :=
  match answer with
  | Fulfilled data => inr data
  | Rejected error => inl (AirtableProvider._handleError error)
  end.

(** The batch-shaped operations with, for each, its handler, the size of
    the batch as the handler measures it, and the request it sends
    upstream. *)
Inductive BatchOperation : Type := CreateRecords | UpdateRecords | DeleteRecords.

Definition batchHandler (op : BatchOperation) : Handler :=
  match op with
  | CreateRecords => recordsController.createRecordsHandler
  | UpdateRecords => recordsController.updateRecordsHandler
  | DeleteRecords => recordsController.deleteRecordsHandler
  end.

Definition batchSize (op : BatchOperation) (req : Request) : option nat :=
  match op with
  | CreateRecords | UpdateRecords =>
      match Js.member "records" (body req) with
      | Js.Array items => Some (length items)
      | _ => None
      end
  | DeleteRecords =>
      if recordsController.noRecords (query_records req) then None
      else length <$> recordsController.parseRecordIds (query_records req)
  end.

Definition addressed (req : Request) : bool :=
  Js.truthyStr (baseId (params req)) && Js.truthyStr (tableIdOrName (params req)).

Definition batchCall (op : BatchOperation) (req : Request) : UpstreamCall :=
  let base := propertyKey (baseId (params req)) in
  let table := propertyKey (tableIdOrName (params req)) in
  match op with
  | CreateRecords =>
      AirtableProvider.createRecords (bearerOf req) base table
        (Js.member "records" (body req))
        (Js.member "typecast" (body req))
        (Js.member "returnFieldsByFieldId" (body req))
  | UpdateRecords =>
      AirtableProvider.updateRecords (bearerOf req) base table
        (Js.member "records" (body req))
        (Js.member "typecast" (body req))
        (Js.member "returnFieldsByFieldId" (body req))
        (Js.member "performUpsert" (body req))
        (Js.member "destructive" (body req))
  | DeleteRecords =>
      AirtableProvider.deleteRecords (bearerOf req) base table
        (default [] (recordsController.parseRecordIds (query_records req)))
  end.

(** A batch as the client sends it: for a create or an update the members
    of the array under [records] in the body; for a delete the record ids
    of the query string, either one per [records] parameter or, in a single
    value, the pieces between the commas without the white space around
    them. *)
Inductive Batch : Type :=
| Records (items : list Js.Value)
| RecordIds (ids : list string).

Definition batchItems (batch : Batch) : nat :=
  match batch with
  | Records items => length items
  | RecordIds ids => length ids
  end.

Definition sentBatch (op : BatchOperation) (req : Request) : option Batch :=
  match op with
  | CreateRecords | UpdateRecords =>
      match body req with
      | Js.Object fields =>
          match Js.assoc "records" fields with
          | Some (Js.Array items) => Some (Records items)
          | _ => None
          end
      | _ => None
      end
  | DeleteRecords =>
      match query_records req with
      | QueryArray ids => Some (RecordIds ids)
      | QueryString s =>
          if String.eqb s "" then None
          else Some (RecordIds (map Js.trim (Js.split "," s)))
      | _ => None
      end
  end.

(** What the server says of a batch that is too large. *)
Definition ceilingMessage (op : BatchOperation) : string :=
  match op with
  | CreateRecords => "Maximum of 10 records can be created in a single request"
  | UpdateRecords => "Maximum of 10 records can be updated in a single request"
  | DeleteRecords => "Maximum of 10 records can be deleted in a single request"
  end.

(** An update that asks to replace whole records carries the confirmation
    header; the other operations have nothing to confirm in the handler. *)
Definition cleared (op : BatchOperation) (req : Request) : bool :=
  match op with
  | UpdateRecords =>
      implb (Js.truthy (Js.member "destructive" (body req)))
            (confirms (x_confirm_destructive_operation req))
  | _ => true
  end.

(** The request [c] to Airtable carries the batch of [req] to the table
    [table] of the base [base]: a POST, a PATCH (a PUT when replacing) or a
    DELETE to that table with the client's token; the records are the
    [records] member of what is posted, the ids the [records[]] parameters
    of the URL, in the order the client gave them. *)
Definition carries (op : BatchOperation) (base table : string) (req : Request)
    (batch : Batch) (c : UpstreamCall) : Prop :=
  bearer c = match token req with Some t => t | None => "undefined" end
  /\ match op, batch with
     | CreateRecords, Records items =>
         method c = POST
         /\ url c = "/" +:+ base +:+ "/" +:+ table
         /\ Js.member "records" (data c) = Js.Array items
     | UpdateRecords, Records items =>
         method c = (if Js.truthy (Js.member "destructive" (body req))
                     then PUT else PATCH)
         /\ url c = "/" +:+ base +:+ "/" +:+ table
         /\ Js.member "records" (data c) = Js.Array items
     | DeleteRecords, RecordIds ids =>
         method c = DELETE
         /\ url c = "/" +:+ base +:+ "/" +:+ table +:+ "?"
                    +:+ Js.join "&" (map (fun id => "records[]=" +:+ id) ids)
     | _, _ => False
     end.

(** The error types the server itself puts in an error object. *)
Definition localTypes : list string :=
  [ "INVALID_REQUEST"; "FEATURE_UNAVAILABLE"; "INSUFFICIENT_PERMISSIONS";
    "CONFIRMATION_REQUIRED"; "SERVER_ERROR" ].

Definition limiterErrors : list string :=
  [ "RATE_LIMIT_REACHED"; "USER_RATE_LIMIT_REACHED" ].

Definition hasRetryAfter (res : Response) : bool :=
  match retryAfter res with Some _ => true | None => false end.

(** The three shapes a response of the server takes. *)
Definition wellShaped (res : Response) : bool :=
  match json res with
  | JsonData _ => (statusCode res =? 200)%nat && negb (hasRetryAfter res)
  | JsonLimit error _ =>
      (statusCode res =? 429)%nat && hasRetryAfter res
      && Js.includes limiterErrors error
  | JsonError type _ None =>
      Js.includes localTypes type
      && existsb (Nat.eqb (statusCode res)) [400; 401; 403; 500]%nat
      && negb (hasRetryAfter res)
  | JsonError type _ (Some _) =>
      negb (String.eqb type "") && negb (statusCode res =? 0)%nat
      && negb (hasRetryAfter res)
  end.

(* ===================================================================== *)
(** ** Sample requests, states and upstream doubles *)
(* ===================================================================== *)

Module Sample.

Definition freshWorld : World := mkWorld ∅ ∅ [] 0.

Definition noParams : Params := mkParams None None None None None None.

Definition tableParams : Params :=
  mkParams (Some "appA") (Some "tblT") None None None None.

Definition webhookParams : Params :=
  mkParams (Some "appA") None None None None (Some "wh1").

(** A request from 10.0.0.1 at time 0 with no headers, parameters or body. *)
Definition bare : Request :=
  mkRequest "10.0.0.1" 0 None None None None noParams
    (Js.Object []) QueryAbsent (Js.Object []) None None None.

Definition withHeaders (authorization plan scopes confirm : option string)
    (p : Params) (records : QueryValue) (b : Js.Value) : Request :=
  mkRequest "10.0.0.1" 0 authorization plan scopes confirm p
    (Js.Object []) records b None None None.

(** An upstream that answers every request with the same result. *)
Definition always (answer : AxiosResult) : Upstream := fun _ _ => answer.

Definition overloaded : AxiosResult := Rejected (WithResponse 429 (DataWith None)).

Definition ok : AxiosResult := Fulfilled (Js.Object [("records", Js.Array [])]).

(** An upstream that is overloaded for its first [k] requests and succeeds
    from then on. *)
Definition overloadedFor (k : nat) : Upstream :=
  fun n _ => if (n <? k)%nat then overloaded else ok.

(** [n] records. *)
Definition someRecords (n : nat) : Js.Value :=
  Js.Array (repeat (Js.Object [("id", Js.Str "rec1")]) n).

Definition recordsBody (n : nat) (destructive : bool) : Js.Value :=
  Js.Object [("records", someRecords n); ("destructive", Js.Boolean destructive)].

(** A limiter store in which 10.0.0.1 has used up the base limiter's window
    that started at time 0. *)
Definition exhausted : gmap string RateLimitBucket :=
  {[ "10.0.0.1" := mkBucket "10.0.0.1" 0 5 5 1000 ]}.

Definition busyWorld : World := mkWorld exhausted ∅ [] 0.

(** PATCH .../records with [destructive: true], one record, a valid token
    with the write scope, and no confirmation header. *)
Definition destructiveUpdate : Request :=
  withHeaders (Some "Bearer tok") None (Some "data.records:write") None
    tableParams QueryAbsent (recordsBody 1 true).

(** DELETE .../records?records=rec1,rec2 with a valid token and the write
    scope, and no confirmation header. *)
Definition unconfirmedDelete : Request :=
  withHeaders (Some "Bearer tok") None (Some "data.records:write") None
    tableParams (QueryString "rec1,rec2") (Js.Object []).

(** POST .../records with [n] records, as it reaches the handler. *)
Definition createBatch (n : nat) : Request :=
  attached (withHeaders (Some "Bearer tok") None (Some "data.records:write") None
              tableParams QueryAbsent (recordsBody n false)).

(** DELETE .../records?records=[ids] with the confirmation header, as it
    reaches the handler. *)
Definition deleteBatch (ids : string) : Request :=
  attached (withHeaders (Some "Bearer tok") None (Some "data.records:write")
              (Some "true") tableParams (QueryString ids) (Js.Object [])).

(** GET /api/bases/appA/webhooks on the free plan, with the webhook scope. *)
Definition listWebhooksOnFree : Request :=
  withHeaders (Some "Bearer tok") (Some "free") (Some "webhook:manage") None
    tableParams QueryAbsent (Js.Object []).

(** A 404 from Airtable with an error object of its own. *)
Definition modelNotFound : AxiosError :=
  WithResponse 404
    (DataWith (Some (ErrorObject (Some "MODEL_ID_NOT_FOUND")
                       (Some "Could not find table tblT")))).

(** A plan table whose tiers are not ordered by inclusion: the middle tier
    grants exports, the top tier does not. *)
Definition unorderedPlans : BillingPlanModel.PlanTable :=
  [ ("basic", ["records"]);
    ("plus", ["records"; "exports"]);
    ("premium", ["records"; "webhooks"]) ].

(** PATCH .../records with [destructive: true] and the confirmation header
    in capitals, as it reaches the handler. *)
Definition confirmedUpdate : Request :=
  attached (withHeaders (Some "Bearer tok") None (Some "data.records:write")
              (Some "TRUE") tableParams QueryAbsent (recordsBody 1 true)).

(** GET /api/bases/appA/schema with a valid token and the read scope. *)
Definition readSchema : Request :=
  withHeaders (Some "Bearer tok") None (Some "schema.bases:read") None
    tableParams QueryAbsent (Js.Object []).

End Sample.

(* ===================================================================== *)
(** ** Vocabulary for further properties *)
(* ===================================================================== *)

(** The billing plan and the token scopes [authMiddleware] attaches. *)
Definition planOf (req : Request) : string :=
  propertyKey (billingPlan (attached req)).

Definition scopesOf (req : Request) : list string :=
  default [] (tokenScopes (attached req)).

(** The names of the plans in [PLAN_FEATURES]. *)
Definition knownPlans : list string :=
  map fst BillingPlanModel.PLAN_FEATURES.

(** The routes behind [FEATURES.BASE_DATA], and the routes behind a feature
    only the enterprise plan has. *)
Definition baseDataRoutes : list Route :=
  [ basesController.getBases;
    basesController.getBaseSchema;
    recordsController.getTableRecords;
    recordsController.getRecord;
    recordsController.createRecords;
    recordsController.updateRecords;
    recordsController.deleteRecords ].

Definition enterpriseScaleRoutes : list Route :=
  [ schemaController.createField;
    schemaController.updateField;
    webhookController.listWebhooks;
    webhookController.createWebhook;
    webhookController.deleteWebhook;
    enterpriseController.getAuditLogs;
    enterpriseController.getEnterpriseUsers ].

Definition featureUnavailable (plan : string) : Response :=
  errorResponse 403 "FEATURE_UNAVAILABLE"
    ("This feature requires the " +:+ plan +:+ " plan or higher.").

Definition featureCheckFailed : Response :=
  errorResponse 500 "SERVER_ERROR" "Failed to check feature availability.".

Definition insufficientPermissions (requiredScopes : list string) : Response :=
  errorResponse 403 "INSUFFICIENT_PERMISSIONS"
    ("This operation requires the following scopes: "
     +:+ Js.join ", " requiredScopes).

(** Methods that overwrite or remove data upstream. *)
Definition overwrites (m : Method) : bool :=
  match m with
  | PUT | DELETE => true
  | GET | POST | PATCH => false
  end.

(** The requests a handler adds to the upstream log are copies of one
    request, which satisfies [P] of the request served. *)
Definition issues (h : Handler) (P : Request -> UpstreamCall -> Prop) : Prop :=
  forall attempts upstream req w,
    exists n config,
      upstreamCalls (snd (h attempts upstream req w))
      = (upstreamCalls w ++ repeat config n)%list
      /\ ((0 < n)%nat -> P req config).

(** Occurrences of a character in a string. *)
Fixpoint countChar (c : ascii) (s : string) : nat :=
  match s with
  | EmptyString => O
  | String c' rest => (if Ascii.eqb c' c then 1 else 0) + countChar c rest
  end.

(** A string of white space only. *)
Fixpoint blank (s : string) : bool :=
  match s with
  | EmptyString => true
  | String c rest => Js.isWhiteSpace c && blank rest
  end.

Definition firstChar (s : string) : option ascii :=
  match s with
  | EmptyString => None
  | String c _ => Some c
  end.

Fixpoint lastChar (s : string) : option ascii :=
  match s with
  | EmptyString => None
  | String c rest =>
      match lastChar rest with
      | Some l => Some l
      | None => Some c
      end
  end.

(** No white space at this end of a string, which may be empty. *)
Definition unpadded (edge : option ascii) : bool :=
  match edge with
  | Some c => negb (Js.isWhiteSpace c)
  | None => true
  end.

(** [id] is [piece] without the white space around it. *)
Definition stripped (piece id : string) : Prop :=
  exists before after,
    piece = before +:+ id +:+ after
    /\ blank before = true /\ blank after = true
    /\ unpadded (firstChar id) = true /\ unpadded (lastChar id) = true.

(** A response with status 429 is the server's own limiter speaking. *)
Definition ownLimit (res : Response) : Prop :=
  statusCode res = 429%nat -> exists error message, json res = JsonLimit error message.

(** Where a response comes from: the upstream's data, an upstream failure
    other than a 429, one of the server's own checks, or a limiter. *)
Inductive origin : Response -> Prop :=
| from_upstream_data d : origin (dataResponse d)
| from_upstream_failure error :
    isOverload (Rejected error) = false ->
    origin (handleErrorResponse (AirtableProvider._handleError error))
| from_server code type message :
    In code [400; 401; 403; 500]%nat ->
    origin (errorResponse code type message)
| from_limiter after error message :
    origin (mkResponse 429 after (JsonLimit error message)).

(** The response to an upstream failure, read off the failure. *)
Definition translated (error : AxiosError) : Response :=
  match error with
  | WithResponse status (DataWith (Some (ErrorObject (Some type) message))) =>
      if negb (status =? 0)%nat && negb (String.eqb type "")
      then mkResponse status None
             (JsonError type
                (match message with
                 | Some m => if String.eqb m "" then "Airtable API error" else m
                 | None => "Airtable API error"
                 end)
                (Some (ErrorObject (Some type) message)))
      else errorResponse 500 "SERVER_ERROR"
             (match message with
              | Some m => if String.eqb m "" then "Airtable API error" else m
              | None => "Airtable API error"
              end)
  | WithResponse _ (DataWith (Some (ErrorObject None message))) =>
      errorResponse 500 "SERVER_ERROR"
        (match message with
         | Some m => if String.eqb m "" then "Airtable API error" else m
         | None => "Airtable API error"
         end)
  | WithResponse _ (DataWith _) =>
      errorResponse 500 "SERVER_ERROR" "Airtable API error"
  | WithResponse _ NullData =>
      errorResponse 500 "SERVER_ERROR"
        "Cannot read properties of null (reading 'error')"
  | NoResponse =>
      errorResponse 500 "SERVER_ERROR" "No response received from Airtable API"
  | SetupError message =>
      errorResponse 500 "SERVER_ERROR"
        (if String.eqb message "" then "An unexpected error occurred" else message)
  end.

Module MoreSamples.

(** A 404 whose body is Airtable's short form, a bare string. *)
Definition notFoundString : AxiosError :=
  WithResponse 404 (DataWith (Some (ErrorString "NOT_FOUND"))).

(** An upstream that answers 429 to its first two requests and then fails
    with [notFoundString]. *)
Definition overloadedThenMissing : Upstream :=
  fun n _ => if (n <? 2)%nat then Sample.overloaded else Rejected notFoundString.

(** A request with a token and nothing else: default plan and scopes. *)
Definition tokenOnly : Request :=
  Sample.withHeaders (Some "Bearer tok") None None None
    Sample.tableParams QueryAbsent (Js.Object []).

(** A request whose scopes header lists two scopes, with a space after
    the comma. *)
Definition twoScopes : Request :=
  Sample.withHeaders (Some "Bearer tok") None
    (Some "data.records:read, schema.bases:read") None
    Sample.tableParams QueryAbsent (Js.Object []).

(** A business-plan request for the webhooks of a base. *)
Definition businessWebhooks : Request :=
  Sample.withHeaders (Some "Bearer tok") (Some "business") (Some "webhook:manage")
    None Sample.tableParams QueryAbsent (Js.Object []).

(** A request whose plan header names no plan. *)
Definition platinum : Request :=
  Sample.withHeaders (Some "Bearer tok") (Some "platinum") None None
    Sample.tableParams QueryAbsent (Js.Object []).

(** A confirmed delete of two records, with the write scope. *)
Definition confirmedDelete : Request :=
  Sample.withHeaders (Some "Bearer tok extra") None (Some "data.records:write")
    (Some "True") Sample.tableParams (QueryString "rec1, rec2") (Js.Object []).

(** POST .../records whose [records] member is an object, not an array. *)
Definition objectRecords : Request :=
  attached (Sample.withHeaders (Some "Bearer tok") None (Some "data.records:write")
              None Sample.tableParams QueryAbsent
              (Js.Object [("records", Js.Object [("id", Js.Str "rec1")])])).

End MoreSamples.

(* ===================================================================== *)
(** * Properties *)
(* ===================================================================== *)

(** ** The layers one by one *)

Lemma setBaseLimiter_same w : setBaseLimiter (baseLimiter w) w = w.
Proof. destruct w; reflexivity. Qed.

Lemma setUserLimiter_same w : setUserLimiter (userLimiter w) w = w.
Proof. destruct w; reflexivity. Qed.

Lemma authMiddleware_cases req w :
  authMiddleware req w = Respond authenticationRequired w
  \/ authMiddleware req w = Next (attached req) w.
Proof.
  unfold authMiddleware, attached.
  destruct (authorization req) as [authHeader|]; [|left; reflexivity].
  destruct (negb (Js.truthyStr (Some authHeader))
            || negb (Js.startsWith "Bearer " authHeader)); [left; reflexivity|].
  destruct (negb (Js.truthyStr (nth_error (Js.split " " authHeader) 1)));
    [left|right]; reflexivity.
Qed.

Lemma featureCheck_inspects feature : inspects (featureCheck feature).
Proof.
  intros req w. simpl. unfold featureCheckMiddleware.
  destruct (BillingPlanModel.hasFeature _ feature) as [e|[|]]; eauto.
  destruct (BillingPlanModel.getMinimumPlanForFeature feature); eauto.
Qed.

Lemma scopeCheck_inspects endpoint : inspects (scopeCheck endpoint).
Proof.
  intros req w. simpl. unfold scopeCheckMiddleware.
  destruct (TokenScopeModel.hasRequiredScopesForEndpoint _ endpoint) as [e|[|]]; eauto.
  destruct (TokenScopeModel.requiredScopesFor endpoint); eauto.
Qed.

Lemma confirmDestructive_inspects : inspects confirmDestructive.
Proof.
  intros req w. simpl. unfold confirmDestructiveOperationMiddleware.
  destruct (notConfirmed _); eauto.
Qed.

Lemma tryAcquire_denied k lim duration t store after store' :
  RateLimitModel.tryAcquire k lim duration t store
  = (RateLimitModel.Denied after, store') ->
  store' = store.
Proof.
  unfold RateLimitModel.tryAcquire.
  destruct (_ <=? _)%nat; congruence.
Qed.

Lemma baseRateLimit_gates : gates baseRateLimit.
Proof.
  intros req w. simpl. unfold baseRateLimitMiddleware, RateLimitModel.rateLimit.
  destruct (RateLimitModel.tryAcquire _ _ _ _ _) as [[|after] store] eqn:E; eauto.
  apply tryAcquire_denied in E. subst store.
  rewrite setBaseLimiter_same. eauto.
Qed.

Lemma userRateLimit_gates : gates userRateLimit.
Proof.
  intros req w. simpl. unfold userRateLimitMiddleware, RateLimitModel.rateLimit.
  destruct (RateLimitModel.tryAcquire _ _ _ _ _) as [[|after] store] eqn:E; eauto.
  apply tryAcquire_denied in E. subst store.
  rewrite setUserLimiter_same. eauto.
Qed.

(** ** Chains of layers *)

Lemma earliest_judged req w l ls :
  earliest (map (judged req w) (l :: ls))
  = match run l req w with
    | Respond res _ => Some ([stage l], res)
    | Next _ _ =>
        match earliest (map (judged req w) ls) with
        | Some (stages, res) => Some (stage l :: stages, res)
        | None => None
        end
    end.
Proof.
  simpl. unfold judged at 1, rejection. destruct (run l req w); reflexivity.
Qed.

(** A rejection somewhere in a checked chain: the earliest rejecting
    layer's response is sent, the stages up to it are the ones that ran,
    and the state is untouched. *)
Lemma runLayers_earliest ls h attempts upstream req :
  checked ls ->
  forall w stages res,
    earliest (map (judged req w) ls) = Some (stages, res) ->
    runLayers ls h attempts upstream req w = mkOutcome stages (Some res) w.
Proof.
  induction 1 as [|g Hg|c ls Hc Hls IH]; intros w stages res E.
  - discriminate.
  - rewrite earliest_judged in E. simpl.
    destruct (Hg req w) as [[w' R]|[res' R]]; rewrite R in *; simpl in E;
      congruence.
  - rewrite earliest_judged in E. simpl.
    destruct (Hc req w) as [R|[res' R]]; rewrite R in *; [|congruence].
    destruct (earliest (map (judged req w) ls)) as [[stages' res']|] eqn:E';
      [|discriminate].
    rewrite (IH _ _ _ E'). unfold logged. simpl. congruence.
Qed.

(** No rejection in a checked chain: every layer ran, then the handler,
    on the state the chain left. *)
Lemma runLayers_admitted ls h attempts upstream req :
  checked ls ->
  forall w,
    earliest (map (judged req w) ls) = None ->
    runLayers ls h attempts upstream req w
    = mkOutcome (map stage ls ++ [Handle])
        (fst (h attempts upstream req (worldAfter ls req w)))
        (snd (h attempts upstream req (worldAfter ls req w))).
Proof.
  induction 1 as [|g Hg|c ls Hc Hls IH]; intros w E.
  - simpl. destruct (h attempts upstream req w); reflexivity.
  - rewrite earliest_judged in E. simpl.
    destruct (Hg req w) as [[w' R]|[res' R]]; rewrite R in *; simpl in E;
      [|discriminate].
    destruct (h attempts upstream req w'); reflexivity.
  - rewrite earliest_judged in E. simpl.
    destruct (Hc req w) as [R|[res' R]]; rewrite R in *; [|discriminate].
    destruct (earliest (map (judged req w) ls)) as [[stages' res']|] eqn:E';
      [discriminate|].
    rewrite (IH _ E'). reflexivity.
Qed.

Lemma earliest_stages vs stages res :
  earliest vs = Some (stages, res) ->
  exists n, stages = firstn (S n) (map fst vs) /\ (n < length vs)%nat.
Proof.
  revert stages res. induction vs as [|[s [r|]] vs IH]; intros stages res E;
    simpl in E.
  - discriminate.
  - inversion E; subst. exists O. simpl. split; [reflexivity|lia].
  - destruct (earliest vs) as [[stages' res']|]; [|discriminate].
    inversion E; subst.
    destruct (IH _ _ eq_refl) as [n [-> Hn]].
    exists (S n). simpl. split; [reflexivity|lia].
Qed.

(** ** Routes *)

(** Every route is [authMiddleware], a feature check, a scope check, and
    then one limiter, preceded on the two delete routes by the
    confirmation middleware. *)
Lemma routes_shape r :
  In r routes ->
  exists feature endpoint tail,
    layers r = auth :: featureCheck feature :: scopeCheck endpoint :: tail
    /\ (tail = [baseRateLimit] \/ tail = [userRateLimit]
        \/ tail = [confirmDestructive; baseRateLimit]).
Proof.
  unfold routes. simpl.
  intros H.
  repeat (destruct H as [ <- | H ];
          [do 3 eexists; split; [reflexivity|tauto]|]).
  contradiction.
Qed.

Lemma routes_checked r :
  In r routes -> exists rest, layers r = auth :: rest /\ checked rest.
Proof.
  intros H. destruct (routes_shape r H) as (f & e & tail & -> & Htail).
  eexists. split; [reflexivity|].
  apply checked_cons; [apply featureCheck_inspects|].
  apply checked_cons; [apply scopeCheck_inspects|].
  destruct Htail as [ -> | [ -> | -> ] ].
  - apply checked_gate, baseRateLimit_gates.
  - apply checked_gate, userRateLimit_gates.
  - apply checked_cons; [apply confirmDestructive_inspects|].
    apply checked_gate, baseRateLimit_gates.
Qed.

Lemma routes_never_log_Handle r :
  In r routes -> ~ In Handle (map stage (layers r)).
Proof.
  intros H. destruct (routes_shape r H) as (f & e & tail & -> & Htail).
  destruct Htail as [ -> | [ -> | -> ] ]; simpl; intuition discriminate.
Qed.

Lemma serve_rejected r attempts upstream req w stages res :
  In r routes ->
  earliest (verdicts r req w) = Some (stages, res) ->
  serve r attempts upstream req w = mkOutcome stages (Some res) w.
Proof.
  intros Hr E. destruct (routes_checked r Hr) as (rest & L & Hrest).
  unfold serve, verdicts in *. rewrite L in *.
  simpl in E. simpl runLayers. unfold rejection in E. simpl run in E.
  destruct (authMiddleware_cases req w) as [R|R]; rewrite R in *.
  - congruence.
  - destruct (earliest (map (judged (attached req) w) rest))
      as [[stages' res']|] eqn:E'; [|discriminate].
    rewrite (runLayers_earliest _ _ _ _ _ Hrest _ _ _ E').
    unfold logged. simpl. congruence.
Qed.

Lemma serve_admitted r attempts upstream req w :
  In r routes ->
  earliest (verdicts r req w) = None ->
  serve r attempts upstream req w
  = mkOutcome (map stage (layers r) ++ [Handle])
      (fst (handler r attempts upstream (attached req)
              (worldAfter (tl (layers r)) (attached req) w)))
      (snd (handler r attempts upstream (attached req)
              (worldAfter (tl (layers r)) (attached req) w))).
Proof.
  intros Hr E. destruct (routes_checked r Hr) as (rest & L & Hrest).
  unfold serve, verdicts in *. rewrite L in *.
  simpl in E. simpl runLayers. unfold rejection in E. simpl run in E.
  destruct (authMiddleware_cases req w) as [R|R]; rewrite R in *.
  - discriminate.
  - destruct (earliest (map (judged (attached req) w) rest))
      as [[stages' res']|] eqn:E'; [discriminate|].
    rewrite (runLayers_admitted _ _ _ _ _ Hrest _ E').
    reflexivity.
Qed.

Lemma last_snoc {A} (l : list A) (x : A) : last (l ++ [x]) = Some x.
Proof. induction l as [|a [|b l] IH]; simpl in *; auto. Qed.

(** ** Rejection before admission *)

Lemma serve_cases r attempts upstream req w :
  In r routes ->
  (exists stages res,
     earliest (verdicts r req w) = Some (stages, res)
     /\ serve r attempts upstream req w = mkOutcome stages (Some res) w)
  \/ ran (serve r attempts upstream req w) = (map stage (layers r) ++ [Handle])%list.
Proof.
  intros Hr.
  destruct (earliest (verdicts r req w)) as [[stages res]|] eqn:E.
  - left. exists stages, res. split; [reflexivity|].
    apply serve_rejected; assumption.
  - right. rewrite (serve_admitted _ _ _ _ _ Hr E). reflexivity.
Qed.

(** On the two delete routes a request without confirmation is stopped at
    the confirmation middleware or earlier. *)
Lemma unconfirmed_delete_stops feature endpoint h attempts upstream req w :
  notConfirmed (x_confirm_destructive_operation req) = true ->
  let o :=
    runLayers
      [auth; featureCheck feature; scopeCheck endpoint; confirmDestructive;
       baseRateLimit] h attempts upstream req w in
  world o = w /\ ~ In Admission (ran o) /\ ~ In Handle (ran o)
  /\ (respondedAt o = Some Confirmation -> response o = Some confirmationRequired).
Proof.
  intros Hc. simpl.
  destruct (authMiddleware_cases req w) as [R|R]; rewrite R.
  { simpl. intuition discriminate. }
  destruct (featureCheck_inspects feature (attached req) w) as [F|[res F]];
    simpl in F; rewrite F.
  2:{ simpl. intuition discriminate. }
  destruct (scopeCheck_inspects endpoint (attached req) w) as [S|[res S]];
    simpl in S; rewrite S.
  2:{ simpl. intuition discriminate. }
  unfold confirmDestructiveOperationMiddleware.
  change (x_confirm_destructive_operation (attached req))
    with (x_confirm_destructive_operation req).
  rewrite Hc. simpl. intuition discriminate.
Qed.

(** C1 (as amended).  On every route, a request answered by the
    authentication, feature, scope or confirmation middleware leaves both
    limiter stores as they were and sends nothing upstream; on deleteRecords
    and deleteWebhook a request without confirmation never reaches the
    limiter or the handler, and what the confirmation middleware answers is
    CONFIRMATION_REQUIRED. *)
Theorem C1_rejection_before_admission_spares_quota :
  forall r attempts upstream req w,
    In r routes ->
    let o := serve r attempts upstream req w in
    (forall s,
       respondedAt o = Some s -> beforeAdmission s = true ->
       baseLimiter (world o) = baseLimiter w
       /\ userLimiter (world o) = userLimiter w
       /\ upstreamCalls (world o) = upstreamCalls w)
    /\ (r = recordsController.deleteRecords \/ r = webhookController.deleteWebhook ->
        notConfirmed (x_confirm_destructive_operation req) = true ->
        baseLimiter (world o) = baseLimiter w
        /\ userLimiter (world o) = userLimiter w
        /\ upstreamCalls (world o) = upstreamCalls w
        /\ ~ In Admission (ran o) /\ ~ In Handle (ran o)
        /\ (respondedAt o = Some Confirmation ->
            response o = Some confirmationRequired)).
Proof.
  intros r attempts upstream req w Hr o. split.
  - intros s Hs Hb. subst o.
    destruct (serve_cases r attempts upstream req w Hr)
      as [(stages & res & _ & ->)|Hran].
    + simpl. auto.
    + unfold respondedAt in Hs. rewrite Hran, last_snoc in Hs.
      inversion Hs; subst. discriminate.
  - intros Hdel Hc. subst o.
    assert (H : world (serve r attempts upstream req w) = w
                /\ ~ In Admission (ran (serve r attempts upstream req w))
                /\ ~ In Handle (ran (serve r attempts upstream req w))
                /\ (respondedAt (serve r attempts upstream req w) = Some Confirmation ->
                    response (serve r attempts upstream req w)
                    = Some confirmationRequired)).
    { destruct Hdel as [->| ->]; unfold serve; simpl layers;
        apply unconfirmed_delete_stops; assumption. }
    destruct H as (-> & H1 & H2 & H3). auto 10.
Qed.

(** The theorem at work: an unconfirmed delete from a client whose window
    is used up is answered CONFIRMATION_REQUIRED and changes nothing. *)
Lemma C1_witness :
  let o := serve recordsController.deleteRecords 1 (Sample.always Sample.ok)
             Sample.unconfirmedDelete Sample.busyWorld in
  response o = Some confirmationRequired
  /\ baseLimiter (world o) = Sample.exhausted
  /\ upstreamCalls (world o) = [].
Proof.
  destruct (C1_rejection_before_admission_spares_quota
              recordsController.deleteRecords 1 (Sample.always Sample.ok)
              Sample.unconfirmedDelete Sample.busyWorld)
    as [_ H].
  { simpl. tauto. }
  destruct H as (Hb & _ & Hu & _ & _ & Hres).
  { left. reflexivity. }
  { reflexivity. }
  split; [apply Hres; vm_compute; reflexivity|].
  split; [exact Hb|exact Hu].
Defined.

(** C1 as stated fails on updateRecords: a destructive update without
    confirmation is answered CONFIRMATION_REQUIRED by the handler, after
    [baseRateLimitMiddleware] has counted the request. *)
Lemma C1_counterexample :
  let o := serve recordsController.updateRecords 1 (Sample.always Sample.ok)
             Sample.destructiveUpdate Sample.freshWorld in
  errorType <$> response o = Some (Some "CONFIRMATION_REQUIRED")
  /\ upstreamCalls (world o) = []
  /\ count <$> (baseLimiter Sample.freshWorld !! "10.0.0.1") = None
  /\ count <$> (baseLimiter (world o) !! "10.0.0.1") = Some 1%nat.
Proof. vm_compute. repeat split; reflexivity. Qed.

(** ** Stage order *)

Lemma firstn_not_in {A} (x : A) (l : list A) n : ~ In x l -> ~ In x (firstn n l).
Proof.
  revert n. induction l as [|a l IH]; intros [|n] H; simpl; auto.
  simpl in H. intros [->|Hin]; [tauto|]. apply (IH n); tauto.
Qed.

Lemma verdicts_stages r req w :
  map fst (verdicts r req w) = map stage (layers r).
Proof.
  unfold verdicts. destruct (layers r) as [|first rest]; [reflexivity|].
  simpl. f_equal. induction rest as [|l rest IH]; simpl; congruence.
Qed.

(** C2 (as amended).  On every route the layers of its middleware array
    are judged in array order: when one or more of them would reject the
    request, the response is that of the earliest one, the stages after it
    never run, the handler (and with it the upstream) is never reached and
    the state is untouched.  On deleteRecords and deleteWebhook the order
    is authenticate, feature check, scope check, confirmation, rate
    limit. *)
Theorem C2_earliest_rejecting_stage_answers :
  forall r attempts upstream req w stages res,
    In r routes ->
    earliest (verdicts r req w) = Some (stages, res) ->
    serve r attempts upstream req w = mkOutcome stages (Some res) w
    /\ (exists n, stages = firstn (S n) (map stage (layers r))
                  /\ (n < length (layers r))%nat)
    /\ ~ In Handle stages
    /\ (r = recordsController.deleteRecords \/ r = webhookController.deleteWebhook ->
        map stage (layers r)
        = [Authenticate; Entitlement; Scope; Confirmation; Admission]).
Proof.
  intros r attempts upstream req w stages res Hr E.
  split; [apply serve_rejected; assumption|].
  assert (Hn : exists n, stages = firstn (S n) (map stage (layers r))
                         /\ (n < length (layers r))%nat).
  { destruct (earliest_stages _ _ _ E) as [n [-> Hn]].
    exists n. rewrite verdicts_stages. split; [reflexivity|].
    rewrite <- (length_map fst), verdicts_stages, length_map in Hn. exact Hn. }
  split; [exact Hn|]. split.
  - destruct Hn as [n [-> _]].
    apply firstn_not_in, routes_never_log_Handle, Hr.
  - intros [->| ->]; reflexivity.
Qed.

(** The theorem at work on the request of the specification's example: no
    credential, the default scope where the write scope is required, no
    confirmation, and a used-up window.  Four stages would reject it; the
    response is the authentication middleware's. *)
Lemma C2_witness :
  map (fun v => (fst v, statusCode <$> snd v))
    (verdicts recordsController.deleteRecords Sample.bare Sample.busyWorld)
  = [ (Authenticate, Some 401%nat); (Entitlement, None); (Scope, Some 403%nat);
      (Confirmation, Some 400%nat); (Admission, Some 429%nat) ]
  /\ serve recordsController.deleteRecords 1 (Sample.always Sample.ok)
       Sample.bare Sample.busyWorld
     = mkOutcome [Authenticate] (Some authenticationRequired) Sample.busyWorld.
Proof.
  split; [vm_compute; reflexivity|].
  apply (C2_earliest_rejecting_stage_answers
           recordsController.deleteRecords 1 (Sample.always Sample.ok)
           Sample.bare Sample.busyWorld [Authenticate] authenticationRequired).
  - simpl. tauto.
  - vm_compute. reflexivity.
Defined.

(** C2 as stated fails on updateRecords: a destructive update that lacks
    confirmation and comes from a client whose window is used up fails both
    the confirmation check and admission, and is answered by the limiter,
    the later of the two in the specified order. *)
Lemma C2_counterexample :
  let req := Sample.destructiveUpdate in
  let o := serve recordsController.updateRecords 1 (Sample.always Sample.ok)
             req Sample.busyWorld in
  Js.truthy (Js.member "destructive" (body req)) = true
  /\ notConfirmed (x_confirm_destructive_operation req) = true
  /\ ran o = [Authenticate; Entitlement; Scope; Admission]
  /\ response o
     = Some (mkResponse 429 (Some 1000)
               (JsonLimit "RATE_LIMIT_REACHED"
                  "Rate limit exceeded. Please try again later."))
  /\ errorType <$> response o <> Some (Some "CONFIRMATION_REQUIRED").
Proof. vm_compute. repeat split; try reflexivity. discriminate. Qed.

(** ** Admission *)

Lemma api_spares_limiters attempts upstream config w :
  baseLimiter (snd (AirtableProvider.api attempts upstream config w)) = baseLimiter w
  /\ userLimiter (snd (AirtableProvider.api attempts upstream config w)) = userLimiter w.
Proof.
  revert w. induction attempts as [|n IH]; intros w; simpl; [auto|].
  destruct (upstream _ config) as [d|[status d| |m]]; simpl; auto.
  destruct (status =? 429)%nat; simpl; auto.
  destruct (IH (AirtableProvider.sleep 30000 (AirtableProvider.record config w)))
    as [-> ->]. auto.
Qed.

Lemma dispatch_spares_limiters attempts upstream config w :
  baseLimiter (snd (dispatch attempts upstream config w)) = baseLimiter w
  /\ userLimiter (snd (dispatch attempts upstream config w)) = userLimiter w.
Proof.
  unfold dispatch, AirtableProvider.send.
  pose proof (api_spares_limiters attempts upstream config w) as H.
  destruct (AirtableProvider.api attempts upstream config w) as [[[d|e]|] w'];
    exact H.
Qed.

Ltac split_handler :=
  repeat match goal with
         | |- context [if ?b then _ else _] => destruct b
         | |- context [match ?x with Some _ => _ | None => _ end] => destruct x
         end;
  try apply dispatch_spares_limiters; simpl; auto.

Lemma handlers_spare_limiters r : In r routes -> sparesLimiters (handler r).
Proof.
  unfold routes. simpl. intros H attempts upstream req w.
  repeat (destruct H as [ <- | H ]; [simpl handler|]); try contradiction.
  - unfold basesController.getBasesHandler. split_handler.
  - unfold basesController.getBaseSchemaHandler. split_handler.
  - unfold recordsController.getTableRecordsHandler. split_handler.
  - unfold recordsController.getRecordHandler. split_handler.
  - unfold recordsController.createRecordsHandler. split_handler.
  - unfold recordsController.updateRecordsHandler. split_handler.
  - unfold recordsController.deleteRecordsHandler. split_handler.
  - unfold schemaController.createFieldHandler. split_handler.
  - unfold schemaController.updateFieldHandler. split_handler.
  - unfold webhookController.listWebhooksHandler. split_handler.
  - unfold webhookController.createWebhookHandler. split_handler.
  - unfold webhookController.deleteWebhookHandler. split_handler.
  - unfold enterpriseController.getAuditLogsHandler. split_handler.
  - unfold enterpriseController.getEnterpriseUsersHandler. split_handler.
Qed.

Section OneLimiter.

Variable options : RateLimitModel.Options.
Variables get other : World -> gmap string RateLimitBucket.
Variable set : gmap string RateLimitBucket -> World -> World.
Hypothesis get_set : forall store w, get (set store w) = store.
Hypothesis other_set : forall store w, other (set store w) = other w.
Hypothesis set_get : forall w, set (get w) w = w.

Variable h : Handler.
Hypothesis h_get : forall attempts upstream req w,
  get (snd (h attempts upstream req w)) = get w.
Hypothesis h_other : forall attempts upstream req w,
  other (snd (h attempts upstream req w)) = other w.

Lemma admittedOrDenied_logged s req w o :
  s <> Handle ->
  admittedOrDenied options get req w o ->
  admittedOrDenied options get req w (logged s o).
Proof.
  unfold admittedOrDenied, logged. intros Hs.
  destruct (RateLimitModel.tryAcquire _ _ _ _ _) as [[|after] store]; simpl.
  - intuition.
  - intros (-> & -> & Hn). intuition congruence.
Qed.

Lemma limiter_chain pre attempts upstream req w :
  Forall inspects pre ->
  Forall (fun l => beforeAdmission (stage l) = true) pre ->
  let o := runLayers (pre ++ [limiterLayer options get set]) h attempts upstream req w in
  other (world o) = other w
  /\ (In Admission (ran o) -> admittedOrDenied options get req w o).
Proof.
  intros Hin Hst. induction Hin as [|c pre Hc Hpre IH]; simpl.
  - unfold RateLimitModel.rateLimit, admittedOrDenied.
    destruct (RateLimitModel.tryAcquire _ _ _ _ _) as [[|after] store] eqn:E.
    + destruct (h attempts upstream req (set store w)) as [res w'] eqn:Eh.
      simpl. pose proof (h_get attempts upstream req (set store w)) as Hg.
      pose proof (h_other attempts upstream req (set store w)) as Ho.
      rewrite Eh in Hg, Ho. simpl in Hg, Ho.
      rewrite Hg, Ho, get_set, other_set. auto.
    + apply tryAcquire_denied in E. subst store. rewrite set_get. simpl.
      split; [reflexivity|]. intros _. repeat split.
      intros [H|[]]. discriminate.
  - inversion Hst as [|? ? Hc' Hpre']; subst.
    destruct (Hc req w) as [R|[res R]]; rewrite R.
    + destruct (IH Hpre') as [Ho Ha]. simpl. split; [exact Ho|].
      intros [Hs|Hs].
      * rewrite Hs in Hc'. discriminate.
      * apply admittedOrDenied_logged; [|apply Ha, Hs].
        intros Hs'. rewrite Hs' in Hc'. discriminate.
    + simpl. split; [reflexivity|].
      intros [Hs|[]]. rewrite Hs in Hc'. discriminate.
Qed.

Lemma limiter_route feature endpoint pre attempts upstream req w :
  Forall inspects pre ->
  Forall (fun l => beforeAdmission (stage l) = true) pre ->
  let o :=
    runLayers (auth :: featureCheck feature :: scopeCheck endpoint
               :: pre ++ [limiterLayer options get set]) h attempts upstream req w in
  other (world o) = other w
  /\ (In Admission (ran o) -> admittedOrDenied options get req w o).
Proof.
  intros Hin Hst.
  change (auth :: featureCheck feature :: scopeCheck endpoint :: pre ++ [limiterLayer options get set])
    with (auth :: (featureCheck feature :: scopeCheck endpoint :: pre) ++ [limiterLayer options get set]).
  cbn [runLayers]. cbv zeta. simpl run.
  destruct (authMiddleware_cases req w) as [R|R]; rewrite R.
  - simpl. split; [reflexivity|]. intros [H|[]]. discriminate.
  - destruct (limiter_chain (featureCheck feature :: scopeCheck endpoint :: pre)
                attempts upstream (attached req) w) as [Ho Ha].
    + constructor; [apply featureCheck_inspects|].
      constructor; [apply scopeCheck_inspects|exact Hin].
    + constructor; [reflexivity|].
      constructor; [reflexivity|exact Hst].
    + split; [exact Ho|]. simpl ran. intros [H|H]; [discriminate|].
      apply admittedOrDenied_logged; [discriminate|]. apply Ha, H.
Qed.

End OneLimiter.

Lemma base_route h feature endpoint pre attempts upstream req w :
  sparesLimiters h ->
  Forall inspects pre ->
  Forall (fun l => beforeAdmission (stage l) = true) pre ->
  let o :=
    runLayers (auth :: featureCheck feature :: scopeCheck endpoint
               :: pre ++ [baseRateLimit]) h attempts upstream req w in
  userLimiter (world o) = userLimiter w
  /\ (In Admission (ran o) ->
      admittedOrDenied RateLimitModel.configureRateLimiter baseLimiter req w o).
Proof.
  intros Hh H1 H2.
  exact (limiter_route RateLimitModel.configureRateLimiter
           baseLimiter userLimiter setBaseLimiter
           (fun _ _ => eq_refl) (fun _ _ => eq_refl) setBaseLimiter_same
           h (fun a u q v => proj1 (Hh a u q v)) (fun a u q v => proj2 (Hh a u q v))
           feature endpoint pre attempts upstream req w H1 H2).
Qed.

Lemma user_route h feature endpoint attempts upstream req w :
  sparesLimiters h ->
  let o :=
    runLayers [auth; featureCheck feature; scopeCheck endpoint; userRateLimit]
      h attempts upstream req w in
  baseLimiter (world o) = baseLimiter w
  /\ (In Admission (ran o) ->
      admittedOrDenied RateLimitModel.configureUserRateLimiter userLimiter req w o).
Proof.
  intros Hh.
  exact (limiter_route RateLimitModel.configureUserRateLimiter
           userLimiter baseLimiter setUserLimiter
           (fun _ _ => eq_refl) (fun _ _ => eq_refl) setUserLimiter_same
           h (fun a u q v => proj2 (Hh a u q v)) (fun a u q v => proj1 (Hh a u q v))
           feature endpoint [] attempts upstream req w
           (List.Forall_nil _) (List.Forall_nil _)).
Qed.

(** C3 (as amended).  Every route carries exactly one limiter, never both:
    the per-user one on getBases, getAuditLogs and getEnterpriseUsers, the
    per-base one on the other eleven.  A request that reaches it is either
    let through to the handler and counted in that limiter's store, or
    answered 429 with that limiter's own message (RATE_LIMIT_REACHED or
    USER_RATE_LIMIT_REACHED) without reaching the handler.  The other
    limiter's store is never touched. *)
Theorem C3_one_limiter_per_route :
  forall r attempts upstream req w,
    In r routes ->
    let o := serve r attempts upstream req w in
    (In r baseLimitedRoutes
     /\ List.filter isAdmission (layers r) = [baseRateLimit]
     /\ userLimiter (world o) = userLimiter w
     /\ (In Admission (ran o) ->
         admittedOrDenied RateLimitModel.configureRateLimiter baseLimiter req w o))
    \/ (In r userLimitedRoutes
        /\ List.filter isAdmission (layers r) = [userRateLimit]
        /\ baseLimiter (world o) = baseLimiter w
        /\ (In Admission (ran o) ->
            admittedOrDenied RateLimitModel.configureUserRateLimiter userLimiter
              req w o)).
Proof.
  intros r attempts upstream req w Hr o. subst o.
  pose proof (handlers_spare_limiters r Hr) as Hh.
  unfold routes in Hr. simpl in Hr.
  repeat (destruct Hr as [ <- | Hr ];
          [first
             [ left; split; [simpl; tauto|]; split; [reflexivity|];
               first [ exact (base_route _ _ _ [] _ _ _ _ Hh
                                (List.Forall_nil _) (List.Forall_nil _))
                     | apply (base_route _ _ _ [confirmDestructive]);
                       [ exact Hh
                       | constructor; [apply confirmDestructive_inspects|constructor]
                       | constructor; [reflexivity|constructor] ] ]
             | right; split; [simpl; tauto|]; split; [reflexivity|];
               exact (user_route _ _ _ _ _ _ _ Hh) ]|]).
  contradiction.
Qed.

(** The theorem at work: a schema read from a client whose per-base window
    is used up is answered by the per-base limiter, and listing the bases
    goes through the per-user limiter, which counts it. *)
Lemma C3_witness :
  (let o := serve basesController.getBaseSchema 1 (Sample.always Sample.ok)
              Sample.readSchema Sample.busyWorld in
   response o
   = Some (mkResponse 429 (Some 1000)
             (JsonLimit "RATE_LIMIT_REACHED"
                "Rate limit exceeded. Please try again later."))
   /\ world o = Sample.busyWorld)
  /\ (let o := serve basesController.getBases 1 (Sample.always Sample.ok)
                 Sample.readSchema Sample.busyWorld in
      baseLimiter (world o) = Sample.exhausted
      /\ count <$> (userLimiter (world o) !! "10.0.0.1") = Some 1%nat).
Proof.
  split.
  - destruct (C3_one_limiter_per_route basesController.getBaseSchema 1
                (Sample.always Sample.ok) Sample.readSchema Sample.busyWorld)
      as [(_ & _ & _ & H)|(_ & H & _)].
    + simpl. tauto.
    + assert (Hin : In Admission
                      (ran (serve basesController.getBaseSchema 1
                              (Sample.always Sample.ok) Sample.readSchema
                              Sample.busyWorld))).
      { vm_compute. tauto. }
      apply H in Hin. unfold admittedOrDenied in Hin.
      change (RateLimitModel.tryAcquire _ _ _ _ _)
        with (RateLimitModel.Denied 1000, Sample.exhausted) in Hin.
      destruct Hin as (Hres & Hw & _). split; assumption.
    + exfalso.
      apply (f_equal (fun ls => match ls with
                                | l :: _ => rejection l Sample.readSchema Sample.busyWorld
                                | [] => None
                                end)) in H.
      vm_compute in H. discriminate.
  - destruct (C3_one_limiter_per_route basesController.getBases 1
                (Sample.always Sample.ok) Sample.readSchema Sample.busyWorld)
      as [(_ & H & _)|(_ & _ & Hb & H)].
    + simpl. tauto.
    + exfalso.
      apply (f_equal (fun ls => match ls with
                                | l :: _ => rejection l Sample.readSchema Sample.busyWorld
                                | [] => None
                                end)) in H.
      vm_compute in H. discriminate.
    + split; [exact Hb|].
      assert (Hin : In Admission
                      (ran (serve basesController.getBases 1
                              (Sample.always Sample.ok) Sample.readSchema
                              Sample.busyWorld))).
      { vm_compute. tauto. }
      apply H in Hin. unfold admittedOrDenied in Hin.
      change (RateLimitModel.tryAcquire _ _ _ _ _)
        with (RateLimitModel.Allowed,
              ({[ "10.0.0.1" := mkBucket "10.0.0.1" 0 1 50 1000 ]}
               : gmap string RateLimitBucket)) in Hin.
      destruct Hin as (_ & ->). reflexivity.
Defined.

(** C3 as stated fails: an admitted request is counted by one limiter
    only.  A schema read that reaches the upstream is counted in the
    per-base store and leaves the per-user store empty. *)
Lemma C3_counterexample :
  let o := serve basesController.getBaseSchema 1 (Sample.always Sample.ok)
             Sample.readSchema Sample.freshWorld in
  ran o = [Authenticate; Entitlement; Scope; Admission; Handle]
  /\ statusCode <$> response o = Some 200%nat
  /\ count <$> (baseLimiter (world o) !! "10.0.0.1") = Some 1%nat
  /\ userLimiter (world o) = ∅.
Proof. vm_compute. repeat split; reflexivity. Qed.

(** ** The provider's retry on overload *)

Lemma isOverload_true answer :
  isOverload answer = true ->
  exists status d,
    answer = Rejected (WithResponse status d) /\ (status =? 429)%nat = true.
Proof.
  destruct answer as [d|[status d| |m]]; simpl; try discriminate. eauto.
Qed.

Lemma api_first_answer attempts upstream config w :
  isOverload (upstream (length (upstreamCalls w)) config) = false ->
  AirtableProvider.api (S attempts) upstream config w
  = (Some (upstream (length (upstreamCalls w)) config),
     AirtableProvider.record config w).
Proof.
  simpl. destruct (upstream _ config) as [d|[status d| |m]]; simpl; auto.
  intros ->. reflexivity.
Qed.

Lemma api_overloaded attempts upstream config w :
  isOverload (upstream (length (upstreamCalls w)) config) = true ->
  AirtableProvider.api (S attempts) upstream config w
  = AirtableProvider.api attempts upstream config
      (AirtableProvider.sleep 30000 (AirtableProvider.record config w)).
Proof.
  intros H. destruct (isOverload_true _ H) as (status & d & E & Hs).
  simpl. rewrite E, Hs. reflexivity.
Qed.

Lemma api_waits_out_overload upstream config k :
  forall attempts w,
    (forall i, (i < k)%nat ->
               isOverload (upstream (length (upstreamCalls w) + i)%nat config) = true) ->
    isOverload (upstream (length (upstreamCalls w) + k)%nat config) = false ->
    (k < attempts)%nat ->
    AirtableProvider.api attempts upstream config w
    = (Some (upstream (length (upstreamCalls w) + k)%nat config),
       afterAttempts (S k) config w).
Proof.
  induction k as [|k IH]; intros attempts w Hover Hlast Hk;
    destruct attempts as [|attempts]; try lia.
  - rewrite Nat.add_0_r in *. rewrite api_first_answer by assumption.
    f_equal. unfold afterAttempts, AirtableProvider.record. simpl.
    f_equal. lia.
  - rewrite api_overloaded.
    2:{ specialize (Hover O). rewrite Nat.add_0_r in Hover. apply Hover. lia. }
    assert (Hlen : length (upstreamCalls
                    (AirtableProvider.sleep 30000 (AirtableProvider.record config w)))
                   = S (length (upstreamCalls w))).
    { simpl. rewrite length_app. simpl. lia. }
    rewrite (IH attempts (AirtableProvider.sleep 30000 (AirtableProvider.record config w))).
    + rewrite Hlen. replace (S (length (upstreamCalls w)) + k)%nat
        with (length (upstreamCalls w) + S k)%nat by lia.
      f_equal. unfold afterAttempts. simpl. rewrite <- app_assoc. simpl.
      f_equal. lia.
    + intros i Hi. rewrite Hlen.
      replace (S (length (upstreamCalls w)) + i)%nat
        with (length (upstreamCalls w) + S i)%nat by lia.
      apply Hover. lia.
    + rewrite Hlen.
      replace (S (length (upstreamCalls w)) + k)%nat
        with (length (upstreamCalls w) + S k)%nat by lia.
      exact Hlast.
    + lia.
Qed.

(** An upstream that stays overloaded is asked again after every wait: the
    promise never settles. *)
Lemma api_overloaded_throughout upstream config :
  (forall n, isOverload (upstream n config) = true) ->
  forall attempts w,
    AirtableProvider.api attempts upstream config w
    = (None,
       mkWorld (baseLimiter w) (userLimiter w)
         (upstreamCalls w ++ repeat config attempts)
         (slept w + 30000 * Z.of_nat attempts)).
Proof.
  intros Hover. induction attempts as [|attempts IH]; intros w.
  - simpl. rewrite app_nil_r, Z.add_0_r. destruct w; reflexivity.
  - rewrite api_overloaded by apply Hover. rewrite IH. simpl.
    rewrite <- app_assoc. simpl. do 2 f_equal. lia.
Qed.

(** C4 (as amended).  A 429 answer makes the interceptor wait a fixed 30
    seconds and issue the request again through the same client.  The
    first answer that is not a 429 is the one the provider settles with,
    after one retry and one 30-second wait per 429 that preceded it: an
    upstream that is overloaded once and then succeeds yields the data
    after exactly one retry and one wait, and an answer that is not a 429
    in the first place, a failure included, is settled without retry or
    wait, a failure as the error [_handleError] throws. *)
Theorem C4_overload_is_waited_out_and_retried :
  forall upstream config w k attempts,
    (forall i, (i < k)%nat ->
               isOverload (upstream (length (upstreamCalls w) + i)%nat config) = true) ->
    isOverload (upstream (length (upstreamCalls w) + k)%nat config) = false ->
    (k < attempts)%nat ->
    AirtableProvider.send attempts upstream config w
    = (Some (settled (upstream (length (upstreamCalls w) + k)%nat config)),
       afterAttempts (S k) config w)
    /\ upstreamCalls (afterAttempts (S k) config w)
       = (upstreamCalls w ++ config :: repeat config k)%list
    /\ slept (afterAttempts (S k) config w) = slept w + 30000 * Z.of_nat k.
Proof.
  intros upstream config w k attempts Hover Hlast Hk.
  split; [|split; reflexivity].
  unfold AirtableProvider.send.
  rewrite (api_waits_out_overload upstream config k attempts w Hover Hlast Hk).
  destruct (upstream _ config) as [d|e]; reflexivity.
Qed.

(** The theorem at work: overloaded once, then success. *)
Lemma C4_witness :
  AirtableProvider.send 5 (Sample.overloadedFor 1)
    (AirtableProvider.getBases "tok") Sample.freshWorld
  = (Some (inr (Js.Object [("records", Js.Array [])])),
     mkWorld ∅ ∅
       [AirtableProvider.getBases "tok"; AirtableProvider.getBases "tok"] 30000).
Proof.
  destruct (C4_overload_is_waited_out_and_retried (Sample.overloadedFor 1)
              (AirtableProvider.getBases "tok") Sample.freshWorld 1 5)
    as [H _].
  - intros i Hi. assert (i = O) by lia. subst i. reflexivity.
  - reflexivity.
  - lia.
  - exact H.
Defined.

(** C4 as stated fails: against an upstream that always answers 429 the
    provider does not stop after one retry.  Followed for three attempts,
    it has issued the request three times, waited after each answer, and
    settled with nothing. *)
Lemma C4_counterexample :
  AirtableProvider.send 3 (Sample.always Sample.overloaded)
    (AirtableProvider.getBases "tok") Sample.freshWorld
  = (None,
     mkWorld ∅ ∅
       [AirtableProvider.getBases "tok"; AirtableProvider.getBases "tok";
        AirtableProvider.getBases "tok"] 90000).
Proof. vm_compute. reflexivity. Qed.

(** ** The batch ceiling *)

Lemma api_calls_extend attempts upstream config :
  forall w, exists rest,
    upstreamCalls (snd (AirtableProvider.api attempts upstream config w))
    = (upstreamCalls w ++ rest)%list.
Proof.
  induction attempts as [|n IH]; intros w; simpl.
  - exists []. rewrite app_nil_r. reflexivity.
  - assert (Hrec : exists rest,
               upstreamCalls (AirtableProvider.record config w)
               = (upstreamCalls w ++ rest)%list) by (exists [config]; reflexivity).
    destruct (upstream _ config) as [d|[status d| |m]]; simpl; try exact Hrec.
    destruct (status =? 429)%nat; simpl; try exact Hrec.
    destruct (IH (AirtableProvider.sleep 30000 (AirtableProvider.record config w)))
      as [rest ->].
    simpl. exists (config :: rest). rewrite <- app_assoc. reflexivity.
Qed.

Lemma api_calls_first attempts upstream config w :
  exists rest,
    upstreamCalls (snd (AirtableProvider.api (S attempts) upstream config w))
    = (upstreamCalls w ++ config :: rest)%list.
Proof.
  simpl.
  assert (Hrec : exists rest,
             upstreamCalls (AirtableProvider.record config w)
             = (upstreamCalls w ++ config :: rest)%list) by (exists []; reflexivity).
  destruct (upstream _ config) as [d|[status d| |m]]; simpl; try exact Hrec.
  destruct (status =? 429)%nat; simpl; try exact Hrec.
  destruct (api_calls_extend attempts upstream config
              (AirtableProvider.sleep 30000 (AirtableProvider.record config w)))
    as [rest ->].
  simpl. exists rest. rewrite <- app_assoc. reflexivity.
Qed.

Lemma dispatch_calls_first attempts upstream config w :
  exists rest,
    upstreamCalls (snd (dispatch (S attempts) upstream config w))
    = (upstreamCalls w ++ config :: rest)%list.
Proof.
  unfold dispatch, AirtableProvider.send.
  pose proof (api_calls_first attempts upstream config w) as H.
  destruct (AirtableProvider.api (S attempts) upstream config w) as [[[d|e]|] w'];
    exact H.
Qed.

Lemma notConfirmed_confirms confirmation :
  notConfirmed confirmation = negb (confirms confirmation).
Proof.
  destruct confirmation as [[|c rest]|]; reflexivity.
Qed.

(** A body with a truthy member is an object: reading it throws nothing. *)
Lemma truthy_member_destructuring k k' body :
  Js.truthy (Js.member k body) = true -> destructuring k' body = None.
Proof.
  destruct body; simpl; intros H; first [discriminate H | reflexivity].
Qed.

Lemma sentBatch_records op req batch :
  op <> DeleteRecords ->
  sentBatch op req = Some batch ->
  exists items,
    batch = Records items
    /\ destructuring "records" (body req) = None
    /\ Js.member "records" (body req) = Js.Array items.
Proof.
  intros Hop H.
  assert (Hb : match body req with
               | Js.Object fields =>
                   match Js.assoc "records" fields with
                   | Some (Js.Array items) => Some (Records items)
                   | _ => None
                   end
               | _ => None
               end = Some batch) by (destruct op; [exact H|exact H|congruence]).
  clear H. unfold Js.member.
  destruct (body req) as [| | | | | |fields]; try discriminate.
  destruct (Js.assoc "records" fields) as [[| | | | |items|]|]; try discriminate.
  inversion Hb. exists items. repeat split.
Qed.

Lemma sentBatch_ids req batch :
  sentBatch DeleteRecords req = Some batch ->
  exists ids,
    batch = RecordIds ids
    /\ recordsController.noRecords (query_records req) = false
    /\ recordsController.parseRecordIds (query_records req) = Some ids.
Proof.
  simpl. destruct (query_records req) as [|s|ids|]; try discriminate.
  - simpl. destruct (String.eqb s ""); [discriminate|].
    intros H. inversion H. eexists. repeat split.
  - intros H. inversion H. eexists. repeat split.
Qed.

(** C5.  For createRecords, updateRecords and deleteRecords, a batch of
    more than 10 items is answered 400 INVALID_REQUEST by the handler (with
    the operation's "Maximum of 10 records" message when the request names
    its base and table) and nothing is sent upstream; a batch of exactly 10
    items (or fewer, down to one), in a request that names its base and
    table (and, for a destructive update, carries the confirmation), is
    sent upstream: the next request Airtable receives addresses that table
    with the client's token and holds the very records, or record ids, of
    the batch. *)
Theorem C5_batch_ceiling :
  forall op attempts upstream req w batch,
    sentBatch op req = Some batch ->
    ((10 < batchItems batch)%nat ->
     exists message,
       batchHandler op attempts upstream req w = (Some (invalidRequest message), w)
       /\ (addressed req = true -> message = ceilingMessage op))
    /\ ((0 < batchItems batch <= 10)%nat ->
        forall base table,
          baseId (params req) = Some base -> base <> "" ->
          tableIdOrName (params req) = Some table -> table <> "" ->
          cleared op req = true ->
          exists c rest,
            upstreamCalls (snd (batchHandler op (S attempts) upstream req w))
            = (upstreamCalls w ++ c :: rest)%list
            /\ carries op base table req batch c).
Proof.
  intros op attempts upstream req w batch Hbatch. split.
  - intros Hbig.
    assert (Haddr : addressed req
                    = negb (absent (baseId (params req))
                            || absent (tableIdOrName (params req)))).
    { unfold addressed, absent.
      destruct (Js.truthyStr (baseId (params req))),
               (Js.truthyStr (tableIdOrName (params req))); reflexivity. }
    rewrite Haddr.
    destruct op.
    + destruct (sentBatch_records CreateRecords req batch ltac:(discriminate) Hbatch)
        as (items & -> & Hd & Hm).
      simpl in Hbig. simpl batchHandler.
      unfold recordsController.createRecordsHandler. rewrite Hd. cbv zeta.
      rewrite Hm.
      destruct (absent (baseId (params req)) || absent (tableIdOrName (params req)));
        [eexists; split; [reflexivity|discriminate]|].
      simpl.
      replace (length items =? 0)%nat with false
        by (symmetry; apply Nat.eqb_neq; lia).
      replace (10 <? length items)%nat with true
        by (symmetry; apply Nat.ltb_lt; lia).
      eexists; split; reflexivity.
    + destruct (sentBatch_records UpdateRecords req batch ltac:(discriminate) Hbatch)
        as (items & -> & Hd & Hm).
      simpl in Hbig. simpl batchHandler.
      unfold recordsController.updateRecordsHandler. rewrite Hd. cbv zeta.
      rewrite Hm.
      destruct (absent (baseId (params req)) || absent (tableIdOrName (params req)));
        [eexists; split; [reflexivity|discriminate]|].
      simpl.
      replace (length items =? 0)%nat with false
        by (symmetry; apply Nat.eqb_neq; lia).
      replace (10 <? length items)%nat with true
        by (symmetry; apply Nat.ltb_lt; lia).
      eexists; split; reflexivity.
    + destruct (sentBatch_ids _ _ Hbatch) as (ids & -> & Hn & Hp).
      simpl in Hbig. simpl batchHandler.
      unfold recordsController.deleteRecordsHandler. cbv zeta.
      rewrite Hn, Hp.
      destruct (absent (baseId (params req)) || absent (tableIdOrName (params req)));
        [eexists; split; [reflexivity|discriminate]|].
      replace (10 <? length ids)%nat with true
        by (symmetry; apply Nat.ltb_lt; lia).
      eexists; split; reflexivity.
  - intros Hrange base table Hb Hbase Ht Htable Hclear.
    assert (Habs : absent (baseId (params req))
                   || absent (tableIdOrName (params req)) = false).
    { rewrite Hb, Ht. unfold absent. simpl.
      apply String.eqb_neq in Hbase, Htable. rewrite Hbase, Htable. reflexivity. }
    destruct op.
    + destruct (sentBatch_records CreateRecords req batch ltac:(discriminate) Hbatch)
        as (items & -> & Hd & Hm).
      simpl in Hrange. simpl batchHandler.
      unfold recordsController.createRecordsHandler. rewrite Hd. cbv zeta.
      rewrite Hm, Habs. simpl.
      replace (length items =? 0)%nat with false
        by (symmetry; apply Nat.eqb_neq; lia).
      replace (10 <? length items)%nat with false
        by (symmetry; apply Nat.ltb_ge; lia).
      destruct (dispatch_calls_first attempts upstream
                  (AirtableProvider.createRecords (bearerOf req)
                     (propertyKey (baseId (params req)))
                     (propertyKey (tableIdOrName (params req)))
                     (Js.Array items)
                     (Js.member "typecast" (body req))
                     (Js.member "returnFieldsByFieldId" (body req))) w)
        as [rest Hcalls].
      eexists; exists rest. split; [exact Hcalls|].
      rewrite Hb, Ht. repeat split.
    + destruct (sentBatch_records UpdateRecords req batch ltac:(discriminate) Hbatch)
        as (items & -> & Hd & Hm).
      simpl in Hrange, Hclear. simpl batchHandler.
      unfold recordsController.updateRecordsHandler. rewrite Hd. cbv zeta.
      rewrite Hm, Habs, notConfirmed_confirms. simpl.
      replace (length items =? 0)%nat with false
        by (symmetry; apply Nat.eqb_neq; lia).
      replace (10 <? length items)%nat with false
        by (symmetry; apply Nat.ltb_ge; lia).
      replace (Js.truthy (Js.member "destructive" (body req))
               && negb (confirms (x_confirm_destructive_operation req)))
        with false
        by (destruct (Js.truthy _), (confirms _); simpl in *; congruence).
      destruct (dispatch_calls_first attempts upstream
                  (AirtableProvider.updateRecords (bearerOf req)
                     (propertyKey (baseId (params req)))
                     (propertyKey (tableIdOrName (params req)))
                     (Js.Array items)
                     (Js.member "typecast" (body req))
                     (Js.member "returnFieldsByFieldId" (body req))
                     (Js.member "performUpsert" (body req))
                     (Js.member "destructive" (body req))) w)
        as [rest Hcalls].
      eexists; exists rest. split; [exact Hcalls|].
      rewrite Hb, Ht. repeat split.
    + destruct (sentBatch_ids _ _ Hbatch) as (ids & -> & Hn & Hp).
      simpl in Hrange. simpl batchHandler.
      unfold recordsController.deleteRecordsHandler. cbv zeta.
      rewrite Hn, Hp, Habs.
      replace (10 <? length ids)%nat with false
        by (symmetry; apply Nat.ltb_ge; lia).
      destruct (dispatch_calls_first attempts upstream
                  (AirtableProvider.deleteRecords (bearerOf req)
                     (propertyKey (baseId (params req)))
                     (propertyKey (tableIdOrName (params req))) ids) w)
        as [rest Hcalls].
      eexists; exists rest. split; [exact Hcalls|].
      rewrite Hb, Ht. repeat split.
Qed.

(** The theorem at work: eleven records to create, and eleven ids to
    delete, are turned away; ten ids to delete are sent, each in the URL. *)
Lemma C5_witness :
  recordsController.createRecordsHandler 1%nat (Sample.always Sample.ok)
    (Sample.createBatch 11) Sample.freshWorld
  = (Some (invalidRequest "Maximum of 10 records can be created in a single request"),
     Sample.freshWorld)
  /\ recordsController.deleteRecordsHandler 1%nat (Sample.always Sample.ok)
       (Sample.deleteBatch "r1,r2,r3,r4,r5,r6,r7,r8,r9,r10,r11") Sample.freshWorld
     = (Some (invalidRequest
                "Maximum of 10 records can be deleted in a single request"),
        Sample.freshWorld)
  /\ exists rest,
       url <$> upstreamCalls
         (snd (recordsController.deleteRecordsHandler 1%nat (Sample.always Sample.ok)
                 (Sample.deleteBatch "r1,r2, r3,r4,r5,r6,r7,r8,r9,r10")
                 Sample.freshWorld))
       = "/appA/tblT?records[]=r1&records[]=r2&records[]=r3&records[]=r4&records[]=r5&records[]=r6&records[]=r7&records[]=r8&records[]=r9&records[]=r10"
         :: rest.
Proof.
  split; [|split].
  - destruct (C5_batch_ceiling CreateRecords 1 (Sample.always Sample.ok)
                (Sample.createBatch 11) Sample.freshWorld _ eq_refl)
      as [H _].
    destruct H as (message & H & Hm); [simpl; lia|].
    rewrite (Hm eq_refl) in H. exact H.
  - destruct (C5_batch_ceiling DeleteRecords 1 (Sample.always Sample.ok)
                (Sample.deleteBatch "r1,r2,r3,r4,r5,r6,r7,r8,r9,r10,r11")
                Sample.freshWorld _ eq_refl)
      as [H _].
    destruct H as (message & H & Hm); [simpl; lia|].
    rewrite (Hm eq_refl) in H. exact H.
  - destruct (C5_batch_ceiling DeleteRecords 0 (Sample.always Sample.ok)
                (Sample.deleteBatch "r1,r2, r3,r4,r5,r6,r7,r8,r9,r10")
                Sample.freshWorld _ eq_refl)
      as [_ H].
    destruct (H ltac:(simpl; lia) "appA" "tblT" eq_refl ltac:(discriminate)
                eq_refl ltac:(discriminate) eq_refl)
      as (c & rest & Hcalls & _ & _ & Hurl).
    exists (url <$> rest).
    change (batchHandler DeleteRecords)
      with recordsController.deleteRecordsHandler in Hcalls.
    rewrite Hcalls. simpl. rewrite Hurl. reflexivity.
Defined.

(** ** Response shapes *)

Lemma featureCheck_rejection feature req w res w' :
  featureCheckMiddleware feature req w = Respond res w' ->
  res = errorResponse 500 "SERVER_ERROR" "Failed to check feature availability."
  \/ exists plan,
       BillingPlanModel.getMinimumPlanForFeature feature = inr plan
       /\ BillingPlanModel.hasFeature (propertyKey (billingPlan req)) feature = inr false
       /\ res = errorResponse 403 "FEATURE_UNAVAILABLE"
                  ("This feature requires the " +:+ plan +:+ " plan or higher.").
Proof.
  unfold featureCheckMiddleware.
  destruct (BillingPlanModel.hasFeature _ feature) as [e|[|]];
    try (intros H; inversion H; auto; fail).
  destruct (BillingPlanModel.getMinimumPlanForFeature feature) as [e|plan];
    intros H; inversion H; eauto.
Qed.

Lemma auth_wellShaped req w res :
  rejection auth req w = Some res -> wellShaped res = true.
Proof.
  unfold rejection. simpl.
  destruct (authMiddleware_cases req w) as [R|R]; rewrite R; intros H;
    inversion H. reflexivity.
Qed.

Lemma featureCheck_wellShaped feature req w res :
  rejection (featureCheck feature) req w = Some res -> wellShaped res = true.
Proof.
  unfold rejection. simpl.
  destruct (featureCheckMiddleware feature req w) as [res' w'|] eqn:E;
    intros H; inversion H; subst.
  destruct (featureCheck_rejection _ _ _ _ _ E) as [->|(plan & _ & _ & ->)];
    reflexivity.
Qed.

Lemma scopeCheck_wellShaped endpoint req w res :
  rejection (scopeCheck endpoint) req w = Some res -> wellShaped res = true.
Proof.
  unfold rejection. simpl. unfold scopeCheckMiddleware.
  destruct (TokenScopeModel.hasRequiredScopesForEndpoint _ endpoint) as [e|[|]];
    try (intros H; inversion H; reflexivity).
  destruct (TokenScopeModel.requiredScopesFor endpoint);
    intros H; inversion H; reflexivity.
Qed.

Lemma confirmDestructive_wellShaped req w res :
  rejection confirmDestructive req w = Some res -> wellShaped res = true.
Proof.
  unfold rejection. simpl. unfold confirmDestructiveOperationMiddleware.
  destruct (notConfirmed _); intros H; inversion H; reflexivity.
Qed.

Lemma baseRateLimit_wellShaped req w res :
  rejection baseRateLimit req w = Some res -> wellShaped res = true.
Proof.
  unfold rejection. simpl. unfold baseRateLimitMiddleware, RateLimitModel.rateLimit.
  destruct (RateLimitModel.tryAcquire _ _ _ _ _) as [[|after] store];
    intros H; inversion H; reflexivity.
Qed.

Lemma userRateLimit_wellShaped req w res :
  rejection userRateLimit req w = Some res -> wellShaped res = true.
Proof.
  unfold rejection. simpl. unfold userRateLimitMiddleware, RateLimitModel.rateLimit.
  destruct (RateLimitModel.tryAcquire _ _ _ _ _) as [[|after] store];
    intros H; inversion H; reflexivity.
Qed.

(** Whatever [_handleError] throws, [handleErrorResponse] answers with the
    upstream's own status, type, message and details when it has a status
    and a type, and with 500 SERVER_ERROR otherwise. *)
Lemma handleErrorResponse_wellShaped error :
  wellShaped (handleErrorResponse (AirtableProvider._handleError error)) = true.
Proof.
  destruct error as [status [|member]| |m]; try reflexivity.
  unfold AirtableProvider._handleError, handleErrorResponse. simpl.
  match goal with
  | |- context [match ?t with Some _ => _ | None => _ end] =>
      destruct t as [type|]; [|reflexivity]
  end.
  destruct (negb (status =? 0)%nat) eqn:Es; [|reflexivity].
  destruct (negb (String.eqb type "")) eqn:Et; [|reflexivity].
  unfold wellShaped. simpl. rewrite Et, Es. reflexivity.
Qed.

Lemma dispatch_wellShaped attempts upstream config w res :
  fst (dispatch attempts upstream config w) = Some res -> wellShaped res = true.
Proof.
  unfold dispatch, AirtableProvider.send.
  destruct (AirtableProvider.api attempts upstream config w) as [[[d|e]|] w'];
    simpl; intros H; inversion H.
  - reflexivity.
  - apply handleErrorResponse_wellShaped.
Qed.

Lemma destructuring_wellShaped k body error :
  destructuring k body = Some error ->
  wellShaped (handleErrorResponse error) = true.
Proof.
  destruct body; intros H; inversion H; reflexivity.
Qed.

Ltac shape_handler :=
  repeat match goal with
         | |- context [if ?b then _ else _] => destruct b
         | |- context [match ?x with Some _ => _ | None => _ end] => destruct x
         end;
  try apply dispatch_wellShaped;
  simpl; intros H; inversion H; reflexivity.

Lemma handlers_wellShaped r attempts upstream req w res :
  In r routes ->
  fst (handler r attempts upstream req w) = Some res -> wellShaped res = true.
Proof.
  unfold routes. simpl. intros H. revert res.
  repeat (destruct H as [ <- | H ]; [simpl handler|]); try contradiction; intros res.
  - unfold basesController.getBasesHandler. shape_handler.
  - unfold basesController.getBaseSchemaHandler. shape_handler.
  - unfold recordsController.getTableRecordsHandler. shape_handler.
  - unfold recordsController.getRecordHandler. shape_handler.
  - unfold recordsController.createRecordsHandler.
    destruct (destructuring "records" (body req)) as [error|] eqn:Ed;
      [|shape_handler].
    simpl. intros H. inversion H. eapply destructuring_wellShaped, Ed.
  - unfold recordsController.updateRecordsHandler.
    destruct (destructuring "records" (body req)) as [error|] eqn:Ed;
      [|shape_handler].
    simpl. intros H. inversion H. eapply destructuring_wellShaped, Ed.
  - unfold recordsController.deleteRecordsHandler. shape_handler.
  - unfold schemaController.createFieldHandler. shape_handler.
  - unfold schemaController.updateFieldHandler. shape_handler.
  - unfold webhookController.listWebhooksHandler. shape_handler.
  - unfold webhookController.createWebhookHandler. shape_handler.
  - unfold webhookController.deleteWebhookHandler. shape_handler.
  - unfold enterpriseController.getAuditLogsHandler. shape_handler.
  - unfold enterpriseController.getEnterpriseUsersHandler. shape_handler.
Qed.

Lemma earliest_in vs stages res :
  earliest vs = Some (stages, res) -> exists s, In (s, Some res) vs.
Proof.
  revert stages. induction vs as [|[s [r|]] vs IH]; intros stages E; simpl in E.
  - discriminate.
  - inversion E; subst. exists s. left. reflexivity.
  - destruct (earliest vs) as [[stages' res']|]; [|discriminate].
    inversion E; subst. destruct (IH _ eq_refl) as [s' Hin].
    exists s'. right. exact Hin.
Qed.

Lemma verdicts_wellShaped r req w s res :
  In r routes -> In (s, Some res) (verdicts r req w) -> wellShaped res = true.
Proof.
  intros Hr. unfold verdicts.
  destruct (routes_shape r Hr) as (f & e & tail & -> & [ -> | [ -> | -> ] ]);
    simpl; unfold judged; intros H;
    repeat (destruct H as [H|H]; [inversion H; subst; clear H|]);
    try contradiction;
    eauto using auth_wellShaped, featureCheck_wellShaped, scopeCheck_wellShaped,
      confirmDestructive_wellShaped, baseRateLimit_wellShaped,
      userRateLimit_wellShaped.
Qed.

(** C6 (as amended).  Every response a route sends has one of three
    shapes: status 200 with the upstream data itself as body; an error
    object [{ type, message, details? }], which either carries no details
    and one of the server's own types (INVALID_REQUEST, FEATURE_UNAVAILABLE,
    INSUFFICIENT_PERMISSIONS, CONFIRMATION_REQUIRED, SERVER_ERROR) under
    status 400, 401, 403 or 500, or carries the upstream's own status, type,
    message and details; or, from a limiter, status 429 with the limiter's
    message object and the time to wait.  [handleErrorResponse] passes an
    upstream error through unchanged when it has a status and a type and
    answers 500 SERVER_ERROR otherwise, and a FEATURE_UNAVAILABLE response
    names the minimum plan in its message. *)
Theorem C6_response_shapes :
  (forall r attempts upstream req w res,
     In r routes ->
     response (serve r attempts upstream req w) = Some res ->
     wellShaped res = true)
  /\ (forall error : Thrown,
        match Js.status error, Js.type error with
        | Some status, Some type =>
            if negb (status =? 0)%nat && negb (String.eqb type "")
            then handleErrorResponse error
                 = mkResponse status None
                     (JsonError type (Js.message error) (Js.details error))
            else statusCode (handleErrorResponse error) = 500%nat
                 /\ errorType (handleErrorResponse error) = Some "SERVER_ERROR"
        | _, _ =>
            statusCode (handleErrorResponse error) = 500%nat
            /\ errorType (handleErrorResponse error) = Some "SERVER_ERROR"
        end)
  /\ (forall feature req w res w',
        featureCheckMiddleware feature req w = Respond res w' ->
        errorType res = Some "FEATURE_UNAVAILABLE" ->
        exists plan,
          BillingPlanModel.getMinimumPlanForFeature feature = inr plan
          /\ res = errorResponse 403 "FEATURE_UNAVAILABLE"
                     ("This feature requires the " +:+ plan +:+ " plan or higher.")).
Proof.
  split; [|split].
  - intros r attempts upstream req w res Hr H.
    destruct (earliest (verdicts r req w)) as [[stages res']|] eqn:E.
    + rewrite (serve_rejected _ _ _ _ _ _ _ Hr E) in H. simpl in H.
      inversion H; subst.
      destruct (earliest_in _ _ _ E) as [s Hin].
      eapply verdicts_wellShaped; eassumption.
    + rewrite (serve_admitted _ _ _ _ _ Hr E) in H. simpl in H.
      eapply handlers_wellShaped; eassumption.
  - intros error. unfold handleErrorResponse.
    destruct (Js.status error) as [status|]; [|split; reflexivity].
    destruct (Js.type error) as [type|]; [|split; reflexivity].
    destruct (negb (status =? 0)%nat && negb (String.eqb type ""));
      [reflexivity|split; reflexivity].
  - intros feature req w res w' H Ht.
    destruct (featureCheck_rejection _ _ _ _ _ H) as [->|(plan & Hp & _ & ->)].
    + discriminate.
    + exists plan. split; [exact Hp|reflexivity].
Qed.

(** The theorem at work: listing webhooks on the free plan. *)
Lemma C6_witness :
  wellShaped
    (errorResponse 403 "FEATURE_UNAVAILABLE"
       "This feature requires the enterprise_scale plan or higher.") = true.
Proof.
  destruct C6_response_shapes as [H _].
  apply (H webhookController.listWebhooks 1%nat (Sample.always Sample.ok)
           Sample.listWebhooksOnFree Sample.freshWorld).
  - simpl. tauto.
  - vm_compute. reflexivity.
Defined.

(** C6 as stated fails.  A FEATURE_UNAVAILABLE response has no details
    member (the plan is only in the message text); a limiter's 429 body is
    the limiter's message object, with a string where the error object
    would be; and the type of an upstream failure is whatever type Airtable
    sent, here MODEL_ID_NOT_FOUND, which is no entry of the taxonomy. *)
Lemma C6_counterexample :
  json <$> response (serve webhookController.listWebhooks 1
                       (Sample.always Sample.ok)
                       Sample.listWebhooksOnFree Sample.freshWorld)
  = Some (JsonError "FEATURE_UNAVAILABLE"
            "This feature requires the enterprise_scale plan or higher." None)
  /\ json <$> response (serve basesController.getBaseSchema 1
                          (Sample.always Sample.ok)
                          Sample.readSchema Sample.busyWorld)
     = Some (JsonLimit "RATE_LIMIT_REACHED"
               "Rate limit exceeded. Please try again later.")
  /\ response (serve basesController.getBaseSchema 1
                 (Sample.always (Rejected Sample.modelNotFound))
                 Sample.readSchema Sample.freshWorld)
     = Some (mkResponse 404 None
               (JsonError "MODEL_ID_NOT_FOUND" "Could not find table tblT"
                  (Some (ErrorObject (Some "MODEL_ID_NOT_FOUND")
                           (Some "Could not find table tblT"))))).
Proof. vm_compute. repeat split; reflexivity. Qed.

(** ** Plan tables *)

Lemma includes_In xs x : Js.includes xs x = true <-> In x xs.
Proof.
  unfold Js.includes. rewrite existsb_exists. split.
  - intros (y & Hin & Heq). apply String.eqb_eq in Heq. subst. exact Hin.
  - intros Hin. exists x. split; [exact Hin|apply String.eqb_refl].
Qed.

Lemma includes_not_In xs x : Js.includes xs x = false <-> ~ In x xs.
Proof.
  rewrite <- includes_In. destruct (Js.includes xs x); split; intros H;
    try reflexivity; try discriminate; try tauto; congruence.
Qed.

Lemma assoc_In {A} k (kvs : list (string * A)) v :
  Js.assoc k kvs = Some v -> In (k, v) kvs.
Proof.
  induction kvs as [|[k' v'] kvs IH]; simpl; [discriminate|].
  destruct (String.eqb k k') eqn:E.
  - apply String.eqb_eq in E. subst. intros H. inversion H. auto.
  - auto.
Qed.

(** [firstPlanWith] returns the first entry, in table order, that grants
    the feature. *)
Lemma firstPlanWith_first table feature plan :
  BillingPlanModel.firstPlanWith table feature = Some plan ->
  exists before features after,
    table = (before ++ (plan, features) :: after)%list
    /\ In feature features
    /\ forall p fs, In (p, fs) before -> ~ In feature fs.
Proof.
  induction table as [|[p fs] table IH]; simpl; [discriminate|].
  destruct (Js.includes fs feature) eqn:E.
  - intros H. inversion H; subst.
    exists [], fs, table. split; [reflexivity|].
    split; [apply includes_In, E|]. intros ? ? [].
  - intros H. destruct (IH H) as (before & features & after & -> & Hin & Hbefore).
    exists ((p, fs) :: before), features, after.
    split; [reflexivity|]. split; [exact Hin|].
    intros p' fs' [Heq|Hin'].
    + inversion Heq; subst. apply includes_not_In, E.
    + eapply Hbefore, Hin'.
Qed.

Lemma firstPlanWith_granted table feature plan features :
  In (plan, features) table -> In feature features ->
  BillingPlanModel.firstPlanWith table feature <> None.
Proof.
  induction table as [|[p fs] table IH]; simpl; [tauto|].
  intros [Heq|Hin] Hf.
  - inversion Heq; subst. apply includes_In in Hf. rewrite Hf. discriminate.
  - destruct (Js.includes fs feature); [discriminate|]. apply IH; assumption.
Qed.

Lemma firstPlanWith_is_first before plan features after feature :
  In feature features ->
  (forall p fs, In (p, fs) before -> ~ In feature fs) ->
  BillingPlanModel.firstPlanWith (before ++ (plan, features) :: after) feature
  = Some plan.
Proof.
  intros Hin. induction before as [|[p fs] before IH]; intros Hbefore; simpl.
  - apply includes_In in Hin. rewrite Hin. reflexivity.
  - assert (E : Js.includes fs feature = false).
    { apply includes_not_In. apply (Hbefore p fs). left. reflexivity. }
    rewrite E. apply IH. intros p' fs' H. apply (Hbefore p' fs'). right. exact H.
Qed.

(** A row of the server's table is what the table holds under its name. *)
Lemma PLAN_FEATURES_row plan features :
  In (plan, features) BillingPlanModel.PLAN_FEATURES ->
  Js.lookup BillingPlanModel.PLAN_FEATURES plan = Js.Own features.
Proof.
  simpl. intros [H|[H|[H|[H|[]]]]]; inversion H; reflexivity.
Qed.

Lemma hasFeature_row plan features feature :
  In (plan, features) BillingPlanModel.PLAN_FEATURES ->
  BillingPlanModel.hasFeature plan feature = inr (Js.includes features feature).
Proof.
  intros H. unfold BillingPlanModel.hasFeature, BillingPlanModel.hasFeatureIn.
  rewrite (PLAN_FEATURES_row _ _ H). reflexivity.
Qed.

(** C7.  The plan lookup reads one row of the table and nothing else: in
    any table where plan B grants feature X and plan C does not, wherever
    the two stand, the lookup answers false for C (and true for B) without
    throwing, and the minimum plan is found by scanning the table from the
    top: it is the first row that grants the feature.  So it is in the
    server: [hasFeature] answers by the row of the plan asked about, granting
    exactly the features that row lists; [getMinimumPlanForFeature] returns
    the first row of [PLAN_FEATURES] that grants the feature; and the
    entitlement check lets a request through when the row of its plan lists
    the feature and otherwise answers 403 FEATURE_UNAVAILABLE naming that
    first granting row -- and it names no other plan, and sends that answer
    in no other case. *)
Theorem C7_plan_lookup_assumes_no_order :
  (forall (table : BillingPlanModel.PlanTable) (B C X : string)
          (featuresB featuresC : list string),
     Js.assoc B table = Some featuresB -> In X featuresB ->
     Js.assoc C table = Some featuresC -> ~ In X featuresC ->
     BillingPlanModel.hasFeatureIn table C X = inr false
     /\ BillingPlanModel.hasFeatureIn table B X = inr true
     /\ exists plan before features after,
          BillingPlanModel.getMinimumPlanForFeatureIn table X = inr plan
          /\ table = (before ++ (plan, features) :: after)%list
          /\ In X features
          /\ forall p fs, In (p, fs) before -> ~ In X fs)
  /\ (forall plan granted feature,
        In (plan, granted) BillingPlanModel.PLAN_FEATURES ->
        (In feature granted ->
         BillingPlanModel.hasFeature plan feature = inr true)
        /\ (~ In feature granted ->
            BillingPlanModel.hasFeature plan feature = inr false))
  /\ (forall feature minimum before features after,
        BillingPlanModel.PLAN_FEATURES
        = (before ++ (minimum, features) :: after)%list ->
        In feature features ->
        (forall p fs, In (p, fs) before -> ~ In feature fs) ->
        BillingPlanModel.getMinimumPlanForFeature feature = inr minimum
        /\ forall req w plan granted,
             billingPlan req = Some plan ->
             In (plan, granted) BillingPlanModel.PLAN_FEATURES ->
             (In feature granted ->
              featureCheckMiddleware feature req w = Next req w)
             /\ (~ In feature granted ->
                 featureCheckMiddleware feature req w
                 = Respond
                     (errorResponse 403 "FEATURE_UNAVAILABLE"
                        ("This feature requires the " +:+ minimum
                         +:+ " plan or higher."))
                     w))
  /\ (forall feature req w res w',
        featureCheckMiddleware feature req w = Respond res w' ->
        errorType res = Some "FEATURE_UNAVAILABLE" ->
        exists plan before features after,
          res = errorResponse 403 "FEATURE_UNAVAILABLE"
                  ("This feature requires the " +:+ plan +:+ " plan or higher.")
          /\ BillingPlanModel.hasFeature (propertyKey (billingPlan req)) feature
             = inr false
          /\ BillingPlanModel.PLAN_FEATURES
             = (before ++ (plan, features) :: after)%list
          /\ In feature features
          /\ forall p fs, In (p, fs) before -> ~ In feature fs).
Proof.
  split; [|split; [|split]].
  - intros table B C X featuresB featuresC HB HX HC HnX.
    unfold BillingPlanModel.hasFeatureIn, Js.lookup. rewrite HB, HC.
    apply includes_In in HX as HX'. apply includes_not_In in HnX as HnX'.
    rewrite HX', HnX'. split; [reflexivity|]. split; [reflexivity|].
    unfold BillingPlanModel.getMinimumPlanForFeatureIn.
    destruct (BillingPlanModel.firstPlanWith table X) as [plan|] eqn:E.
    + destruct (firstPlanWith_first _ _ _ E) as (before & features & after & H).
      exists plan, before, features, after. split; [reflexivity|exact H].
    + exfalso. eapply firstPlanWith_granted; [apply assoc_In, HB|exact HX|exact E].
  - intros plan granted feature Hrow.
    rewrite (hasFeature_row _ _ feature Hrow). split; intros H.
    + apply includes_In in H. rewrite H. reflexivity.
    + apply includes_not_In in H. rewrite H. reflexivity.
  - intros feature minimum before features after Htable Hin Hbefore.
    assert (Hmin : BillingPlanModel.getMinimumPlanForFeature feature = inr minimum).
    { unfold BillingPlanModel.getMinimumPlanForFeature,
             BillingPlanModel.getMinimumPlanForFeatureIn.
      rewrite Htable, (firstPlanWith_is_first _ _ _ _ _ Hin Hbefore).
      reflexivity. }
    split; [exact Hmin|].
    intros req w plan granted Hplan Hrow.
    unfold featureCheckMiddleware. rewrite Hplan. simpl propertyKey.
    rewrite (hasFeature_row _ _ feature Hrow), Hmin. split; intros H.
    + apply includes_In in H. rewrite H. reflexivity.
    + apply includes_not_In in H. rewrite H. reflexivity.
  - intros feature req w res w' H Ht.
    destruct (featureCheck_rejection _ _ _ _ _ H) as [->|(plan & Hp & Hf & ->)];
      [discriminate|].
    unfold BillingPlanModel.getMinimumPlanForFeature,
           BillingPlanModel.getMinimumPlanForFeatureIn in Hp.
    destruct (BillingPlanModel.firstPlanWith BillingPlanModel.PLAN_FEATURES feature)
      as [plan'|] eqn:E; inversion Hp; subst.
    destruct (firstPlanWith_first _ _ _ E) as (before & features & after & H').
    exists plan, before, features, after. split; [reflexivity|]. split; [exact Hf|].
    exact H'.
Qed.

(** The theorem at work: on a table whose middle tier alone grants exports,
    and on the server's own table, where a business-plan request for
    webhooks is told to move to enterprise_scale, the first of the four
    rows that lists them. *)
Lemma C7_witness :
  BillingPlanModel.hasFeatureIn Sample.unorderedPlans "premium" "exports" = inr false
  /\ BillingPlanModel.hasFeatureIn Sample.unorderedPlans "plus" "exports" = inr true
  /\ BillingPlanModel.getMinimumPlanForFeatureIn Sample.unorderedPlans "exports"
     = inr "plus"
  /\ BillingPlanModel.hasFeature "business" "webhooks" = inr false
  /\ BillingPlanModel.hasFeature "business" "scim_user_management" = inr true
  /\ BillingPlanModel.getMinimumPlanForFeature "webhooks" = inr "enterprise_scale"
  /\ featureCheckMiddleware "webhooks" (attached MoreSamples.businessWebhooks)
       Sample.freshWorld
     = Respond
         (errorResponse 403 "FEATURE_UNAVAILABLE"
            "This feature requires the enterprise_scale plan or higher.")
         Sample.freshWorld
  /\ featureCheckMiddleware "scim_user_management"
       (attached MoreSamples.businessWebhooks) Sample.freshWorld
     = Next (attached MoreSamples.businessWebhooks) Sample.freshWorld.
Proof.
  destruct C7_plan_lookup_assumes_no_order as (Htable & Hrow & Hcheck & _).
  assert (Hbusiness :
            In ("business", ["base_data"; "scim_user_management"])
               BillingPlanModel.PLAN_FEATURES) by (simpl; tauto).
  destruct (Htable Sample.unorderedPlans "plus" "premium" "exports"
              ["records"; "exports"] ["records"; "webhooks"])
    as (HC & HB & _).
  { reflexivity. }
  { simpl. tauto. }
  { reflexivity. }
  { simpl. intros [E|[E|[]]]; discriminate. }
  destruct (Hrow "business" _ "webhooks" Hbusiness) as [_ Hno].
  destruct (Hrow "business" _ "scim_user_management" Hbusiness) as [Hyes _].
  destruct (Hcheck "webhooks" "enterprise_scale"
              [ ("free", ["base_data"]); ("teams", ["base_data"]);
                ("business", ["base_data"; "scim_user_management"]) ]
              [ "base_data"; "views"; "schema_modification"; "webhooks";
                "scim_user_management"; "enterprise_api"; "change_events" ]
              [])
    as (Hmin & Hreq).
  { reflexivity. }
  { simpl. tauto. }
  { simpl. intros p fs [E|[E|[E|[]]]]; inversion E; subst; simpl;
      intros H; repeat (destruct H as [H|H]; [discriminate H|]); exact H. }
  destruct (Hreq (attached MoreSamples.businessWebhooks) Sample.freshWorld
              "business" _ eq_refl Hbusiness) as [_ Hdenied].
  destruct (Hcheck "scim_user_management" "business"
              [ ("free", ["base_data"]); ("teams", ["base_data"]) ]
              [ "base_data"; "scim_user_management" ]
              [ ("enterprise_scale",
                 [ "base_data"; "views"; "schema_modification"; "webhooks";
                   "scim_user_management"; "enterprise_api"; "change_events" ]) ])
    as (_ & Hreq').
  { reflexivity. }
  { simpl. tauto. }
  { simpl. intros p fs [E|[E|[]]]; inversion E; subst; simpl;
      intros H; repeat (destruct H as [H|H]; [discriminate H|]); exact H. }
  destruct (Hreq' (attached MoreSamples.businessWebhooks) Sample.freshWorld
              "business" _ eq_refl Hbusiness) as [Hlet _].
  assert (Hnot : ~ In "webhooks" ["base_data"; "scim_user_management"]).
  { simpl. intros H; repeat (destruct H as [H|H]; [discriminate H|]); exact H. }
  split; [exact HC|]. split; [exact HB|]. split; [reflexivity|].
  split; [exact (Hno Hnot)|]. split; [apply Hyes; simpl; tauto|].
  split; [exact Hmin|]. split; [exact (Hdenied Hnot)|].
  apply Hlet. simpl. tauto.
Defined.

(** ** Unknown names *)

Lemma firstPlanWith_none table feature :
  (forall plan features, In (plan, features) table -> ~ In feature features) ->
  BillingPlanModel.firstPlanWith table feature = None.
Proof.
  induction table as [|[p fs] table IH]; simpl; intros H; [reflexivity|].
  assert (E : Js.includes fs feature = false).
  { apply includes_not_In. apply (H p). left. reflexivity. }
  rewrite E. apply IH. intros plan features Hin. apply (H plan). right. exact Hin.
Qed.

(** C8 (as amended).  What the lookups do with a name they do not know
    differs from one to the next.  The scope lookup takes an unknown
    endpoint to require no scope: it answers true, and the scope check lets
    the request through, whatever the token.  [hasFeature] throws
    "Unknown billing plan" for a plan the table lacks, which the feature
    check catches and answers, per request, with 500 SERVER_ERROR; for a
    feature no plan grants it answers false on every known plan, and
    [getMinimumPlanForFeature] throws "Unknown feature". *)
Theorem C8_unknown_names :
  (forall endpoint,
     Js.lookup TokenScopeModel.ENDPOINT_SCOPES endpoint = Js.Missing ->
     (forall tokenScopes,
        TokenScopeModel.hasRequiredScopesForEndpoint tokenScopes endpoint = inr true)
     /\ forall req w, scopeCheckMiddleware endpoint req w = Next req w)
  /\ (forall plan feature,
        Js.lookup BillingPlanModel.PLAN_FEATURES plan = Js.Missing ->
        BillingPlanModel.hasFeature plan feature
        = inl (Js.plainError ("Unknown billing plan: " +:+ plan))
        /\ forall req w,
             billingPlan req = Some plan ->
             featureCheckMiddleware feature req w
             = Respond (errorResponse 500 "SERVER_ERROR"
                          "Failed to check feature availability.") w)
  /\ (forall feature,
        (forall plan features,
           In (plan, features) BillingPlanModel.PLAN_FEATURES ->
           ~ In feature features) ->
        BillingPlanModel.getMinimumPlanForFeature feature
        = inl (Js.plainError ("Unknown feature: " +:+ feature))
        /\ forall plan features,
             Js.lookup BillingPlanModel.PLAN_FEATURES plan = Js.Own features ->
             BillingPlanModel.hasFeature plan feature = inr false).
Proof.
  split; [|split].
  - intros endpoint H.
    assert (Hs : forall tokenScopes,
               TokenScopeModel.hasRequiredScopesForEndpoint tokenScopes endpoint
               = inr true).
    { intros tokenScopes.
      unfold TokenScopeModel.hasRequiredScopesForEndpoint,
             TokenScopeModel.requiredScopesFor.
      rewrite H. reflexivity. }
    split; [exact Hs|].
    intros req w. unfold scopeCheckMiddleware. rewrite Hs. reflexivity.
  - intros plan feature H.
    assert (Hf : BillingPlanModel.hasFeature plan feature
                 = inl (Js.plainError ("Unknown billing plan: " +:+ plan))).
    { unfold BillingPlanModel.hasFeature, BillingPlanModel.hasFeatureIn.
      rewrite H. reflexivity. }
    split; [exact Hf|].
    intros req w Hp. unfold featureCheckMiddleware. rewrite Hp. simpl propertyKey.
    rewrite Hf. reflexivity.
  - intros feature H. split.
    + unfold BillingPlanModel.getMinimumPlanForFeature,
             BillingPlanModel.getMinimumPlanForFeatureIn.
      rewrite (firstPlanWith_none _ _ H). reflexivity.
    + intros plan features Hl.
      unfold BillingPlanModel.hasFeature, BillingPlanModel.hasFeatureIn.
      rewrite Hl. f_equal. apply includes_not_In. apply (H plan).
      unfold Js.lookup in Hl.
      destruct (Js.assoc plan BillingPlanModel.PLAN_FEATURES) as [fs|] eqn:E.
      * inversion Hl; subst. apply assoc_In, E.
      * destruct (Js.includes Js.objectPrototypeKeys plan); discriminate.
Qed.

(** The theorem at work on an endpoint and a plan the tables lack. *)
Lemma C8_witness :
  TokenScopeModel.hasRequiredScopesForEndpoint (Some []) "exportBase" = inr true
  /\ BillingPlanModel.hasFeature "platinum" "base_data"
     = inl (Js.plainError "Unknown billing plan: platinum").
Proof.
  destruct C8_unknown_names as (Hs & Hp & _).
  destruct (Hs "exportBase" eq_refl) as [H1 _].
  destruct (Hp "platinum" "base_data" eq_refl) as [H2 _].
  split; [apply H1|exact H2].
Defined.

(** C8 as stated fails: the scope lookup does not fail on an operation it
    does not know, it lets a token without any scope through; and a feature
    no plan grants is answered false, not refused. *)
Lemma C8_counterexample :
  TokenScopeModel.hasRequiredScopesForEndpoint (Some []) "exportBase" = inr true
  /\ rejection (scopeCheck "exportBase")
       (attached (Sample.withHeaders (Some "Bearer tok") None None None
                    Sample.noParams QueryAbsent (Js.Object [])))
       Sample.freshWorld
     = None
  /\ BillingPlanModel.hasFeature "free" "time_travel" = inr false.
Proof. vm_compute. repeat split; reflexivity. Qed.

(** ** Authentication *)

Lemma authMiddleware_decides req w :
  authMiddleware req w
  = if hasBearerToken req then Next (attached req) w
    else Respond authenticationRequired w.
Proof.
  unfold authMiddleware, hasBearerToken, attached.
  destruct (authorization req) as [authHeader|]; [|reflexivity].
  destruct authHeader as [|c rest].
  - reflexivity.
  - change (Js.truthyStr (Some (String c rest))) with true.
    cbn [negb orb].
    destruct (Js.startsWith "Bearer " (String c rest)); [|reflexivity].
    cbn [negb andb].
    destruct (Js.truthyStr (nth_error (Js.split " " (String c rest)) 1));
      reflexivity.
Qed.

(** C9 (the code at the failing input).  A request without a bearer token
    is stopped by [authMiddleware] with status 401, the state untouched;
    the type of the error it sends is INVALID_REQUEST, the type the
    handlers use for malformed requests, and not UNAUTHORIZED. *)
Theorem C9_missing_credential_is_answered_invalid_request :
  forall req w,
    authMiddleware req w
    = (if hasBearerToken req then Next (attached req) w
       else Respond authenticationRequired w)
    /\ authMiddleware Sample.bare w
       = Respond (mkResponse 401 None
                    (JsonError "INVALID_REQUEST"
                       "Authentication required. Please provide a valid token."
                       None)) w
    /\ errorType authenticationRequired = errorType (invalidRequest "")
    /\ errorType authenticationRequired <> Some "UNAUTHORIZED".
Proof.
  intros req w. split; [apply authMiddleware_decides|].
  split; [reflexivity|]. split; [reflexivity|]. discriminate.
Qed.

(** ** The confirmation header *)

Ltac each_character c :=
  destruct c as [[] [] [] [] [] [] [] []]; vm_compute; intros H;
  first [discriminate H | auto].

Lemma lowerChar_t c : Js.lowerChar c = "t"%char -> c = "t"%char \/ c = "T"%char.
Proof. each_character c. Qed.

Lemma lowerChar_r c : Js.lowerChar c = "r"%char -> c = "r"%char \/ c = "R"%char.
Proof. each_character c. Qed.

Lemma lowerChar_u c : Js.lowerChar c = "u"%char -> c = "u"%char \/ c = "U"%char.
Proof. each_character c. Qed.

Lemma lowerChar_e c : Js.lowerChar c = "e"%char -> c = "e"%char \/ c = "E"%char.
Proof. each_character c. Qed.

Lemma toLowerCase_true value :
  Js.toLowerCase value = "true" <-> In value trueSpellings.
Proof.
  split.
  - destruct value as [|c1 [|c2 [|c3 [|c4 [|c5 rest]]]]]; simpl;
      try discriminate.
    intros H. inversion H as [[H1 H2 H3 H4]].
    destruct (lowerChar_t _ H1), (lowerChar_r _ H2),
             (lowerChar_u _ H3), (lowerChar_e _ H4); subst;
      repeat first [left; reflexivity | right].
  - unfold trueSpellings. simpl. intros H.
    repeat (destruct H as [ <- | H ]; [reflexivity|]). contradiction.
Qed.

(** C10.  The confirmation is read from the X-Confirm-Destructive-Operation
    header and compared without regard to case: the middleware lets the
    request through exactly when the lower-case form of the header value is
    "true", that is for the sixteen spellings from "true" to "TRUE", and
    answers CONFIRMATION_REQUIRED for every other value and for an absent
    header; the check the updateRecords handler applies to a destructive
    update is the same. *)
Theorem C10_confirmation_header_ignores_case :
  forall req w,
    confirmDestructiveOperationMiddleware req w
    = (if confirms (x_confirm_destructive_operation req)
       then Next req w else Respond confirmationRequired w)
    /\ (forall value, confirms (Some value) = true <-> In value trueSpellings)
    /\ confirms None = false
    /\ errorType confirmationRequired = Some "CONFIRMATION_REQUIRED"
    /\ errorType recordsController.confirmationRequiredForPut
       = Some "CONFIRMATION_REQUIRED"
    /\ (forall attempts upstream size,
          addressed req = true ->
          batchSize UpdateRecords req = Some size ->
          (0 < size <= 10)%nat ->
          Js.truthy (Js.member "destructive" (body req)) = true ->
          recordsController.updateRecordsHandler attempts upstream req w
          = if confirms (x_confirm_destructive_operation req)
            then dispatch attempts upstream (batchCall UpdateRecords req) w
            else (Some recordsController.confirmationRequiredForPut, w)).
Proof.
  intros req w.
  split.
  { unfold confirmDestructiveOperationMiddleware.
    rewrite notConfirmed_confirms.
    destruct (confirms _); reflexivity. }
  split.
  { intros value. unfold confirms. rewrite String.eqb_eq.
    apply toLowerCase_true. }
  split; [reflexivity|]. split; [reflexivity|]. split; [reflexivity|].
  intros attempts upstream size Haddr Hsize Hrange Hd.
  unfold addressed in Haddr. apply andb_prop in Haddr. destruct Haddr as [Hb Ht].
  unfold recordsController.updateRecordsHandler, absent.
  rewrite (truthy_member_destructuring _ "records" _ Hd), Hb, Ht.
  simpl in Hsize. simpl batchCall.
  destruct (Js.member "records" (body req)) as [| | | | |items|]; try discriminate.
  inversion Hsize as [Hlen]. simpl. rewrite Hlen, Hd, notConfirmed_confirms.
  destruct size as [|n]; [lia|]. simpl.
  destruct (10 <? S n)%nat eqn:E; [apply Nat.ltb_lt in E; lia|].
  destruct (confirms _); reflexivity.
Qed.

(** The theorem at work: a destructive update confirmed with "TRUE" is
    sent upstream as a PUT. *)
Lemma C10_witness :
  In "TRUE" trueSpellings
  /\ method <$> upstreamCalls
       (snd (recordsController.updateRecordsHandler 1%nat (Sample.always Sample.ok)
               Sample.confirmedUpdate Sample.freshWorld))
     = [PUT].
Proof.
  destruct (C10_confirmation_header_ignores_case Sample.confirmedUpdate
              Sample.freshWorld)
    as (_ & Hs & _ & _ & _ & Hu).
  split.
  - apply Hs. reflexivity.
  - rewrite (Hu 1%nat (Sample.always Sample.ok) 1%nat);
      [vm_compute; reflexivity|reflexivity|reflexivity|lia|reflexivity].
Defined.

(* ===================================================================== *)
(** * Further properties *)
(* ===================================================================== *)

(** ** What the provider sends upstream *)

(** X1.  Whatever the upstream does and however long it is followed, one
    call of the provider issues the same request over and over, waits 30
    seconds after every 429 and at no other time, leaves the limiter stores
    alone, and the answer it settles with is never a 429: every answer
    before the last request was a 429 and was followed by one wait, the
    answer to the last request is the one the call settles with unless it
    is a 429 too, and only then is the call still pending. *)
Theorem api_reissues_the_same_request :
  forall attempts upstream config w,
  exists n,
    (n <= attempts)%nat
    /\ snd (AirtableProvider.api attempts upstream config w)
       = mkWorld (baseLimiter w) (userLimiter w)
           (upstreamCalls w ++ repeat config n)
           (slept w + 30000 * Z.of_nat
                        (match fst (AirtableProvider.api attempts upstream config w) with
                         | Some _ => Nat.pred n
                         | None => n
                         end))
    /\ match fst (AirtableProvider.api attempts upstream config w) with
       | Some answer =>
           isOverload answer = false /\ (1 <= n)%nat
           /\ answer = upstream (length (upstreamCalls w) + Nat.pred n)%nat config
       | None => n = attempts
       end
    /\ (forall i,
          (i < match fst (AirtableProvider.api attempts upstream config w) with
               | Some _ => Nat.pred n
               | None => n
               end)%nat ->
          isOverload (upstream (length (upstreamCalls w) + i)%nat config) = true).
Proof.
  induction attempts as [|attempts IH]; intros upstream config w.
  - exists O. simpl. split; [lia|]. split; [|split; [reflexivity|lia]].
    destruct w; simpl. rewrite app_nil_r, Z.add_0_r. reflexivity.
  - destruct (isOverload (upstream (length (upstreamCalls w)) config)) eqn:E.
    + rewrite api_overloaded by exact E.
      remember (AirtableProvider.sleep 30000 (AirtableProvider.record config w))
        as w1 eqn:Ew1.
      assert (Hc : upstreamCalls w1 = (upstreamCalls w ++ [config])%list)
        by (subst w1; reflexivity).
      assert (Hs : slept w1 = slept w + 30000) by (subst w1; reflexivity).
      assert (Hb : baseLimiter w1 = baseLimiter w) by (subst w1; reflexivity).
      assert (Hu : userLimiter w1 = userLimiter w) by (subst w1; reflexivity).
      clear Ew1.
      destruct (IH upstream config w1) as (n & Hn & Hw & Hres & Hover).
      exists (S n). split; [lia|].
      rewrite Hw, Hc, Hs, Hb, Hu. rewrite Hc in Hres, Hover.
      rewrite length_app in Hover. simpl in Hover.
      assert (Hearlier :
                forall waits,
                  (forall i, (i < waits)%nat ->
                     isOverload
                       (upstream (length (upstreamCalls w) + 1 + i)%nat config)
                     = true) ->
                  forall i, (i < S waits)%nat ->
                    isOverload (upstream (length (upstreamCalls w) + i)%nat config)
                    = true).
      { intros waits Hlater [|i] Hi.
        - rewrite Nat.add_0_r. exact E.
        - replace (length (upstreamCalls w) + S i)%nat
            with (length (upstreamCalls w) + 1 + i)%nat by lia.
          apply Hlater. lia. }
      destruct (fst (AirtableProvider.api attempts upstream config w1))
        as [answer|].
      * destruct Hres as (Ho & H1 & Ha). split.
        { rewrite <- app_assoc. simpl. f_equal. lia. }
        split.
        { split; [exact Ho|]. split; [lia|].
          rewrite Ha. f_equal. rewrite length_app. simpl. lia. }
        replace (Nat.pred (S n)) with (S (Nat.pred n)) by lia.
        apply Hearlier, Hover.
      * split.
        { rewrite <- app_assoc. simpl. f_equal. lia. }
        split; [lia|]. apply Hearlier, Hover.
    + rewrite api_first_answer by exact E. exists 1%nat. simpl.
      split; [lia|]. split.
      * unfold AirtableProvider.record. f_equal. lia.
      * split; [|lia]. split; [exact E|]. split; [lia|]. f_equal. lia.
Qed.

Lemma api_copies attempts upstream config :
  forall w, exists n,
    upstreamCalls (snd (AirtableProvider.api attempts upstream config w))
    = (upstreamCalls w ++ repeat config n)%list.
Proof.
  induction attempts as [|attempts IH]; intros w.
  - exists O. simpl. rewrite app_nil_r. reflexivity.
  - destruct (isOverload (upstream (length (upstreamCalls w)) config)) eqn:E.
    + rewrite api_overloaded by exact E.
      destruct (IH (AirtableProvider.sleep 30000 (AirtableProvider.record config w)))
        as [n ->].
      exists (S n). simpl. rewrite <- app_assoc. reflexivity.
    + rewrite api_first_answer by exact E. exists 1%nat. reflexivity.
Qed.

Lemma dispatch_copies attempts upstream config w :
  exists n,
    upstreamCalls (snd (dispatch attempts upstream config w))
    = (upstreamCalls w ++ repeat config n)%list.
Proof.
  unfold dispatch, AirtableProvider.send.
  pose proof (api_copies attempts upstream config w) as H.
  destruct (AirtableProvider.api attempts upstream config w) as [[[d|e]|] w'];
    exact H.
Qed.

(** A handler that answers without dispatching issues nothing; one that
    dispatches [config] issues copies of it. *)
Lemma issues_nothing (P : UpstreamCall -> Prop) (res : option Response) (w : World) :
  exists n c,
    upstreamCalls (snd (res, w)) = (upstreamCalls w ++ repeat c n)%list
    /\ ((0 < n)%nat -> P c).
Proof.
  exists O, (mkCall GET "" "" Js.Undefined Js.Undefined). simpl.
  rewrite app_nil_r. split; [reflexivity|lia].
Qed.

Lemma issues_dispatch (P : UpstreamCall -> Prop) attempts upstream config w :
  P config ->
  exists n c,
    upstreamCalls (snd (dispatch attempts upstream config w))
    = (upstreamCalls w ++ repeat c n)%list
    /\ ((0 < n)%nat -> P c).
Proof.
  intros HP. destruct (dispatch_copies attempts upstream config w) as [n Hn].
  exists n, config. split; [exact Hn|auto].
Qed.

Ltac split_issuing :=
  cbv zeta;
  repeat match goal with
         | |- context [if ?b then _ else _] => destruct b eqn:?
         | |- context [match ?x with Some _ => _ | None => _ end] => destruct x eqn:?
         end.

Ltac close_issuing :=
  first
    [ apply issues_nothing
    | apply issues_dispatch; split;
      [ reflexivity
      | simpl; intros; first [ discriminate | left; simpl; tauto | idtac ] ] ].

(** What each handler sends: the token of the request it serves, and a PUT
    or DELETE only on a route with the confirmation middleware or, in the
    update handler, behind its own confirmation check. *)
Lemma handlers_issue r :
  In r routes ->
  issues (handler r)
    (fun req c =>
       bearer c = bearerOf req
       /\ (overwrites (method c) = true ->
           In Confirmation (map stage (layers r))
           \/ notConfirmed (x_confirm_destructive_operation req) = false)).
Proof.
  unfold routes. simpl. intros H attempts upstream req w.
  repeat (destruct H as [ <- | H ]; [simpl handler|]); try contradiction.
  - unfold basesController.getBasesHandler. split_issuing; close_issuing.
  - unfold basesController.getBaseSchemaHandler. split_issuing; close_issuing.
  - unfold recordsController.getTableRecordsHandler. split_issuing; close_issuing.
  - unfold recordsController.getRecordHandler. split_issuing; close_issuing.
  - unfold recordsController.createRecordsHandler. split_issuing; close_issuing.
  - unfold recordsController.updateRecordsHandler. split_issuing; close_issuing.
    right.
    destruct (Js.truthy (Js.member "destructive" (body req)));
      [assumption|discriminate].
  - unfold recordsController.deleteRecordsHandler. split_issuing; close_issuing.
  - unfold schemaController.createFieldHandler. split_issuing; close_issuing.
  - unfold schemaController.updateFieldHandler. split_issuing; close_issuing.
  - unfold webhookController.listWebhooksHandler. split_issuing; close_issuing.
  - unfold webhookController.createWebhookHandler. split_issuing; close_issuing.
  - unfold webhookController.deleteWebhookHandler. split_issuing; close_issuing.
  - unfold enterpriseController.getAuditLogsHandler. split_issuing; close_issuing.
  - unfold enterpriseController.getEnterpriseUsersHandler. split_issuing; close_issuing.
Qed.

Lemma worldAfter_upstream r req w :
  In r routes ->
  upstreamCalls (worldAfter (tl (layers r)) req w) = upstreamCalls w.
Proof.
  intros Hr.
  assert (Hbase : forall v,
             upstreamCalls (worldAfter [baseRateLimit] req v) = upstreamCalls v).
  { intros v. simpl. unfold baseRateLimitMiddleware, RateLimitModel.rateLimit.
    destruct (RateLimitModel.tryAcquire _ _ _ _ _) as [[|after] store]; reflexivity. }
  assert (Huser : forall v,
             upstreamCalls (worldAfter [userRateLimit] req v) = upstreamCalls v).
  { intros v. simpl. unfold userRateLimitMiddleware, RateLimitModel.rateLimit.
    destruct (RateLimitModel.tryAcquire _ _ _ _ _) as [[|after] store]; reflexivity. }
  destruct (routes_shape r Hr) as (f & e & tail & -> & Htail).
  cbn [tl worldAfter].
  destruct (featureCheck_inspects f req w) as [R|[res R]]; rewrite R;
    [|reflexivity].
  destruct (scopeCheck_inspects e req w) as [S|[res S]]; rewrite S;
    [|reflexivity].
  destruct Htail as [ -> | [ -> | -> ] ].
  - apply Hbase.
  - apply Huser.
  - cbn [worldAfter].
    destruct (confirmDestructive_inspects req w) as [C|[res C]]; rewrite C;
      [apply Hbase|reflexivity].
Qed.

Lemma earliest_none vs :
  earliest vs = None -> forall s v, In (s, v) vs -> v = None.
Proof.
  induction vs as [|[s' [r|]] vs IH]; simpl; intros E s v Hin.
  - contradiction.
  - discriminate.
  - destruct Hin as [Heq|Hin].
    + inversion Heq. reflexivity.
    + destruct (earliest vs) as [[stages res]|]; [discriminate|].
      eapply IH; [reflexivity|exact Hin].
Qed.

(** Serving a request adds copies of one request to the upstream log, and
    adds any only when no stage rejected it. *)
Lemma serve_issues r (P : Request -> UpstreamCall -> Prop) attempts upstream req w :
  In r routes ->
  issues (handler r) P ->
  exists n config,
    upstreamCalls (world (serve r attempts upstream req w))
    = (upstreamCalls w ++ repeat config n)%list
    /\ ((0 < n)%nat ->
        earliest (verdicts r req w) = None /\ P (attached req) config).
Proof.
  intros Hr HP.
  destruct (earliest (verdicts r req w)) as [[stages res]|] eqn:E.
  - rewrite (serve_rejected _ _ _ _ _ _ _ Hr E). simpl.
    exists O, (mkCall GET "" "" Js.Undefined Js.Undefined). simpl.
    rewrite app_nil_r. split; [reflexivity|lia].
  - rewrite (serve_admitted _ _ _ _ _ Hr E). simpl.
    destruct (HP attempts upstream (attached req)
                (worldAfter (tl (layers r)) (attached req) w))
      as (n & config & Hc & Hn).
    exists n, config. rewrite Hc, worldAfter_upstream by exact Hr.
    split; [reflexivity|]. intros H. split; [reflexivity|apply Hn, H].
Qed.

(** X2.  No route overwrites or deletes upstream without confirmation: the
    requests a served request adds to the upstream log are copies of one
    request, and when that is a PUT or a DELETE the request's
    X-Confirm-Destructive-Operation header read "true". *)
Theorem no_overwrite_without_confirmation :
  forall r attempts upstream req w,
    In r routes ->
    exists n config,
      upstreamCalls (world (serve r attempts upstream req w))
      = (upstreamCalls w ++ repeat config n)%list
      /\ ((0 < n)%nat -> overwrites (method config) = true ->
          confirms (x_confirm_destructive_operation req) = true).
Proof.
  intros r attempts upstream req w Hr.
  destruct (serve_issues r _ attempts upstream req w Hr (handlers_issue r Hr))
    as (n & config & Hc & Hn).
  exists n, config. split; [exact Hc|].
  intros Hpos Hm. destruct (Hn Hpos) as (E & _ & Hd).
  assert (Hnot : notConfirmed (x_confirm_destructive_operation req) = false).
  { destruct (Hd Hm) as [Hin|Hnc]; [|exact Hnc].
    destruct (routes_shape r Hr) as (f & e & tail & L & Htail).
    rewrite L in Hin.
    destruct Htail as [ -> | [ -> | -> ] ]; simpl in Hin;
      try (intuition discriminate).
    assert (Hv : rejection confirmDestructive (attached req) w = None).
    { apply (earliest_none _ E Confirmation).
      unfold verdicts. rewrite L. simpl. unfold judged. tauto. }
    unfold rejection in Hv. simpl in Hv.
    unfold confirmDestructiveOperationMiddleware in Hv.
    change (x_confirm_destructive_operation (attached req))
      with (x_confirm_destructive_operation req) in Hv.
    destruct (notConfirmed _); [discriminate|reflexivity]. }
  rewrite notConfirmed_confirms in Hnot.
  destruct (confirms _); [reflexivity|discriminate].
Qed.

(** The theorem at work: a delete confirmed with "True" reaches the
    upstream as a DELETE. *)
Lemma no_overwrite_without_confirmation_witness :
  method <$> upstreamCalls
    (world (serve recordsController.deleteRecords 1 (Sample.always Sample.ok)
              MoreSamples.confirmedDelete Sample.freshWorld))
  = [DELETE]
  /\ confirms (x_confirm_destructive_operation MoreSamples.confirmedDelete) = true.
Proof.
  split; [vm_compute; reflexivity|].
  destruct (no_overwrite_without_confirmation recordsController.deleteRecords 1
              (Sample.always Sample.ok) MoreSamples.confirmedDelete
              Sample.freshWorld)
    as (n & config & Hc & Hn).
  { simpl. tauto. }
  assert (E : n = 1%nat /\ method config = DELETE).
  { vm_compute in Hc. destruct n as [|[|n]]; try discriminate.
    inversion Hc. split; reflexivity. }
  destruct E as [-> Hm]. apply Hn; [lia|]. rewrite Hm. reflexivity.
Defined.

(** ** Who reaches the upstream, and with which token *)

Lemma startsWith_Bearer h :
  Js.startsWith "Bearer " h = true -> exists t, h = "Bearer " +:+ t.
Proof.
  unfold Js.startsWith. intros H.
  do 7 (destruct h as [|? h]; cbn [String.prefix] in H; try discriminate;
        destruct (ascii_dec _ _) as [ <- |]; try discriminate).
  exists h. reflexivity.
Qed.

Lemma split_Bearer t :
  Js.split " " ("Bearer " +:+ t) = "Bearer" :: Js.split " " t.
Proof. reflexivity. Qed.

Lemma hasBearerToken_token req :
  hasBearerToken req = true ->
  exists t tok,
    authorization req = Some ("Bearer " +:+ t)
    /\ hd_error (Js.split " " t) = Some tok
    /\ tok <> ""
    /\ bearerOf (attached req) = tok.
Proof.
  unfold hasBearerToken, bearerOf, attached. simpl token.
  destruct (authorization req) as [h|]; [|discriminate].
  intros H. apply andb_prop in H. destruct H as [Hp Ht].
  destruct (startsWith_Bearer h Hp) as [t ->].
  rewrite split_Bearer in Ht. rewrite split_Bearer. simpl nth_error in *.
  destruct (Js.split " " t) as [|tok rest] eqn:Es; simpl in Ht; [discriminate|].
  exists t, tok. rewrite Es. simpl. repeat split.
  intros ->. discriminate.
Qed.

Lemma admitted_has_token r req w :
  In r routes -> earliest (verdicts r req w) = None -> hasBearerToken req = true.
Proof.
  intros Hr E.
  destruct (routes_shape r Hr) as (f & e & tail & L & _).
  assert (Hv : rejection auth req w = None).
  { apply (earliest_none _ E Authenticate).
    unfold verdicts. rewrite L. left. reflexivity. }
  unfold rejection in Hv. simpl in Hv. rewrite authMiddleware_decides in Hv.
  destruct (hasBearerToken req); [reflexivity|discriminate].
Qed.

(** X3.  The token a route forwards upstream is the second space-separated
    piece of the Authorization header: whenever serving a request contacts
    the upstream, the header is "Bearer " followed by some text, and every
    request sent carries the part of that text before its first space,
    which is not empty. *)
Theorem upstream_carries_the_bearer_token :
  forall r attempts upstream req w,
    In r routes ->
    exists n config,
      upstreamCalls (world (serve r attempts upstream req w))
      = (upstreamCalls w ++ repeat config n)%list
      /\ ((0 < n)%nat ->
          exists t,
            authorization req = Some ("Bearer " +:+ t)
            /\ hd_error (Js.split " " t) = Some (bearer config)
            /\ bearer config <> "").
Proof.
  intros r attempts upstream req w Hr.
  destruct (serve_issues r _ attempts upstream req w Hr (handlers_issue r Hr))
    as (n & config & Hc & Hn).
  exists n, config. split; [exact Hc|].
  intros Hpos. destruct (Hn Hpos) as (E & Hb & _).
  destruct (hasBearerToken_token req (admitted_has_token r req w Hr E))
    as (t & tok & Ha & Hh & Hne & Htok).
  exists t. rewrite Hb, Htok. auto.
Qed.

(** The theorem at work: of "Bearer tok extra" the upstream sees "tok". *)
Lemma upstream_carries_the_bearer_token_witness :
  bearer <$> upstreamCalls
    (world (serve recordsController.deleteRecords 1 (Sample.always Sample.ok)
              MoreSamples.confirmedDelete Sample.freshWorld))
  = ["tok"].
Proof.
  destruct (upstream_carries_the_bearer_token recordsController.deleteRecords 1
              (Sample.always Sample.ok) MoreSamples.confirmedDelete
              Sample.freshWorld)
    as (n & config & Hc & Hn).
  { simpl. tauto. }
  rewrite Hc.
  assert (E : n = 1%nat).
  { vm_compute in Hc. destruct n as [|[|n]]; try discriminate. reflexivity. }
  subst n. destruct (Hn ltac:(lia)) as (t & Ha & Hh & _).
  vm_compute in Ha. inversion Ha; subst t.
  change (Some "tok" = Some (bearer config)) in Hh.
  inversion Hh as [Hb]. simpl. rewrite <- Hb. reflexivity.
Defined.

Lemma attached_scopes req :
  tokenScopes (attached req) = Some (scopesOf req).
Proof.
  unfold scopesOf, attached. simpl.
  destruct (x_token_scopes req) as [scopes|]; [|reflexivity].
  simpl. destruct (negb (String.eqb scopes "")); reflexivity.
Qed.

(** X4.  The upstream is contacted only for requests that passed every
    check of the route: a request that adds anything to the upstream log
    carries a bearer token, its plan has the route's feature, and its token
    scopes include the route's scopes. *)
Theorem upstream_only_after_every_check :
  forall r attempts upstream req w,
    In r routes ->
    exists n config feature endpoint tail,
      upstreamCalls (world (serve r attempts upstream req w))
      = (upstreamCalls w ++ repeat config n)%list
      /\ layers r = auth :: featureCheck feature :: scopeCheck endpoint :: tail
      /\ ((0 < n)%nat ->
          hasBearerToken req = true
          /\ BillingPlanModel.hasFeature (planOf req) feature = inr true
          /\ TokenScopeModel.hasRequiredScopesForEndpoint
               (Some (scopesOf req)) endpoint = inr true).
Proof.
  intros r attempts upstream req w Hr.
  destruct (serve_issues r _ attempts upstream req w Hr (handlers_issue r Hr))
    as (n & config & Hc & Hn).
  destruct (routes_shape r Hr) as (f & e & tail & L & _).
  exists n, config, f, e, tail. split; [exact Hc|]. split; [exact L|].
  intros Hpos. destruct (Hn Hpos) as (E & _).
  split; [exact (admitted_has_token r req w Hr E)|].
  assert (Hf : rejection (featureCheck f) (attached req) w = None).
  { apply (earliest_none _ E Entitlement).
    unfold verdicts. rewrite L. simpl. unfold judged. tauto. }
  assert (Hs : rejection (scopeCheck e) (attached req) w = None).
  { apply (earliest_none _ E Scope).
    unfold verdicts. rewrite L. simpl. unfold judged. tauto. }
  split.
  - unfold rejection in Hf. simpl in Hf. unfold featureCheckMiddleware in Hf.
    fold (planOf req) in Hf.
    destruct (BillingPlanModel.hasFeature (planOf req) f) as [err|[|]];
      try discriminate; [reflexivity|].
    destruct (BillingPlanModel.getMinimumPlanForFeature f); discriminate.
  - unfold rejection in Hs. simpl in Hs. unfold scopeCheckMiddleware in Hs.
    rewrite attached_scopes in Hs.
    destruct (TokenScopeModel.hasRequiredScopesForEndpoint (Some (scopesOf req)) e)
      as [err|[|]]; try discriminate; [reflexivity|].
    destruct (TokenScopeModel.requiredScopesFor e); discriminate.
Qed.

(** The theorem at work on the confirmed delete. *)
Lemma upstream_only_after_every_check_witness :
  hasBearerToken MoreSamples.confirmedDelete = true
  /\ length (upstreamCalls
               (world (serve recordsController.deleteRecords 1
                         (Sample.always Sample.ok)
                         MoreSamples.confirmedDelete Sample.freshWorld)))
     = 1%nat.
Proof.
  destruct (upstream_only_after_every_check recordsController.deleteRecords 1
              (Sample.always Sample.ok) MoreSamples.confirmedDelete
              Sample.freshWorld)
    as (n & config & f & e & tail & Hc & _ & Hn).
  { simpl. tauto. }
  assert (E : n = 1%nat).
  { vm_compute in Hc. destruct n as [|[|n]]; try discriminate. reflexivity. }
  subst n. destruct (Hn ltac:(lia)) as (Hb & _).
  split; [exact Hb|]. rewrite Hc. reflexivity.
Defined.

(** ** Where responses come from *)

Lemma api_settles_without_overload attempts upstream config :
  forall w answer,
    fst (AirtableProvider.api attempts upstream config w) = Some answer ->
    isOverload answer = false.
Proof.
  induction attempts as [|attempts IH]; intros w answer; [discriminate|].
  destruct (isOverload (upstream (length (upstreamCalls w)) config)) eqn:E.
  - rewrite api_overloaded by exact E. apply IH.
  - rewrite api_first_answer by exact E. simpl. intros H. inversion H; subst.
    exact E.
Qed.

Lemma dispatch_origin attempts upstream config w res :
  fst (dispatch attempts upstream config w) = Some res -> origin res.
Proof.
  unfold dispatch, AirtableProvider.send.
  pose proof (api_settles_without_overload attempts upstream config w) as H.
  destruct (AirtableProvider.api attempts upstream config w) as [[[d|e]|] w'];
    simpl in *; intros E; inversion E; subst.
  - apply from_upstream_data.
  - apply from_upstream_failure. apply H. reflexivity.
Qed.

Ltac server_origin :=
  match goal with
  | |- origin (errorResponse _ _ _) => apply from_server; simpl; tauto
  | |- origin (invalidRequest _) => apply from_server; simpl; tauto
  | |- origin authenticationRequired => apply from_server; simpl; tauto
  | |- origin confirmationRequired => apply from_server; simpl; tauto
  | |- origin recordsController.confirmationRequiredForPut =>
      apply from_server; simpl; tauto
  end.

Lemma destructuring_origin k body error :
  destructuring k body = Some error -> origin (handleErrorResponse error).
Proof.
  destruct body; intros H; inversion H;
    apply (from_server 500 "SERVER_ERROR"); simpl; tauto.
Qed.

Ltac origin_handler :=
  cbv zeta;
  repeat match goal with
         | |- context [if ?b then _ else _] => destruct b
         | |- context [match ?x with Some _ => _ | None => _ end] => destruct x
         end;
  try apply dispatch_origin;
  simpl; intros H; inversion H; server_origin.

Lemma handlers_origin r attempts upstream req w res :
  In r routes ->
  fst (handler r attempts upstream req w) = Some res -> origin res.
Proof.
  unfold routes. simpl. intros H. revert res.
  repeat (destruct H as [ <- | H ]; [simpl handler|]); try contradiction; intros res.
  - unfold basesController.getBasesHandler. origin_handler.
  - unfold basesController.getBaseSchemaHandler. origin_handler.
  - unfold recordsController.getTableRecordsHandler. origin_handler.
  - unfold recordsController.getRecordHandler. origin_handler.
  - unfold recordsController.createRecordsHandler.
    destruct (destructuring "records" (body req)) as [error|] eqn:Ed;
      [|origin_handler].
    simpl. intros H. inversion H. eapply destructuring_origin, Ed.
  - unfold recordsController.updateRecordsHandler.
    destruct (destructuring "records" (body req)) as [error|] eqn:Ed;
      [|origin_handler].
    simpl. intros H. inversion H. eapply destructuring_origin, Ed.
  - unfold recordsController.deleteRecordsHandler. origin_handler.
  - unfold schemaController.createFieldHandler. origin_handler.
  - unfold schemaController.updateFieldHandler. origin_handler.
  - unfold webhookController.listWebhooksHandler. origin_handler.
  - unfold webhookController.createWebhookHandler. origin_handler.
  - unfold webhookController.deleteWebhookHandler. origin_handler.
  - unfold enterpriseController.getAuditLogsHandler. origin_handler.
  - unfold enterpriseController.getEnterpriseUsersHandler. origin_handler.
Qed.

Lemma layers_origin r req w s res :
  In r routes -> In (s, Some res) (verdicts r req w) -> origin res.
Proof.
  intros Hr. unfold verdicts.
  assert (Ha : forall q, rejection auth q w = Some res -> origin res).
  { intros q. unfold rejection. simpl.
    destruct (authMiddleware_cases q w) as [R|R]; rewrite R; intros H;
      inversion H. server_origin. }
  assert (Hf : forall f q, rejection (featureCheck f) q w = Some res -> origin res).
  { intros f q. unfold rejection. simpl.
    destruct (featureCheckMiddleware f q w) as [res' w'|] eqn:E;
      intros H; inversion H; subst.
    destruct (featureCheck_rejection _ _ _ _ _ E) as [->|(plan & _ & _ & ->)];
      server_origin. }
  assert (Hs : forall e q, rejection (scopeCheck e) q w = Some res -> origin res).
  { intros e q. unfold rejection. simpl. unfold scopeCheckMiddleware.
    destruct (TokenScopeModel.hasRequiredScopesForEndpoint _ e) as [err|[|]];
      try (intros H; inversion H; server_origin).
    destruct (TokenScopeModel.requiredScopesFor e);
      intros H; inversion H; server_origin. }
  assert (Hc : forall q, rejection confirmDestructive q w = Some res -> origin res).
  { intros q. unfold rejection. simpl. unfold confirmDestructiveOperationMiddleware.
    destruct (notConfirmed _); intros H; inversion H. server_origin. }
  assert (Hb : forall q, rejection baseRateLimit q w = Some res -> origin res).
  { intros q. unfold rejection. simpl.
    unfold baseRateLimitMiddleware, RateLimitModel.rateLimit.
    destruct (RateLimitModel.tryAcquire _ _ _ _ _) as [[|after] store];
      intros H; inversion H. apply from_limiter. }
  assert (Hu : forall q, rejection userRateLimit q w = Some res -> origin res).
  { intros q. unfold rejection. simpl.
    unfold userRateLimitMiddleware, RateLimitModel.rateLimit.
    destruct (RateLimitModel.tryAcquire _ _ _ _ _) as [[|after] store];
      intros H; inversion H. apply from_limiter. }
  destruct (routes_shape r Hr) as (f & e & tail & -> & [ -> | [ -> | -> ] ]);
    simpl; unfold judged; intros H;
    repeat (destruct H as [H|H]; [inversion H; subst; clear H|]);
    try contradiction; eauto.
Qed.

Lemma serve_origin r attempts upstream req w res :
  In r routes ->
  response (serve r attempts upstream req w) = Some res -> origin res.
Proof.
  intros Hr H.
  destruct (earliest (verdicts r req w)) as [[stages res']|] eqn:E.
  - rewrite (serve_rejected _ _ _ _ _ _ _ Hr E) in H. simpl in H.
    inversion H; subst.
    destruct (earliest_in _ _ _ E) as [s Hin].
    eapply layers_origin; eassumption.
  - rewrite (serve_admitted _ _ _ _ _ Hr E) in H. simpl in H.
    eapply handlers_origin; eassumption.
Qed.

Lemma upstream_failure_not_429 error :
  isOverload (Rejected error) = false ->
  statusCode (handleErrorResponse (AirtableProvider._handleError error)) <> 429%nat.
Proof.
  intros Ho.
  destruct error as [status [|member]| |m]; try (simpl; discriminate).
  unfold AirtableProvider._handleError, handleErrorResponse. simpl.
  match goal with
  | |- context [match ?t with Some _ => _ | None => _ end] =>
      destruct t as [type|]; [|simpl; discriminate]
  end.
  destruct (negb (status =? 0)%nat && negb (String.eqb type ""));
    [|simpl; discriminate].
  simpl in *. intros ->. discriminate.
Qed.

(** X5.  A 429 from Airtable is never relayed: whenever a route answers
    with status 429, the body is the message object of one of the server's
    own limiters, not an error translated from the upstream. *)
Theorem status_429_is_the_servers_own_limit :
  forall r attempts upstream req w res,
    In r routes ->
    response (serve r attempts upstream req w) = Some res ->
    statusCode res = 429%nat ->
    exists error message,
      json res = JsonLimit error message /\ In error limiterErrors.
Proof.
  intros r attempts upstream req w res Hr H Hs.
  pose proof (verdicts_wellShaped r req w) as Hv.
  assert (Hw : wellShaped res = true).
  { destruct (earliest (verdicts r req w)) as [[stages res']|] eqn:E.
    - rewrite (serve_rejected _ _ _ _ _ _ _ Hr E) in H. simpl in H.
      inversion H; subst. destruct (earliest_in _ _ _ E) as [s Hin].
      eapply Hv; eassumption.
    - rewrite (serve_admitted _ _ _ _ _ Hr E) in H. simpl in H.
      eapply handlers_wellShaped; eassumption. }
  destruct (serve_origin _ _ _ _ _ _ Hr H) as [d|error Ho|code type message Hc|after error message].
  - discriminate.
  - exfalso. exact (upstream_failure_not_429 error Ho Hs).
  - simpl in Hs. subst code. simpl in Hc. intuition discriminate.
  - exists error, message. split; [reflexivity|].
    unfold wellShaped in Hw. simpl in Hw.
    apply andb_prop in Hw. destruct Hw as [_ Hw]. apply includes_In, Hw.
Qed.

(** The theorem at work on a client whose window is used up. *)
Lemma status_429_is_the_servers_own_limit_witness :
  exists error message,
    JsonLimit "RATE_LIMIT_REACHED" "Rate limit exceeded. Please try again later."
    = JsonLimit error message
    /\ In error limiterErrors.
Proof.
  apply (status_429_is_the_servers_own_limit basesController.getBaseSchema 1
           (Sample.always Sample.ok) Sample.readSchema Sample.busyWorld
           (mkResponse 429 (Some 1000)
              (JsonLimit "RATE_LIMIT_REACHED"
                 "Rate limit exceeded. Please try again later."))).
  - simpl. tauto.
  - vm_compute. reflexivity.
  - reflexivity.
Defined.

(** ** Plans *)

Lemma serve_feature_verdict feature endpoint tail h attempts upstream req w :
  hasBearerToken req = true ->
  runLayers (auth :: featureCheck feature :: scopeCheck endpoint :: tail)
    h attempts upstream req w
  = match BillingPlanModel.hasFeature (planOf req) feature with
    | inl _ => mkOutcome [Authenticate; Entitlement] (Some featureCheckFailed) w
    | inr true =>
        logged Authenticate
          (logged Entitlement
             (runLayers (scopeCheck endpoint :: tail) h attempts upstream
                (attached req) w))
    | inr false =>
        match BillingPlanModel.getMinimumPlanForFeature feature with
        | inl _ => mkOutcome [Authenticate; Entitlement] (Some featureCheckFailed) w
        | inr plan =>
            mkOutcome [Authenticate; Entitlement] (Some (featureUnavailable plan)) w
        end
    end.
Proof.
  intros Hb. cbn [runLayers]. simpl run.
  rewrite authMiddleware_decides, Hb.
  unfold featureCheckMiddleware. fold (planOf req).
  destruct (BillingPlanModel.hasFeature (planOf req) feature) as [err|[|]];
    try reflexivity.
  destruct (BillingPlanModel.getMinimumPlanForFeature feature); reflexivity.
Qed.

Lemma scope_stage_ran endpoint tail h attempts upstream req w :
  In Scope
    (ran (logged Authenticate
            (logged Entitlement
               (runLayers (scopeCheck endpoint :: tail) h attempts upstream req w)))).
Proof.
  cbn [runLayers]. simpl stage.
  destruct (run (scopeCheck endpoint) req w); simpl; tauto.
Qed.

Ltac evaluate_feature :=
  match goal with
  | |- context [BillingPlanModel.hasFeature ?p ?f] =>
      let v := eval vm_compute in (BillingPlanModel.hasFeature p f) in
      change (BillingPlanModel.hasFeature p f) with v
  end;
  try match goal with
      | |- context [BillingPlanModel.getMinimumPlanForFeature ?f] =>
          let v := eval vm_compute in (BillingPlanModel.getMinimumPlanForFeature f) in
          change (BillingPlanModel.getMinimumPlanForFeature f) with v
      end;
  cbv iota.

(** X6.  The plan matrix, for a request that carries a token and names one
    of the four plans (or none, which counts as free): the seven base-data
    routes get past the feature check on every plan; the schema, webhook
    and enterprise routes get past it on enterprise_scale only, and on
    free, teams and business are answered 403 FEATURE_UNAVAILABLE naming
    enterprise_scale, with nothing counted and nothing sent upstream. *)
Theorem plan_matrix :
  forall r attempts upstream req w,
    hasBearerToken req = true ->
    In (planOf req) knownPlans ->
    let o := serve r attempts upstream req w in
    (In r baseDataRoutes -> In Scope (ran o))
    /\ (In r enterpriseScaleRoutes ->
        if String.eqb (planOf req) BillingPlanModel.PLANS.ENTERPRISE_SCALE
        then In Scope (ran o)
        else o = mkOutcome [Authenticate; Entitlement]
                   (Some (featureUnavailable BillingPlanModel.PLANS.ENTERPRISE_SCALE))
                   w).
Proof.
  intros r attempts upstream req w Hb Hp o. subst o.
  unfold knownPlans in Hp. simpl in Hp.
  split; intros Hr; simpl in Hr;
    repeat (destruct Hr as [ <- | Hr ]; [|]); try contradiction;
    unfold serve; simpl layers; rewrite serve_feature_verdict by exact Hb;
    repeat (destruct Hp as [ <- | Hp ]; [|]); try contradiction;
    evaluate_feature;
    first [ apply scope_stage_ran | reflexivity ].
Qed.

(** The theorem at work: webhooks on the business plan. *)
Lemma plan_matrix_witness :
  serve webhookController.listWebhooks 1 (Sample.always Sample.ok)
    MoreSamples.businessWebhooks Sample.freshWorld
  = mkOutcome [Authenticate; Entitlement]
      (Some (featureUnavailable "enterprise_scale")) Sample.freshWorld.
Proof.
  destruct (plan_matrix webhookController.listWebhooks 1 (Sample.always Sample.ok)
              MoreSamples.businessWebhooks Sample.freshWorld)
    as [_ H].
  - reflexivity.
  - vm_compute. tauto.
  - apply H. simpl. tauto.
Defined.

Lemma hasFeature_unknown plan feature :
  ~ In plan knownPlans ->
  exists err, BillingPlanModel.hasFeature plan feature = inl err.
Proof.
  intros Hn.
  unfold BillingPlanModel.hasFeature, BillingPlanModel.hasFeatureIn, Js.lookup.
  assert (E : Js.assoc plan BillingPlanModel.PLAN_FEATURES = None).
  { unfold BillingPlanModel.PLAN_FEATURES. simpl.
    repeat match goal with
           | |- (if String.eqb ?a ?b then _ else _) = None =>
               destruct (String.eqb a b) eqn:Heq;
               [ apply String.eqb_eq in Heq; exfalso; apply Hn;
                 rewrite Heq; unfold knownPlans; simpl; tauto | clear Heq ]
           end.
    reflexivity. }
  rewrite E. destruct (Js.includes Js.objectPrototypeKeys plan); eauto.
Qed.

(** X7.  A plan name the table does not have, be it a misspelling or the
    name of something every object inherits, stops a request with a token
    at the feature check on every route: 500 SERVER_ERROR, nothing counted,
    nothing sent upstream. *)
Theorem unknown_plan_is_a_server_error :
  forall r attempts upstream req w,
    In r routes ->
    hasBearerToken req = true ->
    ~ In (planOf req) knownPlans ->
    serve r attempts upstream req w
    = mkOutcome [Authenticate; Entitlement] (Some featureCheckFailed) w.
Proof.
  intros r attempts upstream req w Hr Hb Hn.
  destruct (routes_shape r Hr) as (f & e & tail & L & _).
  unfold serve. rewrite L, serve_feature_verdict by exact Hb.
  destruct (hasFeature_unknown (planOf req) f Hn) as [err ->]. reflexivity.
Qed.

(** The theorem at work on the plan "platinum". *)
Lemma unknown_plan_is_a_server_error_witness :
  serve recordsController.getRecord 1 (Sample.always Sample.ok)
    MoreSamples.platinum Sample.freshWorld
  = mkOutcome [Authenticate; Entitlement] (Some featureCheckFailed)
      Sample.freshWorld.
Proof.
  apply unknown_plan_is_a_server_error.
  - simpl. tauto.
  - reflexivity.
  - vm_compute. intros [H|[H|[H|[H|[]]]]]; discriminate.
Defined.

(** ** Scopes *)

Lemma everyScope_forallb tokenScopes requiredScopes :
  TokenScopeModel.everyScope (Some tokenScopes) requiredScopes
  = inr (forallb (Js.includes tokenScopes) requiredScopes).
Proof.
  induction requiredScopes as [|scope rest IH]; simpl; [reflexivity|].
  destruct (Js.includes tokenScopes scope); simpl; [exact IH|reflexivity].
Qed.

Lemma forallb_includes tokenScopes requiredScopes :
  forallb (Js.includes tokenScopes) requiredScopes = true
  <-> forall s, In s requiredScopes -> In s tokenScopes.
Proof.
  rewrite forallb_forall. split; intros H s Hs.
  - apply includes_In, H, Hs.
  - apply includes_In, H, Hs.
Qed.

(** X8.  For an endpoint the scope table knows, the scope check is set
    inclusion and nothing more: it passes exactly when every scope the
    table lists for the endpoint is among the token's scopes, it never
    throws, more scopes never hurt, and the middleware answers a token that
    falls short with 403 INSUFFICIENT_PERMISSIONS listing all the scopes
    the endpoint requires, not only the missing ones. *)
Theorem scope_check_is_inclusion :
  forall endpoint requiredScopes,
    Js.lookup TokenScopeModel.ENDPOINT_SCOPES endpoint = Js.Own requiredScopes ->
    (forall tokenScopes,
       TokenScopeModel.hasRequiredScopesForEndpoint (Some tokenScopes) endpoint
       = inr (forallb (Js.includes tokenScopes) requiredScopes)
       /\ (forallb (Js.includes tokenScopes) requiredScopes = true
           <-> forall s, In s requiredScopes -> In s tokenScopes))
    /\ (forall tokenScopes more,
          TokenScopeModel.hasRequiredScopesForEndpoint (Some tokenScopes) endpoint
          = inr true ->
          TokenScopeModel.hasRequiredScopesForEndpoint
            (Some (tokenScopes ++ more)%list) endpoint = inr true)
    /\ (forall req w scopes,
          tokenScopes req = Some scopes ->
          scopeCheckMiddleware endpoint req w
          = if forallb (Js.includes scopes) requiredScopes
            then Next req w
            else Respond (insufficientPermissions requiredScopes) w).
Proof.
  intros endpoint requiredScopes Hl.
  assert (Hs : forall tokenScopes,
             TokenScopeModel.hasRequiredScopesForEndpoint (Some tokenScopes) endpoint
             = inr (forallb (Js.includes tokenScopes) requiredScopes)).
  { intros tokenScopes.
    unfold TokenScopeModel.hasRequiredScopesForEndpoint,
           TokenScopeModel.requiredScopesFor.
    rewrite Hl. apply everyScope_forallb. }
  split; [|split].
  - intros tokenScopes. split; [apply Hs|apply forallb_includes].
  - intros tokenScopes more. rewrite !Hs. intros H. inversion H as [H'].
    f_equal. rewrite H'. apply forallb_includes.
    intros s Hin. apply in_or_app. left.
    apply (proj1 (forallb_includes tokenScopes requiredScopes) H' s Hin).
  - intros req w scopes Ht. unfold scopeCheckMiddleware.
    rewrite Ht, Hs. unfold TokenScopeModel.requiredScopesFor. rewrite Hl.
    destruct (forallb _ _); reflexivity.
Qed.

(** The theorem at work on deleteRecords and a read-only token. *)
Lemma scope_check_is_inclusion_witness :
  TokenScopeModel.hasRequiredScopesForEndpoint
    (Some ["data.records:read"]) "deleteRecords" = inr false
  /\ TokenScopeModel.hasRequiredScopesForEndpoint
       (Some ["data.records:read"; "data.records:write"]) "deleteRecords"
     = inr true.
Proof.
  destruct (scope_check_is_inclusion "deleteRecords" ["data.records:write"] eq_refl)
    as (H & _ & _).
  split.
  - rewrite (proj1 (H ["data.records:read"])). reflexivity.
  - rewrite (proj1 (H ["data.records:read"; "data.records:write"])). reflexivity.
Defined.

Lemma split_length c s : length (Js.split c s) = S (countChar c s).
Proof.
  induction s as [|c' s IH]; simpl; [reflexivity|].
  destruct (Ascii.eqb c' c); simpl; [rewrite IH; reflexivity|].
  destruct (Js.split c s) as [|piece pieces]; simpl in *; [discriminate|].
  exact IH.
Qed.

Lemma join_cons sep x y rest :
  Js.join sep (x :: y :: rest) = x +:+ sep +:+ Js.join sep (y :: rest).
Proof. reflexivity. Qed.

(** Splitting at a character and joining with it gives the string back. *)
Lemma join_split c s : Js.join (String c EmptyString) (Js.split c s) = s.
Proof.
  induction s as [|c' s IH]; [reflexivity|].
  simpl Js.split. destruct (Ascii.eqb_spec c' c) as [->|Hne].
  - pose proof (split_length c s) as Hlen.
    destruct (Js.split c s) as [|piece pieces]; [discriminate|].
    rewrite join_cons, IH. reflexivity.
  - pose proof (split_length c s) as Hlen.
    destruct (Js.split c s) as [|piece pieces]; [discriminate|].
    transitivity (String c' (Js.join (String c EmptyString) (piece :: pieces)));
      [destruct pieces; reflexivity|rewrite IH; reflexivity].
Qed.

(** No piece of a split contains the separator. *)
Lemma split_pieces c s :
  List.Forall (fun piece => countChar c piece = O) (Js.split c s).
Proof.
  induction s as [|c' s IH]; simpl.
  - constructor; [reflexivity|constructor].
  - destruct (Ascii.eqb c' c) eqn:E.
    + constructor; [reflexivity|exact IH].
    + destruct (Js.split c s) as [|piece pieces].
      * constructor; [simpl; rewrite E; reflexivity|constructor].
      * inversion IH as [|? ? Hpiece Hpieces]; subst.
        constructor; [simpl; rewrite E; exact Hpiece|exact Hpieces].
Qed.

(** X9.  [authMiddleware] hands a request with a bearer token on, with the
    scopes of its X-Token-Scopes header attached: the header cut at the
    commas and nothing else.  Joining the scopes with commas gives the
    header back and no scope contains a comma, so there is one scope more
    than there are commas and nothing is trimmed; an absent or empty header
    stands for the single scope data.records:read. *)
Theorem token_scopes_are_the_header_cut_at_commas :
  forall req w,
    hasBearerToken req = true ->
    exists req' scopes,
      authMiddleware req w = Next req' w
      /\ tokenScopes req' = Some scopes
      /\ match x_token_scopes req with
         | Some header =>
             if String.eqb header ""
             then scopes = [TokenScopeModel.SCOPES.RECORDS_READ]
             else Js.join "," scopes = header
                  /\ List.Forall (fun scope => countChar "," scope = O) scopes
                  /\ length scopes = S (countChar "," header)
         | None => scopes = [TokenScopeModel.SCOPES.RECORDS_READ]
         end.
Proof.
  intros req w Hb.
  exists (attached req), (scopesOf req).
  split; [rewrite authMiddleware_decides, Hb; reflexivity|].
  split; [apply attached_scopes|].
  unfold scopesOf, attached. simpl tokenScopes.
  destruct (x_token_scopes req) as [header|]; [|reflexivity].
  simpl. destruct (String.eqb header ""); simpl; [reflexivity|].
  split; [apply join_split|]. split; [apply split_pieces|apply split_length].
Qed.

(** The theorem at work on a request with two scopes in its header. *)
Lemma token_scopes_are_the_header_cut_at_commas_witness :
  exists req',
    authMiddleware MoreSamples.twoScopes Sample.freshWorld
    = Next req' Sample.freshWorld
    /\ tokenScopes req' = Some ["data.records:read"; " schema.bases:read"].
Proof.
  destruct (token_scopes_are_the_header_cut_at_commas MoreSamples.twoScopes
              Sample.freshWorld eq_refl)
    as (req' & scopes & Hnext & Hscopes & Hcut).
  exists req'. split; [exact Hnext|].
  vm_compute in Hnext. inversion Hnext; subst req'. reflexivity.
Defined.

Lemma planOf_default req :
  Js.truthyStr (x_billing_plan req) = false ->
  planOf req = BillingPlanModel.PLANS.FREE.
Proof. unfold planOf, attached. simpl. intros ->. reflexivity. Qed.

Lemma scopesOf_default req :
  Js.truthyStr (x_token_scopes req) = false ->
  scopesOf req = [TokenScopeModel.SCOPES.RECORDS_READ].
Proof.
  unfold scopesOf, attached. cbn [tokenScopes].
  destruct (x_token_scopes req) as [scopes|]; [|reflexivity].
  intros ->. reflexivity.
Qed.

Lemma runLayers_scope_verdict endpoint tail h attempts upstream req w scopes :
  tokenScopes req = Some scopes ->
  runLayers (scopeCheck endpoint :: tail) h attempts upstream req w
  = match TokenScopeModel.hasRequiredScopesForEndpoint (Some scopes) endpoint with
    | inr true => logged Scope (runLayers tail h attempts upstream req w)
    | inr false =>
        match TokenScopeModel.requiredScopesFor endpoint with
        | inr requiredScopes =>
            mkOutcome [Scope] (Some (insufficientPermissions requiredScopes)) w
        | inl _ =>
            mkOutcome [Scope]
              (Some (errorResponse 500 "SERVER_ERROR" "Failed to check token scopes."))
              w
        end
    | inl _ =>
        mkOutcome [Scope]
          (Some (errorResponse 500 "SERVER_ERROR" "Failed to check token scopes."))
          w
    end.
Proof.
  intros Hs. cbn [runLayers]. simpl run. simpl stage.
  unfold scopeCheckMiddleware. rewrite Hs.
  destruct (TokenScopeModel.hasRequiredScopesForEndpoint (Some scopes) endpoint)
    as [err|[|]]; try reflexivity.
  destruct (TokenScopeModel.requiredScopesFor endpoint); reflexivity.
Qed.

Lemma admission_stage_ran l tail h attempts upstream req w :
  stage l = Admission ->
  In Admission
    (ran (logged Authenticate
            (logged Entitlement
               (logged Scope (runLayers (l :: tail) h attempts upstream req w))))).
Proof.
  intros Hl. cbn [runLayers]. rewrite Hl.
  destruct (run l req w); simpl; tauto.
Qed.

Ltac evaluate_scopes :=
  match goal with
  | |- context [TokenScopeModel.hasRequiredScopesForEndpoint ?s ?e] =>
      let v := eval vm_compute in (TokenScopeModel.hasRequiredScopesForEndpoint s e) in
      change (TokenScopeModel.hasRequiredScopesForEndpoint s e) with v
  end;
  try match goal with
      | |- context [TokenScopeModel.requiredScopesFor ?e] =>
          let v := eval vm_compute in (TokenScopeModel.requiredScopesFor e) in
          change (TokenScopeModel.requiredScopesFor e) with v
      end;
  cbv iota.

(** X10.  What a token alone buys.  A request with a bearer token and
    neither plan nor scopes header is served as the free plan with the one
    scope data.records:read: it gets as far as the rate limiter on
    getTableRecords and getRecord, is answered 403 INSUFFICIENT_PERMISSIONS
    on the other five base-data routes (listing bases and reading a schema
    included), and 403 FEATURE_UNAVAILABLE on the schema, webhook and
    enterprise routes; none of the refusals counts against a limiter or
    reaches the upstream. *)
Theorem token_alone_reads_records_only :
  forall r attempts upstream req w,
    hasBearerToken req = true ->
    Js.truthyStr (x_billing_plan req) = false ->
    Js.truthyStr (x_token_scopes req) = false ->
    let o := serve r attempts upstream req w in
    (In r [recordsController.getTableRecords; recordsController.getRecord] ->
     In Admission (ran o))
    /\ (In r [basesController.getBases; basesController.getBaseSchema] ->
        o = mkOutcome [Authenticate; Entitlement; Scope]
              (Some (insufficientPermissions [TokenScopeModel.SCOPES.SCHEMA_BASES_READ]))
              w)
    /\ (In r [recordsController.createRecords; recordsController.updateRecords;
              recordsController.deleteRecords] ->
        o = mkOutcome [Authenticate; Entitlement; Scope]
              (Some (insufficientPermissions [TokenScopeModel.SCOPES.RECORDS_WRITE]))
              w)
    /\ (In r enterpriseScaleRoutes ->
        o = mkOutcome [Authenticate; Entitlement]
              (Some (featureUnavailable BillingPlanModel.PLANS.ENTERPRISE_SCALE)) w).
Proof.
  intros r attempts upstream req w Hb Hp Hs o. subst o.
  repeat split; intros Hr; simpl in Hr;
    repeat (destruct Hr as [ <- | Hr ]; [|]); try contradiction;
    unfold serve; simpl layers; rewrite serve_feature_verdict by exact Hb;
    rewrite (planOf_default req Hp); evaluate_feature;
    try reflexivity;
    rewrite (runLayers_scope_verdict _ _ _ _ _ _ _ _ (attached_scopes req));
    rewrite (scopesOf_default req Hs); evaluate_scopes;
    first [ reflexivity | apply admission_stage_ran; reflexivity ].
Qed.

(** The theorem at work: with a token alone, records can be read and bases
    cannot be listed. *)
Lemma token_alone_reads_records_only_witness :
  In Admission
    (ran (serve recordsController.getRecord 1 (Sample.always Sample.ok)
            MoreSamples.tokenOnly Sample.freshWorld))
  /\ serve basesController.getBases 1 (Sample.always Sample.ok)
       MoreSamples.tokenOnly Sample.freshWorld
     = mkOutcome [Authenticate; Entitlement; Scope]
         (Some (insufficientPermissions ["schema.bases:read"])) Sample.freshWorld.
Proof.
  split.
  - apply (token_alone_reads_records_only recordsController.getRecord 1
             (Sample.always Sample.ok) MoreSamples.tokenOnly Sample.freshWorld);
      try reflexivity.
    simpl. tauto.
  - apply (token_alone_reads_records_only basesController.getBases 1
             (Sample.always Sample.ok) MoreSamples.tokenOnly Sample.freshWorld);
      try reflexivity.
    simpl. tauto.
Defined.

(** ** Upstream failures *)

Lemma handleError_translated error :
  handleErrorResponse (AirtableProvider._handleError error) = translated error.
Proof.
  destruct error as [status [|[[|s|[type|] message]|]]| |m]; try reflexivity.
  - destruct s; reflexivity.
  - unfold AirtableProvider._handleError, handleErrorResponse, translated. simpl.
    destruct message as [m|]; [destruct (String.eqb m "") eqn:Em|];
      destruct (negb (status =? 0)%nat && negb (String.eqb type ""));
      try reflexivity;
      unfold errorResponse; repeat f_equal;
      try (rewrite Em; reflexivity).
  - unfold AirtableProvider._handleError, handleErrorResponse, translated. simpl.
    destruct message as [m|]; [destruct (String.eqb m "") eqn:Em|];
      unfold errorResponse; repeat f_equal; try (rewrite Em; reflexivity).
Qed.

(** X11.  How an upstream failure reaches the caller.  A failure that is
    not a 429 is answered after a single upstream request and no wait.  It
    keeps Airtable's status, type, message and error object only when the
    body's error member is an object with a non-empty type; every other
    failure -- a body whose error member is a bare string or has no type, a
    null body, no response at all, a request that could not be set up --
    is answered 500 SERVER_ERROR, whatever status Airtable sent. *)
Theorem upstream_failure_translation :
  forall attempts upstream config w error,
    upstream (length (upstreamCalls w)) config = Rejected error ->
    isOverload (Rejected error) = false ->
    dispatch (S attempts) upstream config w
    = (Some (translated error), AirtableProvider.record config w)
    /\ ((exists message,
           translated error = errorResponse 500 "SERVER_ERROR" message)
        \/ exists status type message,
             error = WithResponse status
                       (DataWith (Some (ErrorObject (Some type) message)))
             /\ type <> "" /\ status <> 0%nat
             /\ statusCode (translated error) = status
             /\ errorType (translated error) = Some type).
Proof.
  intros attempts upstream config w error Hu Ho. split.
  - unfold dispatch, AirtableProvider.send.
    assert (E : isOverload (upstream (length (upstreamCalls w)) config) = false)
      by (rewrite Hu; exact Ho).
    rewrite (api_first_answer attempts upstream config w E), Hu.
    rewrite handleError_translated. reflexivity.
  - destruct error as [status [|[[|s|[type|] message]|]]| |m];
      try (left; eexists; reflexivity).
    unfold translated.
    destruct (negb (status =? 0)%nat && negb (String.eqb type "")) eqn:E.
    + right. exists status, type, message.
      apply andb_prop in E. destruct E as [E0 E].
      repeat split.
      * intros ->. discriminate.
      * intros ->. discriminate.
    + left. eexists. reflexivity.
Qed.

(** The theorem at work: Airtable's 404 with the body
    [{ "error": "NOT_FOUND" }] reaches the caller as a 500. *)
Lemma upstream_failure_translation_witness :
  dispatch 1 (Sample.always (Rejected MoreSamples.notFoundString))
    (AirtableProvider.getBases "tok") Sample.freshWorld
  = (Some (errorResponse 500 "SERVER_ERROR" "Airtable API error"),
     mkWorld ∅ ∅ [AirtableProvider.getBases "tok"] 0).
Proof.
  destruct (upstream_failure_translation 0
              (Sample.always (Rejected MoreSamples.notFoundString))
              (AirtableProvider.getBases "tok") Sample.freshWorld
              MoreSamples.notFoundString eq_refl eq_refl)
    as [H _].
  exact H.
Defined.

(** ** Batches: what counts as one *)

(** X12.  Only updateRecords insists on an array.  A [records] member that
    is truthy but not an array -- a single record object, say -- is turned
    away by updateRecords with "Records array is required", while
    createRecords sends it upstream as it is, its size unchecked. *)
Theorem records_need_not_be_an_array_to_be_created :
  forall attempts upstream req w,
    addressed req = true ->
    Js.truthy (Js.member "records" (body req)) = true ->
    Js.isArray (Js.member "records" (body req)) = false ->
    recordsController.createRecordsHandler attempts upstream req w
    = dispatch attempts upstream (batchCall CreateRecords req) w
    /\ data (batchCall CreateRecords req)
       = Js.Object
           [ ("records", Js.member "records" (body req));
             ("typecast", Js.or (Js.member "typecast" (body req)) (Js.Boolean false));
             ("returnFieldsByFieldId",
              Js.or (Js.member "returnFieldsByFieldId" (body req)) (Js.Boolean false)) ]
    /\ recordsController.updateRecordsHandler attempts upstream req w
       = (Some (invalidRequest "Records array is required"), w).
Proof.
  intros attempts upstream req w Ha Ht Hi.
  unfold addressed in Ha. apply andb_prop in Ha. destruct Ha as [Hb Htab].
  unfold recordsController.createRecordsHandler,
         recordsController.updateRecordsHandler, absent.
  rewrite (truthy_member_destructuring _ "records" _ Ht), Hb, Htab, Ht, Hi.
  simpl. repeat split.
Qed.

(** The theorem at work on a body whose [records] is one object. *)
Lemma records_need_not_be_an_array_to_be_created_witness :
  method <$> upstreamCalls
    (snd (recordsController.createRecordsHandler 1%nat (Sample.always Sample.ok)
            MoreSamples.objectRecords Sample.freshWorld))
  = [POST]
  /\ recordsController.updateRecordsHandler 1%nat (Sample.always Sample.ok)
       MoreSamples.objectRecords Sample.freshWorld
     = (Some (invalidRequest "Records array is required"), Sample.freshWorld).
Proof.
  destruct (records_need_not_be_an_array_to_be_created 1%nat
              (Sample.always Sample.ok) MoreSamples.objectRecords
              Sample.freshWorld eq_refl eq_refl eq_refl)
    as (Hc & _ & Hu).
  split; [rewrite Hc; vm_compute; reflexivity|exact Hu].
Defined.

Lemma trimEnd_idempotent s : Js.trimEnd (Js.trimEnd s) = Js.trimEnd s.
Proof.
  induction s as [|c rest IH]; [reflexivity|].
  simpl. destruct (Js.trimEnd rest) as [|k kept] eqn:E.
  - destruct (Js.isWhiteSpace c) eqn:Ew; simpl; [reflexivity|].
    rewrite Ew. reflexivity.
  - simpl in *. rewrite IH. reflexivity.
Qed.

Lemma trimStart_starts s :
  Js.trimStart s = EmptyString
  \/ exists c rest, Js.trimStart s = String c rest /\ Js.isWhiteSpace c = false.
Proof.
  induction s as [|c rest IH]; simpl; [left; reflexivity|].
  destruct (Js.isWhiteSpace c) eqn:E; [exact IH|].
  right. exists c, rest. split; [reflexivity|exact E].
Qed.

Lemma trimEnd_keeps_head c rest :
  Js.isWhiteSpace c = false ->
  exists kept, Js.trimEnd (String c rest) = String c kept.
Proof.
  intros H. simpl. destruct (Js.trimEnd rest) as [|k kept].
  - rewrite H. eauto.
  - eauto.
Qed.

Lemma trim_idempotent s : Js.trim (Js.trim s) = Js.trim s.
Proof.
  unfold Js.trim.
  destruct (trimStart_starts s) as [->|(c & rest & -> & Hc)]; [reflexivity|].
  destruct (trimEnd_keeps_head c rest Hc) as [kept E].
  rewrite E. simpl Js.trimStart. rewrite Hc. rewrite <- E.
  apply trimEnd_idempotent.
Qed.

Lemma trimStart_split s :
  exists before, s = before +:+ Js.trimStart s /\ blank before = true.
Proof.
  induction s as [|c rest (before & E & Hb)]; [exists ""; split; reflexivity|].
  simpl. destruct (Js.isWhiteSpace c) eqn:Ew.
  - exists (String c before).
    split; [|simpl; rewrite Ew, Hb; reflexivity].
    change (String c rest = String c (before +:+ Js.trimStart rest)).
    f_equal. exact E.
  - exists "". split; reflexivity.
Qed.

Lemma trimEnd_split s :
  exists after, s = Js.trimEnd s +:+ after /\ blank after = true.
Proof.
  induction s as [|c rest (after & E & Hb)]; [exists ""; split; reflexivity|].
  simpl. destruct (Js.trimEnd rest) as [|k kept].
  - change (rest = after) in E. subst after.
    destruct (Js.isWhiteSpace c) eqn:Ew.
    + exists (String c rest).
      split; [reflexivity|simpl; rewrite Ew, Hb; reflexivity].
    + exists rest. split; [reflexivity|exact Hb].
  - exists after. split; [|exact Hb].
    change (String c rest = String c (String k kept +:+ after)).
    f_equal. exact E.
Qed.

Lemma trimStart_first s : unpadded (firstChar (Js.trimStart s)) = true.
Proof.
  induction s as [|c rest IH]; [reflexivity|].
  simpl. destruct (Js.isWhiteSpace c) eqn:Ew; [exact IH|].
  simpl. rewrite Ew. reflexivity.
Qed.

Lemma trimEnd_first s :
  unpadded (firstChar s) = true -> unpadded (firstChar (Js.trimEnd s)) = true.
Proof.
  destruct s as [|c rest]; [reflexivity|].
  simpl. intros Hc. destruct (Js.trimEnd rest) as [|k kept].
  - destruct (Js.isWhiteSpace c) eqn:Ew; [discriminate|].
    simpl. rewrite Ew. reflexivity.
  - exact Hc.
Qed.

Lemma trimEnd_last s : unpadded (lastChar (Js.trimEnd s)) = true.
Proof.
  induction s as [|c rest IH]; [reflexivity|].
  simpl. destruct (Js.trimEnd rest) as [|k kept].
  - destruct (Js.isWhiteSpace c) eqn:Ew; [reflexivity|].
    simpl. rewrite Ew. reflexivity.
  - change (lastChar (String c (String k kept)))
      with (match lastChar (String k kept) with
            | Some l => Some l
            | None => Some c
            end).
    destruct (lastChar (String k kept)) as [l|] eqn:El; [exact IH|].
    simpl in El. destruct (lastChar kept); discriminate.
Qed.

(** What [trim] removes is white space, and it leaves none at either end. *)
Lemma trim_stripped piece : stripped piece (Js.trim piece).
Proof.
  destruct (trimStart_split piece) as (before & Eb & Hb).
  destruct (trimEnd_split (Js.trimStart piece)) as (after & Ea & Ha).
  exists before, after. unfold Js.trim.
  split; [rewrite <- Ea; exact Eb|].
  split; [exact Hb|]. split; [exact Ha|].
  split; [apply trimEnd_first, trimStart_first|apply trimEnd_last].
Qed.

(** X13.  Record ids given as one string are the pieces between its
    commas, each without the white space around it, empty pieces included:
    the pieces, joined by commas, are the string, none of them holds a
    comma, and every id is its piece less the white space before and after.
    There is one id more than there are commas, so the ceiling of 10 counts
    commas: with ten commas or more the delete is turned away, with fewer
    the ids are sent upstream, each as a [records[]] parameter of the
    DELETE request. *)
Theorem delete_ids_are_the_pieces_between_commas :
  forall s attempts upstream req w,
    s <> "" ->
    addressed req = true ->
    query_records req = QueryString s ->
    exists pieces ids,
      Js.join "," pieces = s
      /\ List.Forall (fun piece => countChar "," piece = O) pieces
      /\ List.Forall2 stripped pieces ids
      /\ recordsController.parseRecordIds (QueryString s) = Some ids
      /\ length ids = S (countChar "," s)
      /\ List.Forall (fun id => Js.trim id = id) ids
      /\ recordsController.deleteRecordsHandler attempts upstream req w
         = if (10 <=? countChar "," s)%nat
           then (Some (invalidRequest
                         "Maximum of 10 records can be deleted in a single request"),
                 w)
           else dispatch attempts upstream
                  (mkCall DELETE
                     ("/" +:+ propertyKey (baseId (params req))
                      +:+ "/" +:+ propertyKey (tableIdOrName (params req))
                      +:+ "?"
                      +:+ Js.join "&" (map (fun id => "records[]=" +:+ id) ids))
                     (bearerOf req) Js.Undefined Js.Undefined)
                  w.
Proof.
  intros s attempts upstream req w Hs Ha Hq.
  exists (Js.split "," s), (map Js.trim (Js.split "," s)).
  assert (Hlen : length (map Js.trim (Js.split "," s)) = S (countChar "," s))
    by (rewrite length_map; apply split_length).
  split; [apply (join_split "," s)|]. split; [apply split_pieces|].
  split.
  { generalize (Js.split "," s). intros pieces.
    induction pieces as [|piece pieces IH]; simpl; constructor;
      [apply trim_stripped|exact IH]. }
  split; [reflexivity|]. split; [exact Hlen|]. split.
  - apply List.Forall_forall. intros id Hin. apply in_map_iff in Hin.
    destruct Hin as (piece & <- & _). apply trim_idempotent.
  - unfold addressed in Ha. apply andb_prop in Ha. destruct Ha as [Hb Ht].
    unfold recordsController.deleteRecordsHandler, absent.
    rewrite Hb, Ht, Hq. simpl.
    destruct (String.eqb_spec s "") as [->|_]; [contradiction|].
    rewrite Hlen.
    change (10 <? S (countChar "," s))%nat with (10 <=? countChar "," s)%nat.
    reflexivity.
Qed.

(** The theorem at work on "rec1, rec2". *)
Lemma delete_ids_are_the_pieces_between_commas_witness :
  recordsController.parseRecordIds (QueryString "rec1, rec2")
  = Some ["rec1"; "rec2"]
  /\ url <$> upstreamCalls
       (snd (recordsController.deleteRecordsHandler 1%nat (Sample.always Sample.ok)
               (attached MoreSamples.confirmedDelete) Sample.freshWorld))
     = ["/appA/tblT?records[]=rec1&records[]=rec2"].
Proof.
  destruct (delete_ids_are_the_pieces_between_commas "rec1, rec2" 1%nat
              (Sample.always Sample.ok) (attached MoreSamples.confirmedDelete)
              Sample.freshWorld)
    as (pieces & ids & _ & _ & _ & Hp & _ & _ & Hh).
  - discriminate.
  - reflexivity.
  - reflexivity.
  - split; [reflexivity|]. rewrite Hh.
    vm_compute in Hp. inversion Hp; subst ids. vm_compute. reflexivity.
Defined.
